(** * Webm-to-Gif: a shallow embedding of [unified_converter.py]

    The development follows the video path of the converter: metadata
    probing ([WebmDecoder.get_info]), black-pixel analysis, the transparency
    decision of [convert_webm_to_gif], raw-frame decoding
    ([WebmDecoder.decode_frames]), per-frame transformation
    ([convert_black_to_transparent], the channel fix-up of
    [GifWriter.add_frame]), the encoder handle ([GifWriter]) and the
    orchestration with its cleanup handler.

    Python values are modelled as follows.
    - [int] is [Z]; [float] is an IEEE 754 binary64 value, given by the
      Standard Library's executable specification [spec_float] at precision 53
      and maximal exponent 1024 (round to nearest, ties to even).
    - exceptions are the constructors of [exn]; a computation that may raise
      returns a [result].
    - [bytes] and [uint8] arrays are lists of [Z]; a frame is a
      [(height, width, channels)] array kept as its row-major list of pixels.
    - external processes (ffprobe, ffmpeg) are described by an [Env] record
      that fixes what they answer; the file system is a finite map from paths
      to file contents. *)

From Stdlib Require Import ZArith List Bool Ascii String Lia.
From Stdlib Require Import Floats.SpecFloat.
From Stdlib Require Import Sorting.Sorted.
From stdpp Require Import base option list gmap strings.

Local Open Scope Z_scope.

(* ===================================================================== *)
(** * Python runtime: exceptions, floats, [int()] and [float()]           *)
(* ===================================================================== *)

Module Py.

(** Exceptions raised on the video path.  The constructors from
    [ProbeFailed] on are the [RuntimeError]s of the source, kept apart by
    the content of their message. *)
Inductive exn : Type :=
| FileNotFoundError
| OSError
| KeyError (key : string)
| ValueError
| ZeroDivisionError
| OverflowError
| IndexError
| BrokenPipeError
| AttributeError
| ProbeFailed (stderr : string)       (* "ffprobe failed: ..." *)
| ProbeUnparsable                     (* "Failed to parse ffprobe output" *)
| NoVideoStream                       (* "No video stream found in file" *)
| EncoderDied                         (* "FFmpeg process died" *)
| EncoderFailed (code : Z)            (* "FFmpeg failed with code ..." *)
| FrameProcessingError (index : nat) (cause : exn).
                                      (* "Frame processing error at frame ..." *)

Inductive result (A : Type) : Type :=
| Ok (a : A)
| Raise (e : exn).
Arguments Ok {A} a.
Arguments Raise {A} e.

Definition bind {A B : Type} (c : result A) (k : A -> result B) : result B :=
  match c with
  | Ok a => k a
  | Raise e => Raise e
  end.

Definition is_ok {A : Type} (c : result A) : bool :=
  match c with Ok _ => true | Raise _ => false end.

(** ** binary64 *)

Definition float : Type := spec_float.
Definition prec : Z := 53.
Definition emax : Z := 1024.

Definition fdiv : float -> float -> float := SFdiv prec emax.
Definition fmul : float -> float -> float := SFmul prec emax.
Definition fle : float -> float -> bool := SFleb.
Definition flt : float -> float -> bool := SFltb.

(** The float nearest to an integer (ties to even); an infinity when the
    integer is out of range. *)
Definition round_Z (z : Z) : float := binary_normalize prec emax z 0 false.

Definition fzero : float := S754_zero false.

Definition is_zero (x : float) : bool :=
  match x with S754_zero _ => true | _ => false end.

Definition is_inf (x : float) : bool :=
  match x with S754_infinity _ => true | _ => false end.

(** [float(n)] for an [int] [n], also the implicit conversion of an [int]
    operand in mixed arithmetic. *)
Definition float_of_int (z : Z) : result float :=
  let x := round_Z z in
  if is_inf x then Raise OverflowError else Ok x.

(** [a / b] for two [int]s: the correctly rounded quotient. *)
Definition int_truediv (a b : Z) : result float :=
  match a, b with
  | _, Z0 => Raise ZeroDivisionError
  | Z0, _ => Ok (S754_zero (b <? 0))
  | Zpos p, Zpos q => let x := fdiv (S754_finite false p 0) (S754_finite false q 0) in
                      if is_inf x then Raise OverflowError else Ok x
  | Zpos p, Zneg q => let x := fdiv (S754_finite false p 0) (S754_finite true q 0) in
                      if is_inf x then Raise OverflowError else Ok x
  | Zneg p, Zpos q => let x := fdiv (S754_finite true p 0) (S754_finite false q 0) in
                      if is_inf x then Raise OverflowError else Ok x
  | Zneg p, Zneg q => let x := fdiv (S754_finite true p 0) (S754_finite true q 0) in
                      if is_inf x then Raise OverflowError else Ok x
  end.

(** [x / y] for two [float]s. *)
Definition float_truediv (x y : float) : result float :=
  if is_zero y then Raise ZeroDivisionError else Ok (fdiv x y).

(** [n / y] for an [int] [n] and a [float] [y]. *)
Definition int_div_float (n : Z) (y : float) : result float :=
  bind (float_of_int n) (fun x => float_truediv x y).

(** [int(x)] for a [float] [x]: truncation towards zero. *)
Definition int_of_float (x : float) : result Z :=
  match x with
  | S754_nan => Raise ValueError
  | S754_infinity _ => Raise OverflowError
  | S754_zero _ => Ok 0
  | S754_finite s m e =>
      let a := match e with
               | Zneg k => Z.shiftr (Zpos m) (Zpos k)
               | _ => Z.shiftl (Zpos m) e
               end in
      Ok (if s then - a else a)
  end.

(** ** Strings *)

Definition chars (s : string) : list ascii := list_ascii_of_string s.

(** ASCII characters that [str.strip], [int()] and [float()] treat as
    white space. *)
Definition is_space (c : ascii) : bool :=
  let n := nat_of_ascii c in
  ((9 <=? n)%nat && (n <=? 13)%nat) || ((28 <=? n)%nat && (n <=? 32)%nat).

Definition is_digit (c : ascii) : bool :=
  let n := nat_of_ascii c in (48 <=? n)%nat && (n <=? 57)%nat.

Definition digit_val (c : ascii) : Z := Z.of_nat (nat_of_ascii c) - 48.

Fixpoint lstrip (s : list ascii) : list ascii :=
  match s with
  | c :: t => if is_space c then lstrip t else s
  | [] => []
  end.

Definition strip (s : list ascii) : list ascii :=
  rev (lstrip (rev (lstrip s))).

(** [needle in hay] for strings. *)
Fixpoint is_prefix (p s : list ascii) : bool :=
  match p, s with
  | [], _ => true
  | a :: p', b :: s' => if Ascii.eqb a b then is_prefix p' s' else false
  | _ :: _, [] => false
  end.

Fixpoint contains_chars (needle hay : list ascii) : bool :=
  is_prefix needle hay ||
  match hay with
  | [] => false
  | _ :: t => contains_chars needle t
  end.

Definition str_in (needle hay : string) : bool :=
  contains_chars (chars needle) (chars hay).

(** [s.split(sep)] for a one-character separator. *)
Fixpoint split_chars (sep : ascii) (cur : list ascii) (s : list ascii)
  : list (list ascii) :=
  match s with
  | [] => [rev cur]
  | c :: t => if Ascii.eqb c sep then rev cur :: split_chars sep [] t
              else split_chars sep (c :: cur) t
  end.

Definition split (sep : ascii) (s : string) : list string :=
  map string_of_list_ascii (split_chars sep [] (chars s)).

(** ** Numeric literals

    Both [int()] and [float()] accept an underscore only between two
    digits; such underscores carry no value. *)
Fixpoint underscores_ok (prev_digit : bool) (s : list ascii) : bool :=
  match s with
  | [] => true
  | c :: t =>
      if Ascii.eqb c "_"
      then prev_digit && match t with d :: _ => is_digit d | [] => false end
           && underscores_ok false t
      else underscores_ok (is_digit c) t
  end.

Definition drop_underscores (s : list ascii) : list ascii :=
  List.filter (fun c => negb (Ascii.eqb c "_")) s.

Fixpoint span_digits (s : list ascii) : list ascii * list ascii :=
  match s with
  | c :: t => if is_digit c
              then let '(ds, r) := span_digits t in (c :: ds, r)
              else ([], s)
  | [] => ([], [])
  end.

Definition Z_of_digits (ds : list ascii) : Z :=
  fold_left (fun acc c => 10 * acc + digit_val c) ds 0.

(** An optional sign; [true] is minus. *)
Definition take_sign (s : list ascii) : bool * list ascii :=
  match s with
  | c :: t => if Ascii.eqb c "-" then (true, t)
              else if Ascii.eqb c "+" then (false, t)
              else (false, s)
  | [] => (false, [])
  end.

(** [int(s)] for a [str] [s], base ten. *)
Definition int_of_str (s : string) : result Z :=
  let body := strip (chars s) in
  let '(neg, r) := take_sign body in
  if underscores_ok false r then
    let '(ds, rest) := span_digits (drop_underscores r) in
    match ds, rest with
    | _ :: _, [] => Ok (if neg then - Z_of_digits ds else Z_of_digits ds)
    | _, _ => Raise ValueError
    end
  else Raise ValueError.

(** The float nearest to [m * 10 ^ e], for [m > 0]. *)
Definition decimal_to_float (neg : bool) (m : positive) (e : Z) : float :=
  match e with
  | Zneg k => fdiv (S754_finite neg m 0)
                   (S754_finite false (Pos.pow 10 k) 0)
  | _ => binary_normalize prec emax
           ((if neg then Zneg m else Zpos m) * 10 ^ e) 0 false
  end.

Definition lower (c : ascii) : ascii :=
  let n := nat_of_ascii c in
  if (65 <=? n)%nat && (n <=? 90)%nat then ascii_of_nat (n + 32) else c.

Definition is_exp_mark (c : ascii) : bool :=
  Ascii.eqb c "e" || Ascii.eqb c "E".

(** Mantissa digits and decimal exponent of
    [digits [. [digits]] [e [sign] digits]] or [. digits [e ...]]. *)
Definition decimal_parts (s : list ascii) : option (Z * Z) :=
  let '(ip, r1) := span_digits s in
  let '(fp, r2) := match r1 with
                   | c :: t => if Ascii.eqb c "." then span_digits t else ([], r1)
                   | [] => ([], [])
                   end in
  match ip ++ fp with
  | [] => None
  | ds =>
      let scale := - Z.of_nat (length fp) in
      match r2 with
      | [] => Some (Z_of_digits ds, scale)
      | c :: r3 =>
          if is_exp_mark c then
            let '(eneg, r4) := take_sign r3 in
            let '(ed, r5) := span_digits r4 in
            match ed, r5 with
            | _ :: _, [] =>
                let x := Z_of_digits ed in
                Some (Z_of_digits ds, (if eneg then - x else x) + scale)
            | _, _ => None
            end
          else None
      end
  end.

(** [float(s)] for a [str] [s]. *)
Definition float_of_str (s : string) : result float :=
  let body := strip (chars s) in
  let '(neg, r) := take_sign body in
  let word := string_of_list_ascii (map lower r) in
  if (String.eqb word "inf" || String.eqb word "infinity")%bool
  then Ok (S754_infinity neg)
  else if String.eqb word "nan" then Ok S754_nan
  else if underscores_ok false r then
    match decimal_parts (drop_underscores r) with
    | Some (Zpos m, e) => Ok (decimal_to_float neg m e)
    | Some (_, _) => Ok (S754_zero neg)
    | None => Raise ValueError
    end
  else Raise ValueError.

(** Float literals of the source. *)
Definition lit_30_0 : float := round_Z 30.
Definition lit_10_0 : float := round_Z 10.
Definition lit_0_0 : float := fzero.
Definition lit_0_1 : float := decimal_to_float false 1 (-1).

End Py.

Export Py.

Declare Scope py_scope.
Delimit Scope py_scope with py.
Notation "x <- c ;; k" := (Py.bind c (fun x => k))
  (at level 100, c at next level, right associativity) : py_scope.
Local Open Scope py_scope.

(* ===================================================================== *)
(** * Data model                                                          *)
(* ===================================================================== *)

(** A [numpy] array of dtype [uint8] and shape [(height, width, channels)],
    kept as the row-major list of its pixels; a pixel is the list of its
    channel values. *)
Record Frame : Type := {
  height : nat;
  width : nat;
  channels : nat;
  pixels : list (list Z)
}.

(** The shape invariant every [numpy] array satisfies. *)
Definition Frame_wf (f : Frame) : Prop :=
  length (pixels f) = (height f * width f)%nat /\
  Forall (fun px => length px = channels f) (pixels f).

Definition frame_wfb (f : Frame) : bool :=
  Nat.eqb (length (pixels f)) (height f * width f) &&
  forallb (fun px => Nat.eqb (length px) (channels f)) (pixels f).

(** [np.frombuffer(raw, dtype=np.uint8).reshape((h, w, c))] *)
Fixpoint reshape_pixels (count c : nat) (raw : list Z) : list (list Z) :=
  match count with
  | O => []
  | S k => take c raw :: reshape_pixels k c (drop c raw)
  end.

Definition frombuffer_reshape (h w c : nat) (raw : list Z) : Frame :=
  {| height := h; width := w; channels := c;
     pixels := reshape_pixels (h * w) c raw |}.

(** [frame.tobytes()] *)
Definition tobytes (f : Frame) : list Z := concat (pixels f).

(** [np.full((h, w, 1), 255, dtype=np.uint8)], also
    [np.ones((h, w, 1), dtype=np.uint8) * 255]. *)
Definition opaque_alpha (h w : nat) : Frame :=
  {| height := h; width := w; channels := 1;
     pixels := repeat [255] (h * w) |}.

(** [np.concatenate([f, g], axis=2)] for [f] and [g] of equal height and
    width. *)
Definition concatenate_axis2 (f g : Frame) : Frame :=
  {| height := height f; width := width f;
     channels := channels f + channels g;
     pixels := zip_with (@app Z) (pixels f) (pixels g) |}.

(** [frame[:, :, :3]] *)
Definition first_three_channels (f : Frame) : Frame :=
  {| height := height f; width := width f;
     channels := Nat.min 3 (channels f);
     pixels := map (take 3) (pixels f) |}.

(** What ffprobe prints for the first video stream ([-of json]): sizes are
    JSON numbers, the other entries are JSON strings; an entry ffprobe does
    not print is [None]. *)
Record Stream : Type := {
  s_width : option nat;
  s_height : option nat;
  s_r_frame_rate : option string;
  s_duration : option string;
  s_nb_frames : option string;
  s_pix_fmt : option string
}.

Record Format : Type := { f_duration : option string }.

Record ProbeData : Type := {
  d_streams : option (list Stream);
  d_format : option Format
}.

(** The outcome of [subprocess.run(cmd, check=True)] followed by
    [json.loads]. *)
Inductive ProbeRun : Type :=
| RunRaised (e : exn)                    (* the call itself raised *)
| CalledProcessError (stderr : string)   (* non-zero exit status *)
| Completed (parsed : option ProbeData). (* [None]: JSONDecodeError *)

(** The dictionary built by [WebmDecoder.get_info]. *)
Record VideoInfo : Type := {
  i_width : nat;
  i_height : nat;
  i_fps : float;
  i_duration : float;
  i_nb_frames : Z;
  i_has_alpha : bool;
  i_pix_fmt : string
}.

(** A [pathlib.Path], split the way [with_suffix] looks at it: the text up
    to and including the last separator, then the stem and the suffix of the
    final component. *)
Record Path : Type := {
  p_dir : string;
  p_stem : string;
  p_suffix : string
}.

Definition path_name (p : Path) : string := p_stem p +:+ p_suffix p.
Definition path_str (p : Path) : string := p_dir p +:+ path_name p.

(** [p.with_suffix(suffix)] for a suffix that starts with a dot. *)
Definition with_suffix (p : Path) (suffix : string) : result Path :=
  if String.eqb (path_name p) "" then Raise ValueError
  else Ok {| p_dir := p_dir p; p_stem := p_stem p; p_suffix := suffix |}.

(** The file system: the content of every existing file, by path. *)
Abbreviation FS := (gmap string (list Z)).

Definition exists_ (path : string) (fs : FS) : bool := bool_decide (is_Some (fs !! path)).
Definition unlink (path : string) (fs : FS) : FS := delete path fs.

(** The command line of the encoder, as [_start_ffmpeg] builds it: the filter
    graph reserves a transparent palette entry and uses alpha threshold 128
    exactly when [c_transparency] is set, and the input pixel format is
    [rgba] then, [rgb24] otherwise. *)
Record EncoderCmd : Type := {
  c_transparency : bool;
  c_width : nat;
  c_height : nat;
  c_fps : float;
  c_output : string
}.

(** A running encoder: its command and what was written to its input. *)
Record Popen : Type := {
  cmd : EncoderCmd;
  stdin_data : list (list Z)
}.

Inductive WriteOutcome : Type :=
| Written
| BrokenPipe (exited : bool).   (* [exited]: [poll()] is not [None] *)

(** The moments at which the program deals with the encoder. *)
Inductive EncoderEvent : Type := AtSpawn | AtWrite | AtWait.

(** The processes outside the program. *)
Record Env : Type := {
  (** ffprobe on a file *)
  ffprobe : string -> ProbeRun;
  (** the sampling run of ffmpeg: frame stride, scaled width and height,
      number of frames; the answer is the return code and standard output *)
  ffmpeg_sample : string -> Z -> nat -> nat -> nat -> result (Z * list Z);
  (** the decoding run of ffmpeg; the flag asks for [rgba] instead of
      [rgb24]; the answer is the whole raw stream the process writes *)
  ffmpeg_decode : string -> bool -> result (list Z);
  (** starting the encoder *)
  enc_spawn : EncoderCmd -> result unit;
  (** writing a chunk to the encoder's input *)
  enc_write : Popen -> list Z -> WriteOutcome;
  (** the encoder's exit status once its input is closed *)
  enc_returncode : Popen -> Z;
  (** what the encoder has done to the file system when the program next
      looks at it *)
  enc_files : EncoderEvent -> Popen -> FS -> FS
}.

(* ===================================================================== *)
(** * [class WebmDecoder]                                                 *)
(* ===================================================================== *)

Module WebmDecoder.

Record t : Type := {
  filepath : string;
  _info : option VideoInfo
}.

(** [__init__] *)
Definition init (filepath : string) (fs : FS) : result t :=
  if exists_ filepath fs
  then Ok {| filepath := filepath; _info := None |}
  else Raise FileNotFoundError.

(** Lines 130-136: the frame rate. *)
Definition parse_frame_rate (fps_str : string) : result float :=
  if str_in "/" fps_str then
    match split "/" fps_str with
    | [a; b] =>
        num <- int_of_str a ;;
        den <- int_of_str b ;;
        if negb (den =? 0) then int_truediv num den else Ok lit_30_0
    | _ => Raise ValueError
    end
  else float_of_str fps_str.

(** Lines 139-143: the duration the container or the stream declares. *)
Definition declared_duration (data : ProbeData) (stream : Stream)
  : result (option float) :=
  match match d_format data with
        | Some fmt => f_duration fmt
        | None => None
        end with
  | Some s => d <- float_of_str s ;; Ok (Some d)
  | None =>
      match s_duration stream with
      | Some s => d <- float_of_str s ;; Ok (Some d)
      | None => Ok None
      end
  end.

(** Lines 145-150: the fallbacks.  [if nb_frames:] holds for a non-empty
    string. *)
Definition fallback_duration (stream : Stream) (fps : float) : result float :=
  match s_nb_frames stream with
  | Some nb_frames =>
      if String.eqb nb_frames "" then Ok lit_10_0
      else n <- int_of_str nb_frames ;; int_div_float n fps
  | None => Ok lit_10_0
  end.

(** Lines 138-150. *)
Definition probe_duration (data : ProbeData) (stream : Stream) (fps : float)
  : result float :=
  duration <- declared_duration data stream ;;
  match duration with
  | None => fallback_duration stream fps
  | Some d => if fle d lit_0_0 then fallback_duration stream fps else Ok d
  end.

(** Line 154. *)
Definition detect_alpha (pix_fmt : string) : bool :=
  str_in "yuva" pix_fmt || str_in "rgba" pix_fmt || str_in "argb" pix_fmt.

(** Lines 125-164: from the parsed ffprobe output to the info dictionary. *)
Definition parse_probe (data : ProbeData) : result VideoInfo :=
  match d_streams data with
  | None | Some [] => Raise NoVideoStream
  | Some (stream :: _) =>
      fps <- parse_frame_rate (default "30/1"%string (s_r_frame_rate stream)) ;;
      duration <- probe_duration data stream fps ;;
      let pix_fmt := default ""%string (s_pix_fmt stream) in
      let has_alpha := detect_alpha pix_fmt in
      match s_width stream with
      | None => Raise (KeyError "width")
      | Some w =>
          match s_height stream with
          | None => Raise (KeyError "height")
          | Some h =>
              nb <- match s_nb_frames stream with
                    | Some s => int_of_str s
                    | None => Ok 0
                    end ;;
              Ok {| i_width := w; i_height := h; i_fps := fps;
                    i_duration := duration; i_nb_frames := nb;
                    i_has_alpha := has_alpha; i_pix_fmt := pix_fmt |}
          end
      end
  end.

(** [get_info]: the answer and the decoder with its cache filled. *)
Definition get_info (env : Env) (self : t) : result VideoInfo * t :=
  match _info self with
  | Some info => (Ok info, self)
  | None =>
      match ffprobe env (filepath self) with
      | RunRaised e => (Raise e, self)
      | CalledProcessError stderr => (Raise (ProbeFailed stderr), self)
      | Completed None => (Raise ProbeUnparsable, self)
      | Completed (Some data) =>
          match parse_probe data with
          | Ok info => (Ok info, {| filepath := filepath self; _info := Some info |})
          | Raise e => (Raise e, self)
          end
      end
  end.

(** ** [analyze_black_pixels] *)

(** [range(0, n, step)] for [step > 0]. *)
Definition range_step (n step : nat) : list nat :=
  map (fun k => (k * step)%nat) (seq 0 (Nat.div (n + step - 1) step)).

(** Pixels of a flat [rgb24] buffer whose three values are all below 20. *)
Definition count_near_black (frame_data : list Z) : Z :=
  let px := reshape_pixels (Nat.div (length frame_data) 3) 3 frame_data in
  Z.of_nat (length (List.filter (forallb (fun v => v <? 20)) px)).

(** The sampling loop, with its [break] on a short last chunk. *)
Fixpoint black_loop (starts : list nat) (data : list Z) (frame_size : nat)
         (total_black total_pixels : Z) : Z * Z :=
  match starts with
  | [] => (total_black, total_pixels)
  | i :: rest =>
      let frame_data := take frame_size (drop i data) in
      if (length frame_data <? frame_size)%nat
      then (total_black, total_pixels)
      else black_loop rest data frame_size
             (total_black + count_near_black frame_data)
             (total_pixels + Z.of_nat (length frame_data) / 3)
  end.

Definition analyze_black_pixels (env : Env) (self : t) (sample_frames : nat)
  : result float * t :=
  match get_info env self with
  | (Raise e, self) => (Raise e, self)
  | (Ok info, self) =>
      let w := Nat.min 320 (i_width info) in
      let h := Nat.min 240 (i_height info) in
      let stride := Z.max 1 (i_nb_frames info / Z.of_nat sample_frames) in
      (match sample_frames with
       | O => Raise ZeroDivisionError
       | S _ =>
           match ffmpeg_sample env (filepath self) stride w h sample_frames with
           | Raise e => Raise e
           | Ok (returncode, data) =>
               if negb (returncode =? 0) then Ok lit_0_0
               else
                 let frame_size := (w * h * 3)%nat in
                 match frame_size with
                 | O => Raise ValueError
                 | S _ =>
                     let '(total_black, total_pixels) :=
                       black_loop (range_step (length data) frame_size)
                                  data frame_size 0 0 in
                     if 0 <? total_pixels
                     then Ok (fdiv (round_Z total_black) (round_Z total_pixels))
                     else Ok lit_0_0
                 end
           end
       end, self)
  end.

(** ** [decode_frames]

    The generator is a state and a step function: each [next] either
    yields a frame with its timestamp, stops, or raises. *)
Record Generator : Type := {
  g_height : nat;
  g_width : nat;
  g_channels : nat;
  g_fps : float;
  g_stdout : list Z;       (* what the decoder process has still to deliver *)
  g_frame_count : nat
}.

Inductive Step : Type :=
| Yield (frame : Frame) (pts : float) (g : Generator)
| Stop
| Throw (e : exn).

(** The code before the loop: pixel format and process. *)
Definition decode_frames (env : Env) (self : t) (use_alpha : bool)
  : result Generator * t :=
  match get_info env self with
  | (Raise e, self) => (Raise e, self)
  | (Ok info, self) =>
      let rgba := i_has_alpha info || use_alpha in
      let channels := if rgba then 4%nat else 3%nat in
      (match ffmpeg_decode env (filepath self) rgba with
       | Raise e => Raise e
       | Ok stdout =>
           Ok {| g_height := i_height info; g_width := i_width info;
                 g_channels := channels; g_fps := i_fps info;
                 g_stdout := stdout; g_frame_count := 0 |}
       end, self)
  end.

(** One turn of the [while True] loop. *)
Definition next (g : Generator) : Step :=
  let frame_size := (g_width g * g_height g * g_channels g)%nat in
  let raw_frame := take frame_size (g_stdout g) in
  if negb (Nat.eqb (length raw_frame) frame_size) then Stop
  else
    let frame := frombuffer_reshape (g_height g) (g_width g) (g_channels g) raw_frame in
    match int_div_float (Z.of_nat (g_frame_count g)) (g_fps g) with
    | Raise e => Throw e
    | Ok pts =>
        Yield frame pts
              {| g_height := g_height g; g_width := g_width g;
                 g_channels := g_channels g; g_fps := g_fps g;
                 g_stdout := drop frame_size (g_stdout g);
                 g_frame_count := S (g_frame_count g) |}
    end.

(** Draining the generator, as [list(decoder.decode_frames(...))] would:
    the frames yielded and how the iteration ended ([None]: normally).
    The outer [None] means that [fuel] turns were not enough. *)
Fixpoint drain (fuel : nat) (g : Generator)
  : option (list (Frame * float) * option exn) :=
  match fuel with
  | O => None
  | S fuel' =>
      match next g with
      | Stop => Some ([], None)
      | Throw e => Some ([], Some e)
      | Yield frame pts g' =>
          match drain fuel' g' with
          | Some (items, ending) => Some ((frame, pts) :: items, ending)
          | None => None
          end
      end
  end.

End WebmDecoder.

(* ===================================================================== *)
(** * [class GifWriter]                                                   *)
(* ===================================================================== *)

Module GifWriter.

Record t : Type := {
  output_path : string;
  fps : float;
  use_transparency : bool;
  process : option Popen;
  frame_count : nat;
  _width : option nat;
  _height : option nat
}.

(** [__init__] *)
Definition init (output_path : string) (fps : float) (use_transparency : bool) : t :=
  {| output_path := output_path; fps := fps;
     use_transparency := use_transparency;
     process := None; frame_count := 0; _width := None; _height := None |}.

(** [_start_ffmpeg] *)
Definition _start_ffmpeg (env : Env) (self : t) (width height : nat) (fs : FS)
  : result unit * t * FS :=
  let command := {| c_transparency := use_transparency self;
                    c_width := width; c_height := height;
                    c_fps := fps self; c_output := output_path self |} in
  match enc_spawn env command with
  | Raise e =>
      (Raise e,
       {| output_path := output_path self; fps := fps self;
          use_transparency := use_transparency self;
          process := process self; frame_count := frame_count self;
          _width := Some width; _height := Some height |},
       fs)
  | Ok _ =>
      let p := {| cmd := command; stdin_data := [] |} in
      (Ok tt,
       {| output_path := output_path self; fps := fps self;
          use_transparency := use_transparency self;
          process := Some p; frame_count := frame_count self;
          _width := Some width; _height := Some height |},
       enc_files env AtSpawn p fs)
  end.

(** Lines 319-328 of [add_frame]: the frame in the format the encoder was
    started for. *)
Definition ensure_format (use_transparency : bool) (frame : Frame) : Frame :=
  if use_transparency then
    if Nat.eqb (channels frame) 3
    then concatenate_axis2 frame (opaque_alpha (height frame) (width frame))
    else frame
  else
    if Nat.eqb (channels frame) 4
    then first_three_channels frame
    else frame.

(** [add_frame]; the dtype of a [Frame] is always [uint8], so the clipping
    branch is never taken. *)
Definition add_frame (env : Env) (self : t) (frame : Frame) (fs : FS)
  : result unit * t * FS :=
  let '(started, self, fs) :=
    match process self with
    | None => _start_ffmpeg env self (width frame) (height frame) fs
    | Some _ => (Ok tt, self, fs)
    end in
  match started with
  | Raise e => (Raise e, self, fs)
  | Ok _ =>
      let frame := ensure_format (use_transparency self) frame in
      match process self with
      | None => (Raise AttributeError, self, fs)
      | Some p =>
          match enc_write env p (tobytes frame) with
          | Written =>
              let p' := {| cmd := cmd p;
                           stdin_data := stdin_data p ++ [tobytes frame] |} in
              (Ok tt,
               {| output_path := output_path self; fps := fps self;
                  use_transparency := use_transparency self;
                  process := Some p'; frame_count := S (frame_count self);
                  _width := _width self; _height := _height self |},
               enc_files env AtWrite p' fs)
          | BrokenPipe exited =>
              (Raise (if exited then EncoderDied else BrokenPipeError),
               self, enc_files env AtWrite p fs)
          end
      end
  end.

(** [close] *)
Definition close (env : Env) (self : t) (fs : FS) : result unit * t * FS :=
  match process self with
  | Some p =>
      let fs := enc_files env AtWait p fs in
      let returncode := enc_returncode env p in
      if negb (returncode =? 0)
      then (Raise (EncoderFailed returncode), self, fs)
      else (Ok tt,
            {| output_path := output_path self; fps := fps self;
               use_transparency := use_transparency self;
               process := None; frame_count := frame_count self;
               _width := _width self; _height := _height self |},
            fs)
  | None => (Ok tt, self, fs)
  end.

End GifWriter.

(* ===================================================================== *)
(** * [convert_black_to_transparent]                                      *)
(* ===================================================================== *)

(** One entry of [np.all(frame[:, :, :3] <= threshold, axis=2)]. *)
Definition is_black (threshold : Z) (px : list Z) : bool :=
  forallb (fun v => v <=? threshold) (take 3 px).

Definition black_mask (frame : Frame) (threshold : Z) : list bool :=
  map (is_black threshold) (pixels frame).

(** [frame[mask, ch] = v], in place.  numpy checks the channel index [ch]
    against the shape whatever the mask selects, and raises [IndexError]
    when the array has no such channel. *)
Definition assign_masked (frame : Frame) (mask : list bool) (ch : nat) (v : Z)
  : result Frame :=
  if (ch <? channels frame)%nat then
    Ok {| height := height frame; width := width frame;
          channels := channels frame;
          pixels := zip_with (fun px (b : bool) => if b then <[ch := v]> px else px)
                             (pixels frame) mask |}
  else Raise IndexError.

(** The function on array values: what it returns for a given argument. *)
Definition convert_black_to_transparent (frame : Frame) (threshold : Z)
  : result Frame :=
  let frame :=
    if Nat.eqb (channels frame) 3
    then concatenate_axis2 frame (opaque_alpha (height frame) (width frame))
    else frame in
  let mask := black_mask frame threshold in
  assign_masked frame mask 3 0.

(** The function on array objects.  A variable holds the address of an
    array; [np.array(frame, copy=True)], [np.ones(...) * 255] and
    [np.concatenate] each make a new array, and [frame[black_mask, 3] = 0]
    writes into the array the local variable [frame] refers to at that
    point. *)
Module Store.

Abbreviation Heap := (gmap positive Frame).

Definition alloc (v : Frame) (h : Heap) : positive * Heap :=
  let l := fresh (dom h) in (l, <[l := v]> h).

(** The outer [None]: the argument is not the address of an array. *)
Definition convert_black_to_transparent (frame : positive) (threshold : Z) (h : Heap)
  : option (result positive * Heap) :=
  match h !! frame with
  | None => None
  | Some v =>
      let '(frame, h) := alloc v h in
      let '(frame, v, h) :=
        if Nat.eqb (channels v) 3 then
          let '(alpha, h) := alloc (opaque_alpha (height v) (width v)) h in
          let v' := concatenate_axis2 v (opaque_alpha (height v) (width v)) in
          let '(frame', h) := alloc v' h in
          (frame', v', h)
        else (frame, v, h) in
      let mask := black_mask v threshold in
      match assign_masked v mask 3 0 with
      | Ok v' => Some (Ok frame, <[frame := v']> h)
      | Raise e => Some (Raise e, h)
      end
  end.

End Store.

(* ===================================================================== *)
(** * [convert_webm_to_gif]                                               *)
(* ===================================================================== *)

(** The two flags set by lines 390-407. *)
Record Plan : Type := {
  use_transparency : bool;
  convert_black : bool
}.

(** Lines 390-407.  [black_ratio] is the value [analyze_black_pixels]
    returns; the source evaluates it on the second branch only. *)
Definition plan_transparency (has_alpha : bool) (black_ratio : float) : Plan :=
  let use_transparency := false in
  let convert_black := false in
  if has_alpha then
    {| use_transparency := true; convert_black := convert_black |}
  else if flt lit_0_1 black_ratio then
    {| use_transparency := true; convert_black := true |}
  else
    {| use_transparency := use_transparency; convert_black := convert_black |}.

(** The threshold passed at line 425. *)
Definition black_threshold : Z := 16.

(** Lines 423-425: what is done to a decoded frame before it is written. *)
Definition transform_frame (plan : Plan) (frame : Frame) : result Frame :=
  if convert_black plan
  then convert_black_to_transparent frame black_threshold
  else Ok frame.

(** Lines 422-431: the frame loop; a failure carries the index of the
    frame.  [None] means that [fuel] turns were not enough. *)
Fixpoint frame_loop (fuel : nat) (env : Env) (plan : Plan)
         (g : WebmDecoder.Generator) (writer : GifWriter.t)
         (frame_count : nat) (fs : FS)
  : option (result unit * GifWriter.t * FS) :=
  match fuel with
  | O => None
  | S fuel' =>
      match WebmDecoder.next g with
      | WebmDecoder.Stop => Some (Ok tt, writer, fs)
      | WebmDecoder.Throw e =>
          Some (Raise (FrameProcessingError frame_count e), writer, fs)
      | WebmDecoder.Yield frame pts g' =>
          match transform_frame plan frame with
          | Raise e => Some (Raise (FrameProcessingError frame_count e), writer, fs)
          | Ok frame =>
              match GifWriter.add_frame env writer frame fs with
              | (Raise e, writer, fs) =>
                  Some (Raise (FrameProcessingError frame_count e), writer, fs)
              | (Ok _, writer, fs) =>
                  frame_loop fuel' env plan g' writer (S frame_count) fs
              end
          end
      end
  end.

(** Lines 386-445: the body of the [try]. *)
Definition convert_body (fuel : nat) (env : Env) (webm_path gif_path : Path) (fs : FS)
  : option (result Path * FS) :=
  match WebmDecoder.init (path_str webm_path) fs with
  | Raise e => Some (Raise e, fs)
  | Ok decoder =>
  match WebmDecoder.get_info env decoder with
  | (Raise e, _) => Some (Raise e, fs)
  | (Ok info, decoder) =>
  match (if i_has_alpha info then (Ok lit_0_0, decoder)
         else WebmDecoder.analyze_black_pixels env decoder 10) with
  | (Raise e, _) => Some (Raise e, fs)
  | (Ok black_ratio, decoder) =>
  let plan := plan_transparency (i_has_alpha info) black_ratio in
  match int_of_float (fmul (i_duration info) (i_fps info)) with
  | Raise e => Some (Raise e, fs)
  | Ok estimated_frames =>
  let writer :=
    GifWriter.init (path_str gif_path) (i_fps info) (use_transparency plan) in
  match WebmDecoder.decode_frames env decoder (convert_black plan) with
  | (Raise e, _) => Some (Raise (FrameProcessingError 0 e), fs)
  | (Ok g, _) =>
  match frame_loop fuel env plan g writer 0 fs with
  | None => None
  | Some (Raise e, _, fs) => Some (Raise e, fs)
  | Some (Ok _, writer, fs) =>
  match GifWriter.close env writer fs with
  | (Raise e, _, fs) => Some (Raise e, fs)
  | (Ok _, _, fs) =>
  match fs !! path_str gif_path with
  | None => Some (Raise FileNotFoundError, fs)
  | Some _ => Some (Ok gif_path, fs)
  end end end end end end end end.

(** Lines 447-451: the handler of the [try]. *)
Definition cleanup (gif_path : Path) (fs : FS) : FS :=
  if exists_ (path_str gif_path) fs then unlink (path_str gif_path) fs else fs.

Definition convert_webm_to_gif (fuel : nat) (env : Env)
           (webm_path : Path) (gif_path : option Path) (fs : FS)
  : option (result Path * FS) :=
  match match gif_path with
        | None => with_suffix webm_path ".gif"
        | Some p => Ok p
        end with
  | Raise e => Some (Raise e, fs)
  | Ok gif_path =>
      match convert_body fuel env webm_path gif_path fs with
      | None => None
      | Some (Ok p, fs) => Some (Ok p, fs)
      | Some (Raise e, fs) => Some (Raise e, cleanup gif_path fs)
      end
  end.

(* ===================================================================== *)
(** * Batch discovery and the command line                                *)
(* ===================================================================== *)

(** One entry of [directory.iterdir()], with what the file system answers
    about it. *)
Record DirEntry : Type := {
  e_path : Path;
  e_is_file : bool;            (* [entry.is_file()], which follows a link *)
  e_is_symlink : bool;         (* [entry.is_symlink()] *)
  e_resolved : Path;           (* [entry.resolve()] *)
  e_resolved_is_file : bool    (* [entry.resolve().is_file()] *)
}.

(** What the host answers besides the content of files: directories, and
    the lottie library ([parse_tgs] followed by [export_gif]) run on an input
    and an output path. *)
Record Host : Type := {
  is_dir : string -> bool;
  iterdir : string -> result (list DirEntry);
  tgs_export : string -> string -> FS -> result unit * FS
}.

(** [s.lower()] on ASCII letters. *)
Definition lower_str (s : string) : string :=
  string_of_list_ascii (map lower (chars s)).

(** [s in extensions] for a list of strings. *)
Definition str_in_list (s : string) (l : list string) : bool :=
  existsb (String.eqb s) l.

(** [gif_path.exists() and gif_path.stat().st_size > 0] *)
Definition non_empty_file (path : string) (fs : FS) : bool :=
  match fs !! path with
  | Some content => (0 <? length content)%nat
  | None => false
  end.

(** [sorted(files, key=lambda x: x[0].name)]: a stable sort on the name of
    the input; strings compare by code point. *)
Fixpoint insert_by_name (x : Path * Path) (l : list (Path * Path))
  : list (Path * Path) :=
  match l with
  | [] => [x]
  | y :: t =>
      if String.leb (path_name (fst x)) (path_name (fst y))
      then x :: y :: t
      else y :: insert_by_name x t
  end.

Definition sorted_by_name (l : list (Path * Path)) : list (Path * Path) :=
  fold_right insert_by_name [] l.

(** The loop of [find_files_to_convert] over the entries of the directory. *)
Fixpoint scan_entries (entries : list DirEntry) (file_extensions : list string)
         (fs : FS) : result (list (Path * Path)) :=
  match entries with
  | [] => Ok []
  | e :: rest =>
      if e_is_file e
         && str_in_list (lower_str (p_suffix (e_path e))) file_extensions
      then
        if e_is_symlink e && negb (e_resolved_is_file e)
        then scan_entries rest file_extensions fs
        else
          let entry := if e_is_symlink e then e_resolved e else e_path e in
          gif_path <- with_suffix entry ".gif" ;;
          if non_empty_file (path_str gif_path) fs
          then scan_entries rest file_extensions fs
          else
            files <- scan_entries rest file_extensions fs ;;
            Ok ((entry, gif_path) :: files)
      else scan_entries rest file_extensions fs
  end.

Definition default_extensions : list string := [".webm"; ".tgs"]%string.

(** [find_files_to_convert]; [directory] is the text of the directory's
    path. *)
Definition find_files_to_convert (host : Host) (directory : string)
           (file_extensions : option (list string)) (fs : FS)
  : result (list (Path * Path)) :=
  let file_extensions := default default_extensions file_extensions in
  entries <- iterdir host directory ;;
  files <- scan_entries entries file_extensions fs ;;
  Ok (sorted_by_name files).

(** [class TgsConverter] *)
Module TgsConverter.

(** [convert_tgs_to_gif]; the handler prints and raises again. *)
Definition convert_tgs_to_gif (host : Host) (tgs_path : Path)
           (output_path : option Path) (fs : FS) : result Path * FS :=
  if negb (exists_ (path_str tgs_path) fs) then (Raise FileNotFoundError, fs)
  else
    match match output_path with
          | None => with_suffix tgs_path ".gif"
          | Some p => Ok p
          end with
    | Raise e => (Raise e, fs)
    | Ok output_path =>
        match tgs_export host (path_str tgs_path) (path_str output_path) fs with
        | (Ok _, fs) => (Ok output_path, fs)
        | (Raise e, fs) => (Raise e, fs)
        end
    end.

End TgsConverter.

(** [process_single_file].  The default output path is computed before the
    [try]; everything after it is inside.  [None] means that [fuel] was not
    enough for the frame loop. *)
Definition process_single_file (fuel : nat) (env : Env) (host : Host)
           (input_path : Path) (output_path : option Path) (fs : FS)
  : option (result bool * FS) :=
  match match output_path with
        | None => with_suffix input_path ".gif"
        | Some p => Ok p
        end with
  | Raise e => Some (Raise e, fs)
  | Ok output_path =>
      let extension := lower_str (p_suffix input_path) in
      if String.eqb extension ".tgs" then
        match TgsConverter.convert_tgs_to_gif host input_path (Some output_path) fs with
        | (Ok _, fs) => Some (Ok true, fs)
        | (Raise _, fs) => Some (Ok false, fs)
        end
      else if String.eqb extension ".webm" then
        match convert_webm_to_gif fuel env input_path (Some output_path) fs with
        | None => None
        | Some (Ok _, fs) => Some (Ok true, fs)
        | Some (Raise _, fs) => Some (Ok false, fs)
        end
      else Some (Ok false, fs)
  end.

(** The parsed command line.  [a_output] is [None] when [--output] is absent
    or empty. *)
Record Args : Type := {
  a_input : list Path;
  a_output : option Path;
  a_tgs_only : bool;
  a_webm_only : bool
}.

(** Lines 527-533. *)
Definition selected_extensions (args : Args) : list string :=
  if a_tgs_only args then [".tgs"]%string
  else if a_webm_only args then [".webm"]%string
  else [".tgs"; ".webm"]%string.

(** The loops [for input_path, output_path in files] of [main]: the number
    of successful conversions is carried along. *)
Fixpoint process_files (fuel : nat) (env : Env) (host : Host)
         (files : list (Path * Path)) (successful : nat) (fs : FS)
  : option (result nat * FS) :=
  match files with
  | [] => Some (Ok successful, fs)
  | (input_path, output_path) :: rest =>
      match process_single_file fuel env host input_path (Some output_path) fs with
      | None => None
      | Some (Raise e, fs) => Some (Raise e, fs)
      | Some (Ok ok, fs) =>
          process_files fuel env host rest
                        (if ok then S successful else successful) fs
      end
  end.

(** [input_path.exists()] *)
Definition path_exists (host : Host) (path : Path) (fs : FS) : bool :=
  exists_ (path_str path) fs || is_dir host (path_str path).

(** Lines 573-591: the loop over several named inputs. *)
Fixpoint process_inputs (fuel : nat) (env : Env) (host : Host)
         (file_extensions : list string) (inputs : list Path)
         (successful : nat) (fs : FS)
  : option (result nat * FS) :=
  match inputs with
  | [] => Some (Ok successful, fs)
  | input_path :: rest =>
      if negb (path_exists host input_path fs)
      then process_inputs fuel env host file_extensions rest successful fs
      else if is_dir host (path_str input_path) then
        match find_files_to_convert host (path_str input_path)
                                    (Some file_extensions) fs with
        | Raise e => Some (Raise e, fs)
        | Ok dir_files =>
            match process_files fuel env host dir_files successful fs with
            | None => None
            | Some (Raise e, fs) => Some (Raise e, fs)
            | Some (Ok successful, fs) =>
                process_inputs fuel env host file_extensions rest successful fs
            end
        end
      else
        match process_single_file fuel env host input_path None fs with
        | None => None
        | Some (Raise e, fs) => Some (Raise e, fs)
        | Some (Ok ok, fs) =>
            process_inputs fuel env host file_extensions rest
                           (if ok then S successful else successful) fs
        end
  end.

(** [main]: the value it returns, which becomes the exit status. *)
Definition main (fuel : nat) (env : Env) (host : Host) (args : Args) (fs : FS)
  : option (result Z * FS) :=
  let file_extensions := selected_extensions args in
  match a_input args with
  | [] =>
      match find_files_to_convert host "." (Some file_extensions) fs with
      | Raise e => Some (Raise e, fs)
      | Ok [] => Some (Ok 0, fs)
      | Ok files =>
          match process_files fuel env host files 0 fs with
          | None => None
          | Some (Raise e, fs) => Some (Raise e, fs)
          | Some (Ok _, fs) => Some (Ok 0, fs)
          end
      end
  | inputs =>
      match inputs, a_output args with
      | [input_path], Some output_path =>
          if negb (path_exists host input_path fs) then Some (Ok 1, fs)
          else
            match process_single_file fuel env host input_path (Some output_path) fs with
            | None => None
            | Some (Raise e, fs) => Some (Raise e, fs)
            | Some (Ok true, fs) => Some (Ok 0, fs)
            | Some (Ok false, fs) => Some (Ok 1, fs)
            end
      | _, _ =>
          match process_inputs fuel env host file_extensions inputs 0 fs with
          | None => None
          | Some (Raise e, fs) => Some (Raise e, fs)
          | Some (Ok _, fs) => Some (Ok 0, fs)
          end
      end
  end.

(* ===================================================================== *)
(** * Vocabulary of the statements                                        *)
(* ===================================================================== *)

(** The effect of the masking on one pixel that has an alpha channel. *)
Definition mask_pixel (threshold : Z) (px : list Z) : list Z :=
  if is_black threshold px then <[3%nat := 0]> px else px.

(** A pixel with an opaque alpha value appended. *)
Definition opaque_pixel (px : list Z) : list Z := px ++ [255].

(* ===================================================================== *)
(** * Fixtures                                                            *)
(* ===================================================================== *)

Module Fixtures.

(** The stream of the spec's duration example: no duration anywhere,
    240 frames at 24 frames per second. *)
Definition stream_240_at_24 : Stream :=
  {| s_width := Some 4%nat; s_height := Some 4%nat;
     s_r_frame_rate := Some "24"%string; s_duration := None;
     s_nb_frames := Some "240"%string; s_pix_fmt := Some "yuv420p"%string |}.

Definition data_240_at_24 : ProbeData :=
  {| d_streams := Some [stream_240_at_24]; d_format := None |}.

(** A container that declares a zero duration over a stream that declares
    five seconds and no frame count. *)
Definition stream_5s : Stream :=
  {| s_width := Some 4%nat; s_height := Some 4%nat;
     s_r_frame_rate := Some "10/1"%string; s_duration := Some "5.0"%string;
     s_nb_frames := None; s_pix_fmt := Some "yuv420p"%string |}.

Definition data_zero_format_duration : ProbeData :=
  {| d_streams := Some [stream_5s];
     d_format := Some {| f_duration := Some "0.000000"%string |} |}.

(** Two pixels with an alpha channel: a near-black one and a red one. *)
Definition frame_rgba : Frame :=
  {| height := 1; width := 2; channels := 4;
     pixels := [[0; 5; 16; 200]; [17; 0; 0; 77]] |}.

(** The same colours without an alpha channel. *)
Definition frame_rgb : Frame :=
  {| height := 1; width := 2; channels := 3;
     pixels := [[0; 5; 16]; [17; 0; 0]] |}.

(** A 4x4 black frame as the decoder delivers it in [rgba]. *)
Definition frame_black_4x4 : Frame :=
  {| height := 4; width := 4; channels := 4;
     pixels := repeat [0; 0; 0; 255] 16 |}.

(** A heap where the caller holds one three-channel frame. *)
Definition heap_with_rgb : gmap positive Frame := {[ 7%positive := frame_rgb ]}.

(** A clip of 1x1 frames at ten frames per second without an alpha
    channel.  Its one sampled pixel is black.  The decoder delivers two
    complete frames and then a cut-off one.  The encoder accepts every
    write, leaves three bytes of output behind and exits with status 1. *)
Definition stream_1x1 : Stream :=
  {| s_width := Some 1%nat; s_height := Some 1%nat;
     s_r_frame_rate := Some "10/1"%string; s_duration := None;
     s_nb_frames := Some "2"%string; s_pix_fmt := Some "yuv420p"%string |}.

Definition env_two_frames : Env :=
  {| ffprobe := fun _ =>
       Completed (Some {| d_streams := Some [stream_1x1]; d_format := None |});
     ffmpeg_sample := fun _ _ _ _ _ => Ok (0, [0; 0; 0]);
     ffmpeg_decode := fun _ rgba =>
       Ok (if rgba then [0; 0; 0; 255; 9; 9; 9; 255; 1; 2]
           else [0; 0; 0; 9; 9; 9; 1]);
     enc_spawn := fun _ => Ok tt;
     enc_write := fun _ _ => Written;
     enc_returncode := fun _ => 1;
     enc_files := fun event p fs =>
       match event with
       | AtSpawn => fs
       | _ => <[c_output (cmd p) := [71; 73; 70]]> fs
       end |}.

Definition clip : Path :=
  {| p_dir := "/tmp/"; p_stem := "clip"; p_suffix := ".webm" |}.

Definition decoder_of_clip : WebmDecoder.t :=
  {| WebmDecoder.filepath := path_str clip; WebmDecoder._info := None |}.

(** A file system that holds the clip and a zero-byte output left by an
    earlier run. *)
Definition fs_with_clip : FS :=
  <["/tmp/clip.gif"%string := []]> {[ "/tmp/clip.webm"%string := [26; 69; 223; 163] ]}.

(** ffprobe exits with an error. *)
Definition env_probe_fails : Env :=
  {| ffprobe := fun _ => CalledProcessError "Invalid data found";
     ffmpeg_sample := fun _ _ _ _ _ => Ok (1, []);
     ffmpeg_decode := fun _ _ => Ok [];
     enc_spawn := fun _ => Ok tt;
     enc_write := fun _ _ => Written;
     enc_returncode := fun _ => 0;
     enc_files := fun _ _ fs => fs |}.

(** The encoder dies after the first frame, leaving a partial file. *)
Definition env_encoder_dies : Env :=
  {| ffprobe := fun _ =>
       Completed (Some {| d_streams := Some [stream_1x1]; d_format := None |});
     ffmpeg_sample := fun _ _ _ _ _ => Ok (0, [200; 200; 200]);
     ffmpeg_decode := fun _ rgba =>
       Ok (if rgba then [0; 0; 0; 255; 9; 9; 9; 255] else [0; 0; 0; 9; 9; 9]);
     enc_spawn := fun _ => Ok tt;
     enc_write := fun p _ =>
       match stdin_data p with [] => Written | _ => BrokenPipe true end;
     enc_returncode := fun _ => 1;
     enc_files := fun event p fs =>
       match event with
       | AtSpawn => fs
       | _ => <[c_output (cmd p) := [71; 73]]> fs
       end |}.

(** An encoder that fails whenever it is run. *)
Definition env_encoder_rejects : Env :=
  {| ffprobe := fun _ => Completed (Some data_240_at_24);
     ffmpeg_sample := fun _ _ _ _ _ => Ok (1, []);
     ffmpeg_decode := fun _ _ => Ok [];
     enc_spawn := fun _ => Ok tt;
     enc_write := fun _ _ => BrokenPipe true;
     enc_returncode := fun _ => 1;
     enc_files := fun _ _ fs => fs |}.

End Fixtures.

(* ===================================================================== *)
(** * More vocabulary and samples                                         *)
(* ===================================================================== *)

(** A value a [uint8] array can hold. *)
Definition is_uint8 (v : Z) : Prop := 0 <= v <= 255.

(** An encoder that starts and takes every write. *)
Definition accepting (env : Env) : Prop :=
  (forall c, enc_spawn env c = Ok tt) /\
  (forall p data, enc_write env p data = Written).

(** The bytes the conversion hands to the encoder for one raw frame of
    [h * w] pixels: masked with the pipeline's threshold when the plan
    converts black, the raw frame itself otherwise. *)
Definition delivered_bytes (plan : Plan) (h w : nat) (raw : list Z) : list Z :=
  if convert_black plan
  then concat (map (mask_pixel black_threshold) (reshape_pixels (h * w) 4 raw))
  else raw.

(** A writer that was made for the command [c], has counted [n] frames and
    has written the chunks [written] to its encoder; it has no encoder yet
    when nothing was written. *)
Definition writer_holds (w : GifWriter.t) (c : EncoderCmd) (n : nat)
           (written : list (list Z)) : Prop :=
  GifWriter.output_path w = c_output c /\
  GifWriter.fps w = c_fps c /\
  GifWriter.use_transparency w = c_transparency c /\
  GifWriter.frame_count w = n /\
  GifWriter.process w
  = match written with
    | [] => None
    | _ => Some {| cmd := c; stdin_data := written |}
    end.

(** The channel count [decode_frames] asks the decoder for. *)
Definition decoded_channels (has_alpha : bool) (plan : Plan) : nat :=
  if has_alpha || convert_black plan then 4%nat else 3%nat.

(** The path [find_files_to_convert] lists for a directory entry: the
    target of a symbolic link, the entry itself otherwise. *)
Definition listed_input (e : DirEntry) : Path :=
  if e_is_symlink e then e_resolved e else e_path e.

(** The entries [find_files_to_convert] considers: files with one of the
    extensions, a symbolic link only if its target is a file. *)
Definition eligible (e : DirEntry) (file_extensions : list string) : bool :=
  e_is_file e
  && str_in_list (lower_str (p_suffix (e_path e))) file_extensions
  && negb (e_is_symlink e && negb (e_resolved_is_file e)).

(** The order of the list [find_files_to_convert] returns. *)
Definition name_le (x y : Path * Path) : Prop :=
  String.leb (path_name (fst x)) (path_name (fst y)) = true.

(** The environment [env] with another answer of the sampling run. *)
Definition with_sample (env : Env)
           (sample : string -> Z -> nat -> nat -> nat -> result (Z * list Z)) : Env :=
  {| ffprobe := ffprobe env;
     ffmpeg_sample := sample;
     ffmpeg_decode := ffmpeg_decode env;
     enc_spawn := enc_spawn env;
     enc_write := enc_write env;
     enc_returncode := enc_returncode env;
     enc_files := enc_files env |}.

(** Near-black pixels in a list of sampled frames. *)
Definition near_black_total (frames : list (list Z)) : Z :=
  foldr (fun frame_data acc => WebmDecoder.count_near_black frame_data + acc) 0 frames.

(** The float 1.0. *)
Definition lit_1_0 : float := round_Z 1.



Module Samples.

(** A stream with a declared duration whose frame rate is [0/1]. *)
Definition stream_zero_rate : Stream :=
  {| s_width := Some 1%nat; s_height := Some 1%nat;
     s_r_frame_rate := Some "0/1"%string; s_duration := Some "1.0"%string;
     s_nb_frames := Some "5"%string; s_pix_fmt := Some "yuv420p"%string |}.

(** The same stream without a declared duration. *)
Definition stream_zero_rate_no_duration : Stream :=
  {| s_width := Some 1%nat; s_height := Some 1%nat;
     s_r_frame_rate := Some "0/1"%string; s_duration := None;
     s_nb_frames := Some "5"%string; s_pix_fmt := Some "yuv420p"%string |}.

Definition env_zero_rate : Env :=
  {| ffprobe := fun _ =>
       Completed (Some {| d_streams := Some [stream_zero_rate]; d_format := None |});
     ffmpeg_sample := fun _ _ _ _ _ => Ok (0, [200; 200; 200]);
     ffmpeg_decode := fun _ rgba =>
       Ok (if rgba then [1; 2; 3; 255] else [1; 2; 3]);
     enc_spawn := fun _ => Ok tt;
     enc_write := fun _ _ => Written;
     enc_returncode := fun _ => 0;
     enc_files := fun _ _ fs => fs |}.

(** An encoder that takes every write, writes three bytes of output when
    its input is closed and exits with status 0; the clip has no alpha
    channel and its sample is [sample]. *)
Definition env_accepting (sample : list Z) : Env :=
  {| ffprobe := fun _ =>
       Completed (Some {| d_streams := Some [Fixtures.stream_1x1]; d_format := None |});
     ffmpeg_sample := fun _ _ _ _ _ => Ok (0, sample);
     ffmpeg_decode := fun _ rgba =>
       Ok (if rgba then [0; 0; 0; 255; 9; 9; 99; 255; 1; 2]
           else [0; 0; 0; 9; 9; 99; 1]);
     enc_spawn := fun _ => Ok tt;
     enc_write := fun _ _ => Written;
     enc_returncode := fun _ => 0;
     enc_files := fun event p fs =>
       match event with
       | AtWait => <[c_output (cmd p) := [71; 73; 70]]> fs
       | _ => fs
       end |}.

(** A directory with a clip, a symbolic link to a sticker, a text file and
    a clip in capitals whose output exists. *)
Definition entry_of (dir stem suffix : string) : DirEntry :=
  {| e_path := {| p_dir := dir; p_stem := stem; p_suffix := suffix |};
     e_is_file := true; e_is_symlink := false;
     e_resolved := {| p_dir := dir; p_stem := stem; p_suffix := suffix |};
     e_resolved_is_file := true |}.

Definition host_with_directory : Host :=
  {| is_dir := fun path => String.eqb path "." || String.eqb path "stickers";
     iterdir := fun _ =>
       Ok [entry_of "" "zebra" ".webm";
           {| e_path := {| p_dir := ""; p_stem := "link"; p_suffix := ".tgs" |};
              e_is_file := true; e_is_symlink := true;
              e_resolved := {| p_dir := "/data/"; p_stem := "cat"; p_suffix := ".tgs" |};
              e_resolved_is_file := true |};
           entry_of "" "notes" ".txt";
           entry_of "" "DONE" ".WEBM"];
     tgs_export := fun _ output fs => (Ok tt, <[output := [71; 73; 70]]> fs) |}.

Definition fs_with_directory : FS :=
  <["DONE.gif"%string := [71; 73; 70]]>
    (<["zebra.gif"%string := []]>
       (<["zebra.webm"%string := [26]]>
          (<["/data/cat.tgs"%string := [31]]> {[ "DONE.WEBM"%string := [26] ]}))).

(** A clip with an alpha channel; the sampling run would fail to start. *)
Definition env_alpha_clip : Env :=
  {| ffprobe := fun _ =>
       Completed (Some {| d_streams :=
                            Some [{| s_width := Some 1%nat; s_height := Some 1%nat;
                                     s_r_frame_rate := Some "10/1"%string;
                                     s_duration := Some "0.1"%string;
                                     s_nb_frames := None;
                                     s_pix_fmt := Some "yuva420p"%string |}];
                          d_format := None |});
     ffmpeg_sample := fun _ _ _ _ _ => Raise OSError;
     ffmpeg_decode := fun _ _ => Ok [1; 2; 3; 128];
     enc_spawn := fun _ => Ok tt;
     enc_write := fun _ _ => Written;
     enc_returncode := fun _ => 0;
     enc_files := fun event p fs =>
       match event with
       | AtWait => <[c_output (cmd p) := [71; 73; 70]]> fs
       | _ => fs
       end |}.

End Samples.

(* ===================================================================== *)
(** * The runtime model on examples                                       *)
(* ===================================================================== *)

Example int_of_str_examples :
  int_of_str "30000" = Ok 30000 /\ int_of_str " -12 " = Ok (-12) /\
  int_of_str "1_000" = Ok 1000 /\ int_of_str "1__0" = Raise ValueError /\
  int_of_str "" = Raise ValueError /\ int_of_str "N/A" = Raise ValueError.
Proof. repeat split; reflexivity. Qed.

Example float_of_str_examples :
  float_of_str "24" = Ok (round_Z 24) /\
  float_of_str "10.000000" = Ok (round_Z 10) /\
  float_of_str "0.1" = Ok lit_0_1 /\
  float_of_str "-0" = Ok (S754_zero true) /\
  float_of_str "1e400" = Ok (S754_infinity false) /\
  float_of_str "nan" = Ok S754_nan /\
  float_of_str "." = Raise ValueError /\
  float_of_str "N/A" = Raise ValueError.
Proof. repeat split; vm_compute; reflexivity. Qed.

(** The literal [0.1] is the double [0x3FB999999999999A]. *)
Example lit_0_1_bits : lit_0_1 = S754_finite false 7205759403792794 (-56).
Proof. vm_compute. reflexivity. Qed.

Example int_truediv_examples :
  int_truediv 30 1 = Ok lit_30_0 /\ int_truediv 240 24 = Ok lit_10_0 /\
  int_truediv 1 10 = Ok lit_0_1 /\ int_truediv 1 0 = Raise ZeroDivisionError /\
  int_truediv 0 (-5) = Ok (S754_zero true).
Proof. repeat split; vm_compute; reflexivity. Qed.

Example detect_alpha_examples :
  WebmDecoder.detect_alpha "yuva420p" = true /\
  WebmDecoder.detect_alpha "yuv420p" = false.
Proof. split; reflexivity. Qed.

(* ===================================================================== *)
(** * C1: the transparency decision                                       *)
(* ===================================================================== *)

(** C1.  The decision of lines 390-407 depends on [has_alpha] and the black
    ratio only.  With an alpha channel the plan uses transparency and does not
    synthesize it, whatever the ratio; without one, both flags equal
    [black_ratio > 0.1], and a synthesizing plan masks with threshold 16.
    Every plan satisfies: [convert_black] implies [use_transparency].  The
    golden ratios 0.05 and 0.35 are decided as the table says. *)
Theorem C1_plan_decision (black_ratio : float) (frame : Frame) :
  plan_transparency true black_ratio
    = {| use_transparency := true; convert_black := false |} /\
  plan_transparency false black_ratio
    = {| use_transparency := flt lit_0_1 black_ratio;
         convert_black := flt lit_0_1 black_ratio |} /\
  transform_frame (plan_transparency false black_ratio) frame
    = (if flt lit_0_1 black_ratio
       then convert_black_to_transparent frame 16
       else Ok frame) /\
  (forall has_alpha,
     implb (convert_black (plan_transparency has_alpha black_ratio))
           (use_transparency (plan_transparency has_alpha black_ratio)) = true) /\
  plan_transparency false (decimal_to_float false 5 (-2))
    = {| use_transparency := false; convert_black := false |} /\
  plan_transparency false (decimal_to_float false 35 (-2))
    = {| use_transparency := true; convert_black := true |}.
Proof.
  repeat split.
  - unfold plan_transparency. destruct (flt lit_0_1 black_ratio); reflexivity.
  - unfold transform_frame, plan_transparency.
    destruct (flt lit_0_1 black_ratio); reflexivity.
  - intros [|]; unfold plan_transparency; simpl.
    + reflexivity.
    + destruct (flt lit_0_1 black_ratio); reflexivity.
Qed.

(* ===================================================================== *)
(** * C2: closing an encoder that received no frame                       *)
(* ===================================================================== *)

(** C2, as stated, fails: with an encoder that would exit with status 1
    whenever run, [close] on a writer that received no frame returns
    normally, because [add_frame] alone starts the process. *)
Lemma C2_close_without_frames_returns :
  GifWriter.close Fixtures.env_encoder_rejects
                  (GifWriter.init "out.gif" lit_30_0 true) ∅
  = (Ok tt, GifWriter.init "out.gif" lit_30_0 true, ∅) /\
  ~ (exists e w fs,
        GifWriter.close Fixtures.env_encoder_rejects
                        (GifWriter.init "out.gif" lit_30_0 true) ∅
        = (Raise e, w, fs)).
Proof.
  split; [reflexivity|].
  intros (e & w & fs & H). discriminate H.
Qed.

(** C2, amended.  A writer that received no frame has started no process;
    [close] then returns normally and changes neither the writer nor the
    file system, in every environment. *)
Theorem C2_close_without_frames (env : Env) (output_path : string) (fps : float)
        (use_transparency : bool) (fs : FS) :
  GifWriter.process (GifWriter.init output_path fps use_transparency) = None /\
  GifWriter.close env (GifWriter.init output_path fps use_transparency) fs
  = (Ok tt, GifWriter.init output_path fps use_transparency, fs).
Proof. split; reflexivity. Qed.

(* ===================================================================== *)
(** * C8: the duration fallback chain                                     *)
(* ===================================================================== *)

(** C8, as stated, fails: a container duration that is present is not always
    the probed duration.  ffprobe reports a container duration of zero and a
    stream duration of five seconds; the probed duration is the constant
    10.0, neither of the two. *)
Lemma C8_present_format_duration_not_used :
  (exists info,
      WebmDecoder.parse_probe Fixtures.data_zero_format_duration = Ok info /\
      i_duration info = lit_10_0) /\
  float_of_str "0.000000" = Ok fzero /\
  float_of_str "5.0" = Ok (round_Z 5) /\
  ~ (forall data stream fps fmt s d,
        d_format data = Some fmt -> f_duration fmt = Some s ->
        float_of_str s = Ok d ->
        WebmDecoder.probe_duration data stream fps = Ok d).
Proof.
  split; [|split; [|split]].
  - eexists. split; vm_compute; reflexivity.
  - vm_compute; reflexivity.
  - vm_compute; reflexivity.
  - intros H.
    specialize (H Fixtures.data_zero_format_duration Fixtures.stream_5s
                  (round_Z 10) {| f_duration := Some "0.000000"%string |}
                  "0.000000"%string fzero eq_refl eq_refl).
    vm_compute in H. specialize (H eq_refl). discriminate H.
Qed.

(** The duration string the chain starts from: the container's if it has
    one, else the stream's. *)
Lemma declared_duration_format data stream fmt s :
  d_format data = Some fmt -> f_duration fmt = Some s ->
  WebmDecoder.declared_duration data stream
  = (d <- float_of_str s ;; Ok (Some d)).
Proof.
  intros Hf Hd. unfold WebmDecoder.declared_duration. rewrite Hf, Hd. reflexivity.
Qed.

Lemma declared_duration_stream data stream s :
  match d_format data with Some fmt => f_duration fmt | None => None end = None ->
  s_duration stream = Some s ->
  WebmDecoder.declared_duration data stream
  = (d <- float_of_str s ;; Ok (Some d)).
Proof.
  intros Hf Hd. unfold WebmDecoder.declared_duration. rewrite Hf, Hd. reflexivity.
Qed.

Lemma declared_duration_none data stream :
  match d_format data with Some fmt => f_duration fmt | None => None end = None ->
  s_duration stream = None ->
  WebmDecoder.declared_duration data stream = Ok None.
Proof.
  intros Hf Hd. unfold WebmDecoder.declared_duration. rewrite Hf, Hd. reflexivity.
Qed.

(** C8, amended.  The declared duration is the container's if present, else
    the stream's if present.  A declared duration greater than zero is the
    probed duration.  When none is declared, or the declared one is [<= 0],
    the probed duration is [int(nb_frames) / fps] if [nb_frames] is a
    non-empty entry and the constant 10.0 otherwise.  With no declared
    duration, 240 frames and 24 frames per second it is exactly 10.0. *)
Theorem C8_duration_chain (data : ProbeData) (stream : Stream) (fps : float) :
  (forall fmt s d,
      d_format data = Some fmt -> f_duration fmt = Some s ->
      float_of_str s = Ok d -> fle d lit_0_0 = false ->
      WebmDecoder.probe_duration data stream fps = Ok d) /\
  (forall s d,
      match d_format data with Some fmt => f_duration fmt | None => None end = None ->
      s_duration stream = Some s ->
      float_of_str s = Ok d -> fle d lit_0_0 = false ->
      WebmDecoder.probe_duration data stream fps = Ok d) /\
  (forall declared,
      WebmDecoder.declared_duration data stream = Ok declared ->
      match declared with Some d => fle d lit_0_0 = true | None => True end ->
      (forall nb n, s_nb_frames stream = Some nb -> nb <> ""%string ->
                    int_of_str nb = Ok n ->
                    WebmDecoder.probe_duration data stream fps = int_div_float n fps) /\
      (s_nb_frames stream = None \/ s_nb_frames stream = Some ""%string ->
       WebmDecoder.probe_duration data stream fps = Ok lit_10_0)) /\
  WebmDecoder.probe_duration Fixtures.data_240_at_24 Fixtures.stream_240_at_24
                             (round_Z 24) = Ok (round_Z 10) /\
  (exists info, WebmDecoder.parse_probe Fixtures.data_240_at_24 = Ok info /\
                i_fps info = round_Z 24 /\ i_duration info = lit_10_0).
Proof.
  split; [|split; [|split; [|split]]].
  - intros fmt s d Hf Hs Hd Hpos. unfold WebmDecoder.probe_duration.
    rewrite (declared_duration_format _ _ _ _ Hf Hs), Hd. simpl. rewrite Hpos.
    reflexivity.
  - intros s d Hf Hs Hd Hpos. unfold WebmDecoder.probe_duration.
    rewrite (declared_duration_stream _ _ _ Hf Hs), Hd. simpl. rewrite Hpos.
    reflexivity.
  - intros declared Hdecl Hnonpos.
    assert (Hfall : WebmDecoder.probe_duration data stream fps
                    = WebmDecoder.fallback_duration stream fps).
    { unfold WebmDecoder.probe_duration. rewrite Hdecl. simpl.
      destruct declared as [d|]; [rewrite Hnonpos|]; reflexivity. }
    rewrite Hfall. split.
    + intros nb n Hnb Hne Hn. unfold WebmDecoder.fallback_duration.
      rewrite Hnb. destruct (String.eqb_spec nb "") as [->|_]; [congruence|].
      rewrite Hn. reflexivity.
    + intros [Hnb|Hnb]; unfold WebmDecoder.fallback_duration; rewrite Hnb;
        reflexivity.
  - vm_compute. reflexivity.
  - eexists. repeat split; vm_compute; reflexivity.
Qed.

(** The amended chain at concrete inputs: a positive container duration is
    used; a zero one falls through to the frame count. *)
Lemma C8_duration_chain_witness :
  WebmDecoder.probe_duration
    {| d_streams := Some [Fixtures.stream_5s];
       d_format := Some {| f_duration := Some "2.5"%string |} |}
    Fixtures.stream_5s (round_Z 10)
  = Ok (decimal_to_float false 25 (-1)) /\
  WebmDecoder.probe_duration
    {| d_streams := Some [Fixtures.stream_240_at_24];
       d_format := Some {| f_duration := Some "0"%string |} |}
    Fixtures.stream_240_at_24 (round_Z 24)
  = int_div_float 240 (round_Z 24).
Proof.
  split.
  - refine (proj1 (C8_duration_chain _ _ _)
                  {| f_duration := Some "2.5"%string |} "2.5"%string _ _ _ _ _);
      vm_compute; reflexivity.
  - refine (proj1 (proj1 (proj2 (proj2 (C8_duration_chain _ _ _)))
                     (Some fzero) _ _) "240"%string 240 _ _ _).
    + vm_compute; reflexivity.
    + vm_compute; reflexivity.
    + reflexivity.
    + discriminate.
    + vm_compute; reflexivity.
Defined.

(* ===================================================================== *)
(** * C9: frame-rate parsing                                              *)
(* ===================================================================== *)

Section SplitOnce.

Lemma chars_app (a b : string) : chars (a +:+ b) = chars a ++ chars b.
Proof.
  unfold chars. induction a as [|c a IH]; simpl; [reflexivity|].
  f_equal. exact IH.
Qed.

Lemma contains_sep_cons (sep c : ascii) (l : list ascii) :
  contains_chars [sep] (c :: l) = Ascii.eqb sep c || contains_chars [sep] l.
Proof.
  simpl. destruct (Ascii.eqb sep c); reflexivity.
Qed.

Lemma contains_sep_nil (sep : ascii) : contains_chars [sep] [] = false.
Proof. reflexivity. Qed.

Lemma split_chars_no_sep (sep : ascii) (l cur : list ascii) :
  contains_chars [sep] l = false ->
  split_chars sep cur l = [rev cur ++ l].
Proof.
  revert cur. induction l as [|c l IH]; intros cur H.
  - simpl. rewrite app_nil_r. reflexivity.
  - rewrite contains_sep_cons in H. apply orb_false_iff in H as [Hc Hl].
    simpl. rewrite Ascii.eqb_sym, Hc. rewrite (IH _ Hl). simpl.
    rewrite <- app_assoc. reflexivity.
Qed.

Lemma split_chars_one_sep (sep : ascii) (a b cur : list ascii) :
  contains_chars [sep] a = false ->
  contains_chars [sep] b = false ->
  split_chars sep cur (a ++ sep :: b) = [rev cur ++ a; b].
Proof.
  revert cur. induction a as [|c a IH]; intros cur Ha Hb.
  - simpl. rewrite Ascii.eqb_refl, app_nil_r.
    rewrite (split_chars_no_sep _ _ _ Hb). reflexivity.
  - rewrite contains_sep_cons in Ha. apply orb_false_iff in Ha as [Hc Ha].
    simpl. rewrite Ascii.eqb_sym, Hc. rewrite (IH _ Ha Hb). simpl.
    rewrite <- app_assoc. reflexivity.
Qed.

Lemma contains_sep_middle (sep : ascii) (a b : list ascii) :
  contains_chars [sep] (a ++ sep :: b) = true.
Proof.
  induction a as [|c a IH].
  - simpl. rewrite Ascii.eqb_refl. reflexivity.
  - change ((c :: a) ++ sep :: b) with (c :: (a ++ sep :: b)).
    rewrite contains_sep_cons, IH. apply orb_true_r.
Qed.

Lemma split_rational (a b : string) :
  str_in "/" a = false -> str_in "/" b = false ->
  str_in "/" (a +:+ "/" +:+ b) = true /\
  split "/" (a +:+ "/" +:+ b) = [a; b].
Proof.
  unfold str_in, split. intros Ha Hb.
  rewrite !chars_app.
  change (chars "/") with ["/"%char] in *.
  change (["/"%char] ++ chars b) with ("/"%char :: chars b).
  split.
  - apply contains_sep_middle.
  - rewrite (split_chars_one_sep _ _ _ [] Ha Hb). simpl.
    unfold chars. rewrite !string_of_list_ascii_of_string. reflexivity.
Qed.

End SplitOnce.

(** C9.  A string ["num/den"] gives the correctly rounded quotient
    [num / den], and 30.0 when [den] is zero; a string without a slash is
    handed to [float()].  ["30000/1001"] gives a value between 29.97 and
    29.9701, ["25/0"] gives 30.0 and ["24"] gives 24.0. *)
Theorem C9_frame_rate_parsing :
  (forall a b num den,
      str_in "/" a = false -> str_in "/" b = false ->
      int_of_str a = Ok num -> int_of_str b = Ok den ->
      WebmDecoder.parse_frame_rate (a +:+ "/" +:+ b)
      = if den =? 0 then Ok lit_30_0 else int_truediv num den) /\
  (forall s, str_in "/" s = false ->
             WebmDecoder.parse_frame_rate s = float_of_str s) /\
  (exists fps,
      WebmDecoder.parse_frame_rate "30000/1001" = Ok fps /\
      int_truediv 30000 1001 = Ok fps /\
      flt (decimal_to_float false 2997 (-2)) fps = true /\
      flt fps (decimal_to_float false 299701 (-4)) = true) /\
  WebmDecoder.parse_frame_rate "25/0" = Ok lit_30_0 /\
  WebmDecoder.parse_frame_rate "24" = Ok (round_Z 24) /\
  float_of_str "24.0" = Ok (round_Z 24) /\
  float_of_str "30.0" = Ok lit_30_0.
Proof.
  split; [|split; [|split; [|split; [|split; [|split]]]]].
  - intros a b num den Ha Hb Hnum Hden.
    destruct (split_rational a b Ha Hb) as [Hin Hsplit].
    unfold WebmDecoder.parse_frame_rate. rewrite Hin, Hsplit, Hnum, Hden. simpl.
    destruct (den =? 0); reflexivity.
  - intros s Hs. unfold WebmDecoder.parse_frame_rate. rewrite Hs. reflexivity.
  - eexists. repeat split; vm_compute; reflexivity.
  - vm_compute; reflexivity.
  - vm_compute; reflexivity.
  - vm_compute; reflexivity.
  - vm_compute; reflexivity.
Qed.

(** The general statements at concrete strings. *)
Lemma C9_frame_rate_parsing_witness :
  WebmDecoder.parse_frame_rate ("30" +:+ "/" +:+ "1") = int_truediv 30 1 /\
  WebmDecoder.parse_frame_rate "29.97" = float_of_str "29.97".
Proof.
  split.
  - exact (proj1 C9_frame_rate_parsing "30"%string "1"%string 30 1
                 eq_refl eq_refl eq_refl eq_refl).
  - exact (proj1 (proj2 C9_frame_rate_parsing) "29.97"%string eq_refl).
Defined.

(* ===================================================================== *)
(** * Arrays: shapes and pixel-wise operations                            *)
(* ===================================================================== *)

Section PixelLemmas.

Lemma zip_with_map_self {A B C : Type} (g : A -> B -> C) (h : A -> B) (l : list A) :
  zip_with g l (map h l) = map (fun a => g a (h a)) l.
Proof. induction l as [|a l IH]; simpl; [reflexivity|]. f_equal. exact IH. Qed.

Lemma zip_with_repeat_r {A B C : Type} (g : A -> B -> C) (b : B) (l : list A) (n : nat) :
  length l = n -> zip_with g l (repeat b n) = map (fun a => g a b) l.
Proof.
  intros <-. induction l as [|a l IH]; simpl; [reflexivity|]. f_equal. exact IH.
Qed.

Lemma Frame_wf_iff (f : Frame) : Frame_wf f <-> frame_wfb f = true.
Proof.
  unfold Frame_wf, frame_wfb. rewrite andb_true_iff, Nat.eqb_eq, forallb_forall.
  rewrite Forall_forall. split; intros [H1 H2]; split; try exact H1.
  - intros px Hpx. apply Nat.eqb_eq. apply H2.
    apply list_elem_of_In. exact Hpx.
  - intros px Hpx. apply Nat.eqb_eq. apply H2.
    apply list_elem_of_In. exact Hpx.
Qed.

Lemma is_black_mask_pixel (t : Z) (px : list Z) :
  is_black t (mask_pixel t px) = is_black t px.
Proof.
  unfold mask_pixel. destruct (is_black t px) eqn:E; [|exact E].
  unfold is_black in *.
  rewrite take_insert_ge by lia. exact E.
Qed.

Lemma mask_pixel_idem (t : Z) (px : list Z) :
  mask_pixel t (mask_pixel t px) = mask_pixel t px.
Proof.
  unfold mask_pixel at 1. rewrite is_black_mask_pixel.
  unfold mask_pixel. destruct (is_black t px); [|reflexivity].
  apply list_insert_insert_eq.
Qed.

Lemma mask_pixel_colors (t : Z) (px : list Z) :
  take 3 (mask_pixel t px) = take 3 px.
Proof.
  unfold mask_pixel. destruct (is_black t px); [|reflexivity].
  apply take_insert_ge. lia.
Qed.

Lemma mask_pixel_rgba (t r g b a : Z) :
  mask_pixel t [r; g; b; a]
  = if (r <=? t) && (g <=? t) && (b <=? t) then [r; g; b; 0] else [r; g; b; a].
Proof.
  unfold mask_pixel, is_black. simpl.
  destruct (r <=? t), (g <=? t), (b <=? t); reflexivity.
Qed.

(** The frame the masking works on: the input with an opaque alpha channel
    appended when it has three channels. *)
Lemma concatenate_opaque_alpha (f : Frame) :
  length (pixels f) = (height f * width f)%nat ->
  concatenate_axis2 f (opaque_alpha (height f) (width f))
  = {| height := height f; width := width f; channels := channels f + 1;
       pixels := map opaque_pixel (pixels f) |}.
Proof.
  intros Hlen. unfold concatenate_axis2, opaque_alpha. simpl.
  rewrite (zip_with_repeat_r _ _ _ _ Hlen). reflexivity.
Qed.

Lemma assign_masked_black_mask (f : Frame) (t : Z) :
  assign_masked f (black_mask f t) 3 0
  = if (3 <? channels f)%nat
    then Ok {| height := height f; width := width f; channels := channels f;
               pixels := map (mask_pixel t) (pixels f) |}
    else Raise IndexError.
Proof.
  unfold assign_masked, black_mask. rewrite zip_with_map_self. reflexivity.
Qed.

(** The function on a frame that has at least four channels. *)
Lemma convert_black_to_transparent_alpha (f : Frame) (t : Z) :
  (3 < channels f)%nat ->
  convert_black_to_transparent f t
  = Ok {| height := height f; width := width f; channels := channels f;
          pixels := map (mask_pixel t) (pixels f) |}.
Proof.
  intros Hc. unfold convert_black_to_transparent.
  destruct (Nat.eqb_spec (channels f) 3) as [E|_]; [lia|].
  rewrite assign_masked_black_mask.
  destruct (Nat.ltb_spec 3 (channels f)); [reflexivity|lia].
Qed.

(** The function on a three-channel frame. *)
Lemma convert_black_to_transparent_rgb (f : Frame) (t : Z) :
  channels f = 3%nat ->
  length (pixels f) = (height f * width f)%nat ->
  convert_black_to_transparent f t
  = Ok {| height := height f; width := width f; channels := 4;
          pixels := map (fun px => mask_pixel t (opaque_pixel px)) (pixels f) |}.
Proof.
  intros Hc Hlen. unfold convert_black_to_transparent.
  rewrite Hc. simpl Nat.eqb. cbv iota.
  rewrite (concatenate_opaque_alpha f Hlen), assign_masked_black_mask. simpl.
  rewrite Hc. simpl. rewrite map_map. reflexivity.
Qed.

End PixelLemmas.

(* ===================================================================== *)
(** * C5, C6: black-to-transparent masking                                *)
(* ===================================================================== *)

(** C5.  On a frame with an alpha channel the masking with threshold [t]
    keeps the shape; a pixel [(r, g, b, a)] becomes [(r, g, b, 0)] when
    [r], [g] and [b] are all [<= t] and stays [(r, g, b, a)] otherwise.  On
    an entirely black frame every output pixel is the input's colour bytes
    followed by alpha 0. *)
Theorem C5_black_masking (f : Frame) (t : Z) :
  Frame_wf f -> channels f = 4%nat ->
  exists f',
    convert_black_to_transparent f t = Ok f' /\
    height f' = height f /\ width f' = width f /\ channels f' = 4%nat /\
    length (pixels f') = length (pixels f) /\
    (forall i px, pixels f !! i = Some px ->
       exists r g b a,
         px = [r; g; b; a] /\
         pixels f' !! i
         = Some (if (r <=? t) && (g <=? t) && (b <=? t)
                 then [r; g; b; 0] else [r; g; b; a])) /\
    (forall i px px', pixels f !! i = Some px -> pixels f' !! i = Some px' ->
       take 3 px' = take 3 px) /\
    ((forall px, px ∈ pixels f -> is_black t px = true) ->
     pixels f' = map (fun px => take 3 px ++ [0]) (pixels f)).
Proof.
  intros [Hlen Hpx] Hc.
  rewrite convert_black_to_transparent_alpha by lia.
  eexists. split; [reflexivity|]. simpl.
  split; [reflexivity|]. split; [reflexivity|]. split; [exact Hc|].
  split; [apply length_map|].
  assert (Hshape : forall i px, pixels f !! i = Some px ->
                                exists r g b a, px = [r; g; b; a]).
  { intros i px Hi.
    assert (Hl : length px = 4%nat).
    { rewrite <- Hc. rewrite Forall_forall in Hpx. apply Hpx.
      apply list_elem_of_lookup. eauto. }
    destruct px as [|r [|g [|b [|a [|? ?]]]]]; simpl in Hl; try discriminate.
    eauto. }
  split; [|split].
  - intros i px Hi. destruct (Hshape i px Hi) as (r & g & b & a & ->).
    exists r, g, b, a. split; [reflexivity|].
    rewrite list_lookup_fmap, Hi. simpl. rewrite mask_pixel_rgba. reflexivity.
  - intros i px px' Hi Hi'. rewrite list_lookup_fmap, Hi in Hi'. simpl in Hi'.
    injection Hi' as <-. apply mask_pixel_colors.
  - intros Hblack. apply map_ext_in. intros px Hin.
    apply list_elem_of_In in Hin.
    destruct (proj1 (list_elem_of_lookup _ _) Hin) as [i Hi].
    destruct (Hshape i px Hi) as (r & g & b & a & ->).
    unfold mask_pixel. rewrite (Hblack _ Hin). reflexivity.
Qed.

(** C5 at a frame of two pixels, threshold 16: the near-black pixel loses
    its alpha, the red one is untouched. *)
Lemma C5_black_masking_witness :
  Frame_wf Fixtures.frame_rgba /\ channels Fixtures.frame_rgba = 4%nat /\
  exists f',
    convert_black_to_transparent Fixtures.frame_rgba 16 = Ok f' /\
    pixels f' !! 0%nat = Some [0; 5; 16; 0] /\
    pixels f' !! 1%nat = Some [17; 0; 0; 77].
Proof.
  assert (Hwf : Frame_wf Fixtures.frame_rgba) by (apply Frame_wf_iff; reflexivity).
  split; [exact Hwf|]. split; [reflexivity|].
  destruct (C5_black_masking Fixtures.frame_rgba 16 Hwf eq_refl)
    as (f' & Hrun & _ & _ & _ & _ & Hpx & _).
  exists f'. split; [exact Hrun|]. split.
  - destruct (Hpx 0%nat [0; 5; 16; 200] eq_refl) as (r & g & b & a & E & H).
    injection E as <- <- <- <-. exact H.
  - destruct (Hpx 1%nat [17; 0; 0; 77] eq_refl) as (r & g & b & a & E & H).
    injection E as <- <- <- <-. exact H.
Defined.

(** The end-to-end scenario of the spec on one frame: a black 4x4 frame
    masked with the pipeline's threshold has alpha 0 everywhere and its
    colour bytes unchanged. *)
Example black_frame_becomes_transparent :
  transform_frame {| use_transparency := true; convert_black := true |}
                  Fixtures.frame_black_4x4
  = Ok {| height := 4; width := 4; channels := 4;
          pixels := repeat [0; 0; 0; 0] 16 |}.
Proof. vm_compute. reflexivity. Qed.

(** The masking of a three-channel frame first makes every pixel opaque. *)
Example masking_rgb_frame :
  convert_black_to_transparent Fixtures.frame_rgb 16
  = Ok {| height := 1; width := 2; channels := 4;
          pixels := [[0; 5; 16; 0]; [17; 0; 0; 255]] |}.
Proof. vm_compute. reflexivity. Qed.

(** With fewer than three channels there is no channel 3 to write: the
    assignment raises, whether a pixel is selected or not. *)
Example masking_two_channel_frames :
  convert_black_to_transparent
    {| height := 1; width := 1; channels := 2; pixels := [[0; 0]] |} 16
  = Raise IndexError /\
  convert_black_to_transparent
    {| height := 1; width := 1; channels := 2; pixels := [[200; 0]] |} 16
  = Raise IndexError.
Proof. split; reflexivity. Qed.

(** C6.  Masking twice with the same threshold is masking once, for every
    frame and threshold, also where the function raises. *)
Theorem C6_black_masking_idempotent (f : Frame) (t : Z) :
  (g <- convert_black_to_transparent f t ;; convert_black_to_transparent g t)
  = convert_black_to_transparent f t.
Proof.
  destruct (lt_eq_lt_dec (channels f) 3) as [[Hlt|Heq]|Hgt].
  - assert (Hr : convert_black_to_transparent f t = Raise IndexError).
    { unfold convert_black_to_transparent.
      destruct (Nat.eqb_spec (channels f) 3) as [E|_]; [lia|].
      rewrite assign_masked_black_mask.
      destruct (Nat.ltb_spec 3 (channels f)); [lia|]. reflexivity. }
    rewrite Hr. reflexivity.
  - assert (Hr : convert_black_to_transparent f t
                 = Ok {| height := height f; width := width f; channels := 4;
                         pixels := map (mask_pixel t)
                                       (zip_with (@app Z) (pixels f)
                                          (repeat [255] (height f * width f))) |}).
    { unfold convert_black_to_transparent.
      rewrite Heq. simpl Nat.eqb. cbv iota.
      rewrite assign_masked_black_mask. simpl. rewrite Heq. reflexivity. }
    rewrite Hr. simpl.
    rewrite convert_black_to_transparent_alpha by (simpl; lia). simpl.
    rewrite map_map. do 2 f_equal. apply map_ext. intros px.
    apply mask_pixel_idem.
  - rewrite (convert_black_to_transparent_alpha f t) by lia. simpl.
    rewrite convert_black_to_transparent_alpha by (simpl; lia). simpl.
    rewrite map_map. do 2 f_equal. apply map_ext. intros px.
    apply mask_pixel_idem.
Qed.

(* ===================================================================== *)
(** * C7: channel normalization                                           *)
(* ===================================================================== *)

(** What [add_frame] writes to a running encoder that accepts the write:
    the bytes of the frame in the encoder's format. *)
Lemma add_frame_writes (env : Env) (w : GifWriter.t) (p : Popen) (frame : Frame) (fs : FS) :
  GifWriter.process w = Some p ->
  enc_write env p (tobytes (GifWriter.ensure_format (GifWriter.use_transparency w) frame))
  = Written ->
  exists w' fs',
    GifWriter.add_frame env w frame fs = (Ok tt, w', fs') /\
    GifWriter.process w'
    = Some {| cmd := cmd p;
              stdin_data :=
                stdin_data p ++
                [tobytes (GifWriter.ensure_format (GifWriter.use_transparency w) frame)] |} /\
    GifWriter.frame_count w' = S (GifWriter.frame_count w).
Proof.
  intros Hp Hw. unfold GifWriter.add_frame. rewrite Hp. cbn beta iota.
  rewrite Hp, Hw.
  eexists _, _. split; [reflexivity|]. split; reflexivity.
Qed.

(** C7.  A three-channel frame brought to four channels for a transparent
    encoder ([use_transparency] set) and back to three for an opaque one is
    the original frame: same shape, same bytes.  The alpha added in between
    is 255 everywhere. *)
Theorem C7_channel_round_trip (f : Frame) :
  Frame_wf f -> channels f = 3%nat ->
  channels (GifWriter.ensure_format true f) = 4%nat /\
  pixels (GifWriter.ensure_format true f) = map opaque_pixel (pixels f) /\
  GifWriter.ensure_format false (GifWriter.ensure_format true f) = f /\
  tobytes (GifWriter.ensure_format false (GifWriter.ensure_format true f))
  = tobytes f.
Proof.
  intros [Hlen Hpx] Hc.
  assert (Hup : GifWriter.ensure_format true f
                = {| height := height f; width := width f; channels := 4;
                     pixels := map opaque_pixel (pixels f) |}).
  { unfold GifWriter.ensure_format. rewrite Hc. simpl.
    rewrite (concatenate_opaque_alpha f Hlen), Hc. reflexivity. }
  assert (Hback : GifWriter.ensure_format false (GifWriter.ensure_format true f) = f).
  { rewrite Hup. unfold GifWriter.ensure_format, first_three_channels. simpl.
    destruct f as [h w c px]. simpl in *. subst c. f_equal.
    rewrite map_map. rewrite <- (map_id px) at 2. apply map_ext_in.
    intros q Hq. rewrite Forall_forall in Hpx.
    specialize (Hpx q (proj2 (list_elem_of_In _ _) Hq)).
    unfold opaque_pixel. rewrite take_app_length'; [reflexivity|symmetry; exact Hpx]. }
  rewrite Hback, Hup. repeat split; reflexivity.
Qed.

Lemma C7_channel_round_trip_witness :
  Frame_wf Fixtures.frame_rgb /\ channels Fixtures.frame_rgb = 3%nat /\
  GifWriter.ensure_format false (GifWriter.ensure_format true Fixtures.frame_rgb)
  = Fixtures.frame_rgb.
Proof.
  assert (Hwf : Frame_wf Fixtures.frame_rgb) by (apply Frame_wf_iff; reflexivity).
  split; [exact Hwf|]. split; [reflexivity|].
  exact (proj1 (proj2 (proj2 (C7_channel_round_trip Fixtures.frame_rgb Hwf eq_refl)))).
Defined.

(* ===================================================================== *)
(** * C10: the caller's array is not written                              *)
(* ===================================================================== *)

Section StoreLemmas.

Lemma alloc_spec (v : Frame) (h : gmap positive Frame) :
  h !! (Store.alloc v h).1 = None /\
  (Store.alloc v h).2 !! (Store.alloc v h).1 = Some v /\
  (forall k x, h !! k = Some x ->
               k <> (Store.alloc v h).1 /\ (Store.alloc v h).2 !! k = Some x).
Proof.
  unfold Store.alloc. simpl.
  assert (Hfresh : h !! fresh (dom h) = None).
  { apply not_elem_of_dom. apply is_fresh. }
  split; [exact Hfresh|]. split; [apply lookup_insert_eq|].
  intros k x Hk.
  assert (Hne : k <> fresh (dom h)) by (intros ->; congruence).
  split; [exact Hne|]. rewrite lookup_insert_ne by congruence. exact Hk.
Qed.

End StoreLemmas.

(** C10.  Called on the address of a three- or four-channel array, the
    function returns the address of an array that did not exist before, with
    four channels and the value the function computes; the caller's array,
    and every other array that existed, holds the same value afterwards. *)
Theorem C10_input_not_mutated (h : gmap positive Frame) (frame : positive)
        (v : Frame) (t : Z) :
  h !! frame = Some v ->
  channels v = 3%nat \/ channels v = 4%nat ->
  exists out h' v',
    Store.convert_black_to_transparent frame t h = Some (Ok out, h') /\
    h' !! frame = Some v /\
    out <> frame /\
    h !! out = None /\
    h' !! out = Some v' /\
    channels v' = 4%nat /\
    convert_black_to_transparent v t = Ok v' /\
    (forall k x, h !! k = Some x -> h' !! k = Some x).
Proof.
  intros Hv Hc. unfold Store.convert_black_to_transparent. rewrite Hv.
  destruct (alloc_spec v h) as (Hn1 & Hs1 & Hold1).
  destruct (Store.alloc v h) as [l1 h1] eqn:E1. simpl in Hn1, Hs1, Hold1.
  destruct Hc as [Hc|Hc].
  - rewrite Hc. simpl Nat.eqb. cbv iota.
    set (alpha := opaque_alpha (height v) (width v)).
    destruct (alloc_spec alpha h1) as (Hn2 & Hs2 & Hold2).
    destruct (Store.alloc alpha h1) as [l2 h2] eqn:E2. simpl in Hn2, Hs2, Hold2.
    set (v1 := concatenate_axis2 v alpha).
    destruct (alloc_spec v1 h2) as (Hn3 & Hs3 & Hold3).
    destruct (Store.alloc v1 h2) as [l3 h3] eqn:E3. simpl in Hn3, Hs3, Hold3.
    assert (Hrun : convert_black_to_transparent v t
                   = assign_masked v1 (black_mask v1 t) 3 0).
    { unfold convert_black_to_transparent. rewrite Hc. reflexivity. }
    assert (Hch : channels v1 = 4%nat) by (unfold v1; simpl; rewrite Hc; reflexivity).
    rewrite assign_masked_black_mask in *. rewrite Hch in *. simpl in *.
    assert (Hkeep : forall k x, h !! k = Some x -> k <> l3 /\ h3 !! k = Some x).
    { intros k x Hk. destruct (Hold1 k x Hk) as [_ Hk1].
      destruct (Hold2 k x Hk1) as [_ Hk2]. exact (Hold3 k x Hk2). }
    eexists l3, _, _. split; [reflexivity|].
    destruct (Hkeep frame v Hv) as [Hne Hf3].
    split; [rewrite lookup_insert_ne by congruence; exact Hf3|].
    split; [congruence|].
    split.
    { destruct (h !! l3) as [x|] eqn:El3; [|reflexivity].
      destruct (Hkeep l3 x El3) as [Habs _]. congruence. }
    split; [apply lookup_insert_eq|].
    split; [reflexivity|].
    split; [exact Hrun|].
    intros k x Hk. destruct (Hkeep k x Hk) as [Hne' Hk3].
    rewrite lookup_insert_ne by congruence. exact Hk3.
  - assert (Hrun : convert_black_to_transparent v t
                   = assign_masked v (black_mask v t) 3 0).
    { unfold convert_black_to_transparent. rewrite Hc. reflexivity. }
    rewrite Hc. simpl Nat.eqb. cbv iota.
    rewrite assign_masked_black_mask in *. rewrite Hc in *. simpl in *.
    eexists l1, _, _. split; [reflexivity|].
    destruct (Hold1 frame v Hv) as [Hne Hf1].
    split; [rewrite lookup_insert_ne by congruence; exact Hf1|].
    split; [congruence|].
    split; [exact Hn1|].
    split; [apply lookup_insert_eq|].
    split; [reflexivity|].
    split; [exact Hrun|].
    intros k x Hk. destruct (Hold1 k x Hk) as [Hne' Hk1].
    rewrite lookup_insert_ne by congruence. exact Hk1.
Qed.

Lemma C10_input_not_mutated_witness :
  Fixtures.heap_with_rgb !! 7%positive = Some Fixtures.frame_rgb /\
  exists out h',
    Store.convert_black_to_transparent 7%positive 16 Fixtures.heap_with_rgb
    = Some (Ok out, h') /\
    h' !! 7%positive = Some Fixtures.frame_rgb /\
    out <> 7%positive.
Proof.
  split; [reflexivity|].
  destruct (C10_input_not_mutated Fixtures.heap_with_rgb 7%positive
              Fixtures.frame_rgb 16 eq_refl (or_introl eq_refl))
    as (out & h' & v' & Hrun & Hsame & Hne & _).
  exists out, h'. split; [exact Hrun|]. split; [exact Hsame|exact Hne].
Defined.

(* ===================================================================== *)
(** * Integers that convert to a float without rounding                   *)
(* ===================================================================== *)

Section ExactIntegers.

Lemma digits2_pos_shift (p k : positive) :
  digits2_pos (Pos.iter xO p k) = (digits2_pos p + k)%positive.
Proof.
  induction k as [|k IH] using Pos.peano_ind.
  - simpl. lia.
  - rewrite Pos.iter_succ. simpl. rewrite IH. lia.
Qed.

Lemma digits2_pos_lower (p : positive) :
  2 ^ (Zpos (digits2_pos p) - 1) <= Zpos p.
Proof.
  induction p as [p IH|p IH|]; simpl digits2_pos.
  - replace (Zpos (Pos.succ (digits2_pos p)) - 1) with (Z.succ (Zpos (digits2_pos p) - 1)) by lia.
    rewrite Z.pow_succ_r by lia. lia.
  - replace (Zpos (Pos.succ (digits2_pos p)) - 1) with (Z.succ (Zpos (digits2_pos p) - 1)) by lia.
    rewrite Z.pow_succ_r by lia. lia.
  - simpl. lia.
Qed.

Lemma digits2_pos_bound (p : positive) :
  Zpos p < 2 ^ 53 -> Zpos (digits2_pos p) <= 53.
Proof.
  intros Hp. destruct (Z_le_gt_dec (Zpos (digits2_pos p)) 53) as [H|H]; [exact H|].
  exfalso. pose proof (digits2_pos_lower p) as Hl.
  assert (2 ^ 53 <= 2 ^ (Zpos (digits2_pos p) - 1)) by (apply Z.pow_le_mono_r; lia).
  lia.
Qed.

Lemma binary_round_aux_exact (m : positive) (e : Z) :
  Zpos (digits2_pos m) = 53 -> -1074 <= e <= 971 ->
  binary_round_aux prec emax false (Zpos m) e loc_Exact = S754_finite false m e.
Proof.
  intros Hd He.
  assert (Hf : fexp prec emax (Zpos (digits2_pos m) + e) - e = 0).
  { unfold fexp, emin, prec, emax. rewrite Hd. lia. }
  unfold binary_round_aux, shr_fexp. simpl Zdigits2. rewrite Hf. simpl.
  rewrite Hf. simpl.
  destruct (Z.leb_spec e (emax - prec)) as [_|Habs]; [reflexivity|].
  unfold emax, prec in Habs. lia.
Qed.

Lemma round_Z_exact (p : positive) :
  Zpos p < 2 ^ 53 ->
  exists m e, round_Z (Zpos p) = S754_finite false m e.
Proof.
  intros Hp. pose proof (digits2_pos_bound p Hp) as Hd.
  unfold round_Z, binary_normalize, binary_round.
  assert (Hf : fexp prec emax (Zpos (digits2_pos p) + 0) = Zpos (digits2_pos p) - 53).
  { unfold fexp, emin, prec, emax. lia. }
  rewrite Hf. unfold shl_align.
  destruct (Zpos (digits2_pos p) - 53 - 0) as [|k|k] eqn:Ek.
  - eexists _, _. apply binary_round_aux_exact; lia.
  - lia.
  - eexists _, _. apply binary_round_aux_exact.
    + rewrite digits2_pos_shift. lia.
    + lia.
Qed.

Lemma float_of_int_exact (n : nat) :
  Z.of_nat n < 2 ^ 53 -> float_of_int (Z.of_nat n) = Ok (round_Z (Z.of_nat n)).
Proof.
  intros Hn. unfold float_of_int.
  destruct (Z.of_nat n) as [|p|p] eqn:E.
  - reflexivity.
  - destruct (round_Z_exact p Hn) as (m & e & ->). reflexivity.
  - lia.
Qed.

End ExactIntegers.

(* ===================================================================== *)
(** * C4: the decoded frame sequence                                      *)
(* ===================================================================== *)

Section DecodeLoop.

Import WebmDecoder.

(** The loop on a stream of complete frames followed by a shorter rest: one
    item per complete frame, numbered from the current frame count, then a
    normal end. *)
Lemma drain_complete_frames (chunks : list (list Z)) :
  forall (g : Generator) (rest : list Z) (fuel : nat),
    g_stdout g = concat chunks ++ rest ->
    Forall (fun c => length c = (g_width g * g_height g * g_channels g)%nat) chunks ->
    (length rest < g_width g * g_height g * g_channels g)%nat ->
    is_zero (g_fps g) = false ->
    Z.of_nat (g_frame_count g + length chunks) <= 2 ^ 53 ->
    (length chunks < fuel)%nat ->
    drain fuel g
    = Some (imap (fun i c =>
                    (frombuffer_reshape (g_height g) (g_width g) (g_channels g) c,
                     fdiv (round_Z (Z.of_nat (g_frame_count g + i))) (g_fps g)))
                 chunks,
            None).
Proof.
  induction chunks as [|c chunks IH]; intros g rest fuel Hout Hall Hrest Hfps Hcount Hfuel.
  - destruct fuel as [|fuel]; [simpl in Hfuel; lia|].
    simpl in Hout. simpl. unfold next. rewrite Hout.
    rewrite firstn_all2 by lia.
    destruct (Nat.eqb_spec (length rest) (g_width g * g_height g * g_channels g)) as [E|_];
      [lia|]. reflexivity.
  - destruct fuel as [|fuel]; [simpl in Hfuel; lia|].
    apply Forall_cons in Hall as [Hc Hall].
    simpl in Hout. rewrite <- app_assoc in Hout.
    simpl drain. unfold next. rewrite Hout.
    rewrite take_app_length' by (symmetry; exact Hc).
    rewrite drop_app_length' by (symmetry; exact Hc).
    rewrite Hc, Nat.eqb_refl. simpl negb. cbv iota.
    unfold int_div_float.
    rewrite float_of_int_exact by (rewrite length_cons in Hcount; lia).
    cbn [bind]. unfold float_truediv. rewrite Hfps.
    match goal with
    | |- context [drain fuel ?g'] =>
        rewrite (IH g' rest fuel);
        cbn [g_stdout g_width g_height g_channels g_fps g_frame_count]
    end.
    + rewrite imap_cons, Nat.add_0_r. do 3 f_equal.
      apply imap_ext. intros i x _. unfold compose.
      replace (S (g_frame_count g) + i)%nat with (g_frame_count g + S i)%nat by lia.
      reflexivity.
    + reflexivity.
    + exact Hall.
    + exact Hrest.
    + exact Hfps.
    + rewrite length_cons in Hcount. lia.
    + rewrite length_cons in Hfuel. lia.
Qed.

End DecodeLoop.

(** C4, as stated, fails: nothing between the probe and the loop looks at
    the frame rate.  A clip probed with [r_frame_rate] ["0/1"] has [fps]
    [0.0]; its decoder writes exactly one complete 1x1 frame of three bytes
    and ends, and the generator yields no frame: the timestamp [0 / fps] of
    frame 0 raises [ZeroDivisionError], with whatever fuel it is drained. *)
Lemma C4_zero_frame_rate_raises :
  exists info self' g,
    WebmDecoder.get_info Samples.env_zero_rate Fixtures.decoder_of_clip
    = (Ok info, self') /\
    (i_width info, i_height info, i_has_alpha info) = (1%nat, 1%nat, false) /\
    ffmpeg_decode Samples.env_zero_rate (WebmDecoder.filepath self') false
    = Ok (concat [[1; 2; 3]] ++ []) /\
    WebmDecoder.decode_frames Samples.env_zero_rate Fixtures.decoder_of_clip false
    = (Ok g, self') /\
    WebmDecoder.next g = WebmDecoder.Throw ZeroDivisionError /\
    WebmDecoder.drain 2 g = Some ([], Some ZeroDivisionError) /\
    ~ (exists fuel items,
          WebmDecoder.drain fuel g = Some (items, None) /\ length items = 1%nat).
Proof.
  eexists _, _, _.
  split; [vm_compute; reflexivity|].
  split; [reflexivity|].
  split; [reflexivity|].
  split; [vm_compute; reflexivity|].
  split; [vm_compute; reflexivity|].
  split; [vm_compute; reflexivity|].
  intros (fuel & items & Hdrain & _).
  destruct fuel as [|fuel]; [discriminate Hdrain|].
  vm_compute in Hdrain. discriminate Hdrain.
Qed.

(** C4, amended.  The decoder process writes [k] complete frames of
    [width * height * channels] bytes and then fewer bytes than one frame,
    possibly none.  For a frame rate that is not zero and [k] up to [2^53],
    the generator yields exactly [k] items and ends normally; item [i] is
    chunk [i] reshaped to [(height, width, channels)] with timestamp
    [i / fps]. *)
Theorem C4_decode_exactly_k_frames (env : Env) (self self' : WebmDecoder.t)
        (info : VideoInfo) (use_alpha : bool)
        (chunks : list (list Z)) (rest : list Z) (fuel : nat) :
  let rgba := i_has_alpha info || use_alpha in
  let channels := if rgba then 4%nat else 3%nat in
  WebmDecoder.get_info env self = (Ok info, self') ->
  ffmpeg_decode env (WebmDecoder.filepath self') rgba = Ok (concat chunks ++ rest) ->
  Forall (fun c => length c = (i_width info * i_height info * channels)%nat) chunks ->
  (length rest < i_width info * i_height info * channels)%nat ->
  is_zero (i_fps info) = false ->
  Z.of_nat (length chunks) <= 2 ^ 53 ->
  (length chunks < fuel)%nat ->
  exists g items,
    WebmDecoder.decode_frames env self use_alpha = (Ok g, self') /\
    WebmDecoder.drain fuel g = Some (items, None) /\
    length items = length chunks /\
    forall i chunk,
      chunks !! i = Some chunk ->
      int_div_float (Z.of_nat i) (i_fps info)
      = Ok (fdiv (round_Z (Z.of_nat i)) (i_fps info)) /\
      items !! i
      = Some (frombuffer_reshape (i_height info) (i_width info) channels chunk,
              fdiv (round_Z (Z.of_nat i)) (i_fps info)).
Proof.
  intros rgba channels Hinfo Hdec Hall Hrest Hfps Hk Hfuel.
  unfold WebmDecoder.decode_frames. rewrite Hinfo. fold rgba. rewrite Hdec.
  fold channels.
  eexists _, _. split; [reflexivity|].
  split.
  { apply (drain_complete_frames chunks _ rest fuel); simpl;
      try assumption; try reflexivity. }
  split; [apply length_imap|].
  intros i chunk Hi. simpl. split.
  - assert (Hlt : (i < length chunks)%nat) by (eapply lookup_lt_Some; exact Hi).
    unfold int_div_float. rewrite float_of_int_exact by lia.
    simpl. unfold float_truediv. rewrite Hfps. reflexivity.
  - rewrite list_lookup_imap, Hi. reflexivity.
Qed.

(** C4 at the clip of the fixtures: two complete [rgba] frames and two
    stray bytes give two items, at 0.0 and 0.1 seconds. *)
Lemma C4_decode_exactly_k_frames_witness :
  exists g items,
    (WebmDecoder.decode_frames Fixtures.env_two_frames Fixtures.decoder_of_clip true).1
    = Ok g /\
    WebmDecoder.drain 3 g = Some (items, None) /\
    length items = 2%nat /\
    items !! 1%nat
    = Some ({| height := 1; width := 1; channels := 4; pixels := [[9; 9; 9; 255]] |},
            lit_0_1).
Proof.
  edestruct C4_decode_exactly_k_frames
    with (env := Fixtures.env_two_frames) (self := Fixtures.decoder_of_clip)
         (use_alpha := true) (chunks := [[0; 0; 0; 255]; [9; 9; 9; 255]])
         (rest := [1; 2]) (fuel := 3%nat)
    as (g & items & Hgen & Hdrain & Hlen & Hitems).
  - vm_compute. reflexivity.
  - vm_compute. reflexivity.
  - repeat constructor.
  - vm_compute. lia.
  - vm_compute. reflexivity.
  - vm_compute. discriminate.
  - simpl. lia.
  - exists g, items. split; [rewrite Hgen; reflexivity|].
    split; [exact Hdrain|]. split; [exact Hlen|].
    destruct (Hitems 1%nat [9; 9; 9; 255] eq_refl) as [_ H]. rewrite H.
    vm_compute. reflexivity.
Defined.

(* ===================================================================== *)
(** * C3: cleanup after a failed conversion                               *)
(* ===================================================================== *)

Section Cleanup.




End Cleanup.



(** Failures in other states of the conversion. *)
Example failure_while_probing :
  convert_webm_to_gif 5 Fixtures.env_probe_fails Fixtures.clip None
                      Fixtures.fs_with_clip
  = Some (Raise (ProbeFailed "Invalid data found"),
          delete "/tmp/clip.gif"%string Fixtures.fs_with_clip).
Proof. vm_compute. reflexivity. Qed.

Example failure_in_the_frame_loop :
  exists fs',
    convert_webm_to_gif 5 Fixtures.env_encoder_dies Fixtures.clip None
                        Fixtures.fs_with_clip
    = Some (Raise (FrameProcessingError 1 EncoderDied), fs') /\
    fs' !! "/tmp/clip.gif"%string = None.
Proof. eexists. split; vm_compute; reflexivity. Qed.

Example failure_on_missing_input :
  convert_webm_to_gif 5 Fixtures.env_two_frames Fixtures.clip None ∅
  = Some (Raise FileNotFoundError, ∅).
Proof. vm_compute. reflexivity. Qed.

(** A decoder that delivers no frame: the writer never starts an encoder,
    [close] returns, and the conversion fails when it asks for the size of an
    output that nothing has written. *)
Example conversion_without_frames :
  convert_webm_to_gif 5 Fixtures.env_encoder_rejects Fixtures.clip None
                      {[ "/tmp/clip.webm"%string := [26; 69; 223; 163] ]}
  = Some (Raise FileNotFoundError,
          {[ "/tmp/clip.webm"%string := [26; 69; 223; 163] ]}).
Proof. vm_compute. reflexivity. Qed.

(* ===================================================================== *)
(** * Raw frames: bytes to array and back                                 *)
(* ===================================================================== *)

Section Reshape.

Lemma reshape_pixels_shape (n c : nat) :
  forall raw : list Z,
    length raw = (n * c)%nat ->
    length (reshape_pixels n c raw) = n /\
    Forall (fun px => length px = c) (reshape_pixels n c raw).
Proof.
  induction n as [|n IH]; intros raw Hlen; simpl.
  - split; [reflexivity|constructor].
  - destruct (IH (drop c raw)) as [H1 H2].
    { rewrite length_drop, Hlen. simpl. lia. }
    split; [rewrite H1; reflexivity|].
    constructor; [|exact H2].
    rewrite length_take, Hlen. simpl. lia.
Qed.

Lemma reshape_pixels_concat (n c : nat) :
  forall raw : list Z,
    length raw = (n * c)%nat -> concat (reshape_pixels n c raw) = raw.
Proof.
  induction n as [|n IH]; intros raw Hlen; simpl.
  - destruct raw; [reflexivity|discriminate Hlen].
  - rewrite IH by (rewrite length_drop, Hlen; simpl; lia).
    apply take_drop.
Qed.

Lemma reshape_pixels_of_concat (c : nat) (px : list (list Z)) :
  Forall (fun p => length p = c) px ->
  reshape_pixels (length px) c (concat px) = px.
Proof.
  induction 1 as [|p px Hp _ IH]; simpl; [reflexivity|].
  rewrite take_app_length' by (symmetry; exact Hp).
  rewrite drop_app_length' by (symmetry; exact Hp).
  rewrite IH. reflexivity.
Qed.

End Reshape.

(** X1.  A raw frame of [h * w * c] bytes becomes a well-shaped array whose
    bytes are the raw frame again; a well-shaped array is rebuilt from its
    bytes.  What the decoder reads and what [add_frame] writes are the same
    bytes when the frame is not changed in between. *)
Theorem reshape_tobytes_inverse (h w c : nat) (raw : list Z) (f : Frame) :
  length raw = (h * w * c)%nat ->
  Frame_wf f ->
  Frame_wf (frombuffer_reshape h w c raw) /\
  tobytes (frombuffer_reshape h w c raw) = raw /\
  frombuffer_reshape (height f) (width f) (channels f) (tobytes f) = f.
Proof.
  intros Hlen [Hn Hpx].
  destruct (reshape_pixels_shape (h * w) c raw Hlen) as [H1 H2].
  split; [split; [exact H1|exact H2]|].
  split; [apply reshape_pixels_concat; exact Hlen|].
  unfold frombuffer_reshape, tobytes. rewrite <- Hn.
  rewrite (reshape_pixels_of_concat _ _ Hpx). destruct f; reflexivity.
Qed.

Lemma reshape_tobytes_inverse_witness :
  tobytes (frombuffer_reshape 1 2 3 [0; 5; 16; 17; 0; 0]) = [0; 5; 16; 17; 0; 0] /\
  frombuffer_reshape 1 2 4 (tobytes Fixtures.frame_rgba) = Fixtures.frame_rgba.
Proof.
  assert (Hwf : Frame_wf Fixtures.frame_rgba) by (apply Frame_wf_iff; reflexivity).
  split.
  - exact (proj1 (proj2 (reshape_tobytes_inverse 1 2 3 [0; 5; 16; 17; 0; 0]
                           Fixtures.frame_rgba eq_refl Hwf))).
  - exact (proj2 (proj2 (reshape_tobytes_inverse 1 2 3 [0; 5; 16; 17; 0; 0]
                           Fixtures.frame_rgba eq_refl Hwf))).
Defined.

(* ===================================================================== *)
(** * Probing: errors and the cache                                       *)
(* ===================================================================== *)

Section ProbeErrors.

Lemma int_of_str_raises (s : string) (e : exn) :
  int_of_str s = Raise e -> e = ValueError.
Proof.
  unfold int_of_str. intros H.
  repeat match type of H with
         | context [match ?x with _ => _ end] => destruct x; try discriminate H
         end; congruence.
Qed.

Lemma float_of_str_raises (s : string) (e : exn) :
  float_of_str s = Raise e -> e = ValueError.
Proof.
  unfold float_of_str. intros H.
  repeat match type of H with
         | context [match ?x with _ => _ end] => destruct x; try discriminate H
         end; congruence.
Qed.

Lemma int_truediv_raises (a b : Z) (e : exn) :
  b <> 0 -> int_truediv a b = Raise e -> e = OverflowError.
Proof.
  intros Hb H. unfold int_truediv in H.
  destruct a, b; try congruence;
    match type of H with
    | context [if ?x then _ else _] => destruct x; congruence
    end.
Qed.

Lemma split_chars_length (sep : ascii) (s : list ascii) :
  forall cur,
    length (split_chars sep cur s)
    = S (length (List.filter (fun c => Ascii.eqb c sep) s)).
Proof.
  induction s as [|c s IH]; intros cur; simpl; [reflexivity|].
  destruct (Ascii.eqb c sep); simpl; rewrite IH; reflexivity.
Qed.

End ProbeErrors.

(** X2.  Whatever the frame-rate string, parsing it raises nothing but
    [ValueError] (a malformed string) or [OverflowError] (a quotient too
    large for a float); in particular it never divides by zero. *)
Theorem parse_frame_rate_raises (fps_str : string) (e : exn) :
  WebmDecoder.parse_frame_rate fps_str = Raise e ->
  e = ValueError \/ e = OverflowError.
Proof.
  unfold WebmDecoder.parse_frame_rate. intros H.
  destruct (str_in "/" fps_str).
  - destruct (split "/" fps_str) as [|a [|b [|c l]]];
      try (left; congruence).
    destruct (int_of_str a) as [num|e1] eqn:Ea; simpl in H.
    + destruct (int_of_str b) as [den|e2] eqn:Eb; simpl in H.
      * destruct (Z.eqb_spec den 0) as [_|Hne]; simpl in H; [discriminate H|].
        right. exact (int_truediv_raises _ _ _ Hne H).
      * left. injection H as <-. exact (int_of_str_raises _ _ Eb).
    + left. injection H as <-. exact (int_of_str_raises _ _ Ea).
  - left. exact (float_of_str_raises _ _ H).
Qed.

Lemma parse_frame_rate_raises_witness :
  WebmDecoder.parse_frame_rate "N/A" = Raise ValueError /\
  (ValueError = ValueError \/ ValueError = OverflowError).
Proof.
  split; [reflexivity|].
  exact (parse_frame_rate_raises "N/A" ValueError eq_refl).
Defined.

(** X3.  A frame-rate string with two or more slashes is rejected with
    [ValueError], whatever stands between them. *)
Theorem parse_frame_rate_two_slashes (a b c : string) :
  WebmDecoder.parse_frame_rate (a +:+ "/" +:+ b +:+ "/" +:+ c) = Raise ValueError.
Proof.
  unfold WebmDecoder.parse_frame_rate.
  assert (Hin : str_in "/" (a +:+ "/" +:+ b +:+ "/" +:+ c) = true).
  { unfold str_in. rewrite chars_app. apply contains_sep_middle. }
  rewrite Hin.
  assert (Hlen : (3 <= length (split "/" (a +:+ "/" +:+ b +:+ "/" +:+ c)))%nat).
  { unfold split. rewrite length_map, split_chars_length.
    rewrite !chars_app. change (chars "/") with ["/"%char].
    rewrite !List.filter_app, !length_app. simpl. lia. }
  destruct (split "/" (a +:+ "/" +:+ b +:+ "/" +:+ c)) as [|x [|y [|z l]]];
    simpl in Hlen; try lia. reflexivity.
Qed.

(** X4.  A frame rate of zero with no declared duration makes probing fail:
    the duration falls back to [int(nb_frames) / fps], which divides by
    zero. *)
Theorem probe_zero_rate_divides_by_zero (data : ProbeData) (stream : Stream)
        (rest : list Stream) (s nb : string) (fps : float) (n : Z) :
  d_streams data = Some (stream :: rest) ->
  s_r_frame_rate stream = Some s ->
  WebmDecoder.parse_frame_rate s = Ok fps ->
  is_zero fps = true ->
  WebmDecoder.declared_duration data stream = Ok None ->
  s_nb_frames stream = Some nb ->
  nb <> ""%string ->
  int_of_str nb = Ok n ->
  is_ok (float_of_int n) = true ->
  WebmDecoder.parse_probe data = Raise ZeroDivisionError.
Proof.
  intros Hs Hr Hfps Hz Hdecl Hnb Hne Hn Hconv.
  unfold WebmDecoder.parse_probe. rewrite Hs, Hr. simpl. rewrite Hfps. simpl.
  unfold WebmDecoder.probe_duration. rewrite Hdecl. simpl.
  unfold WebmDecoder.fallback_duration. rewrite Hnb.
  destruct (String.eqb_spec nb "") as [->|_]; [congruence|].
  rewrite Hn. simpl. unfold int_div_float.
  destruct (float_of_int n) as [x|]; [|discriminate Hconv].
  simpl. unfold float_truediv. rewrite Hz. reflexivity.
Qed.

Lemma probe_zero_rate_divides_by_zero_witness :
  WebmDecoder.parse_probe
    {| d_streams := Some [Samples.stream_zero_rate_no_duration]; d_format := None |}
  = Raise ZeroDivisionError.
Proof.
  apply (probe_zero_rate_divides_by_zero
           _ Samples.stream_zero_rate_no_duration [] "0/1"%string "5"%string
           (S754_zero false) 5); try reflexivity.
  discriminate.
Defined.

(** X5.  [get_info] is memoized: once it has answered, every later call on
    the decoder it returned gives the same answer and the same decoder,
    whatever ffprobe would say then.  A failed call leaves the cache empty. *)
Theorem get_info_memoized (env env' : Env) (self self' : WebmDecoder.t)
        (info : VideoInfo) :
  WebmDecoder.get_info env self = (Ok info, self') ->
  WebmDecoder._info self' = Some info /\
  WebmDecoder.filepath self' = WebmDecoder.filepath self /\
  WebmDecoder.get_info env' self' = (Ok info, self').
Proof.
  unfold WebmDecoder.get_info. intros H.
  destruct (WebmDecoder._info self) as [cached|] eqn:Hc.
  - injection H as <- <-. rewrite Hc. repeat split; reflexivity.
  - destruct (ffprobe env (WebmDecoder.filepath self)) as [e|err|[data|]];
      try discriminate H.
    destruct (WebmDecoder.parse_probe data) as [i|e]; [|discriminate H].
    injection H as <- <-. simpl. repeat split; reflexivity.
Qed.

Lemma get_info_memoized_witness :
  exists info self',
    WebmDecoder.get_info Fixtures.env_two_frames Fixtures.decoder_of_clip
    = (Ok info, self') /\
    WebmDecoder.get_info Fixtures.env_probe_fails self' = (Ok info, self').
Proof.
  eexists _, _. split.
  - vm_compute. reflexivity.
  - refine (proj2 (proj2 (get_info_memoized Fixtures.env_two_frames
                            Fixtures.env_probe_fails Fixtures.decoder_of_clip _ _ _))).
    vm_compute. reflexivity.
Defined.

(* ===================================================================== *)
(** * Decoding at a frame rate of zero                                    *)
(* ===================================================================== *)

(** X6.  When the probed frame rate is zero and the decoder delivers at
    least one complete frame, the generator raises [ZeroDivisionError] on its
    first turn, before any frame is yielded: the timestamp [0 / fps] cannot be
    computed. *)
Theorem decode_zero_rate_raises (env : Env) (self self' : WebmDecoder.t)
        (info : VideoInfo) (use_alpha : bool) (stdout : list Z) (fuel : nat) :
  let rgba := i_has_alpha info || use_alpha in
  let channels := if rgba then 4%nat else 3%nat in
  WebmDecoder.get_info env self = (Ok info, self') ->
  ffmpeg_decode env (WebmDecoder.filepath self') rgba = Ok stdout ->
  is_zero (i_fps info) = true ->
  (i_width info * i_height info * channels <= length stdout)%nat ->
  exists g,
    WebmDecoder.decode_frames env self use_alpha = (Ok g, self') /\
    WebmDecoder.next g = WebmDecoder.Throw ZeroDivisionError /\
    WebmDecoder.drain (S fuel) g = Some ([], Some ZeroDivisionError).
Proof.
  intros rgba channels Hinfo Hdec Hz Hlen.
  unfold WebmDecoder.decode_frames. rewrite Hinfo. fold rgba. rewrite Hdec.
  fold channels. eexists. split; [reflexivity|].
  assert (Hnext : WebmDecoder.next
                    {| WebmDecoder.g_height := i_height info;
                       WebmDecoder.g_width := i_width info;
                       WebmDecoder.g_channels := channels;
                       WebmDecoder.g_fps := i_fps info;
                       WebmDecoder.g_stdout := stdout;
                       WebmDecoder.g_frame_count := 0 |}
                  = WebmDecoder.Throw ZeroDivisionError).
  { unfold WebmDecoder.next. simpl.
    rewrite length_take, Nat.min_l by exact Hlen.
    rewrite Nat.eqb_refl. simpl.
    unfold int_div_float, float_truediv. simpl. rewrite Hz. reflexivity. }
  split; [exact Hnext|]. simpl WebmDecoder.drain. rewrite Hnext. reflexivity.
Qed.

Lemma decode_zero_rate_raises_witness :
  exists g,
    (WebmDecoder.decode_frames Samples.env_zero_rate Fixtures.decoder_of_clip false).1
    = Ok g /\
    WebmDecoder.drain 1 g = Some ([], Some ZeroDivisionError).
Proof.
  edestruct decode_zero_rate_raises
    with (env := Samples.env_zero_rate) (self := Fixtures.decoder_of_clip)
         (use_alpha := false) (stdout := [1; 2; 3]) (fuel := 0%nat)
    as (g & Hgen & _ & Hdrain).
  - vm_compute. reflexivity.
  - vm_compute. reflexivity.
  - vm_compute. reflexivity.
  - vm_compute. lia.
  - exists g. split; [rewrite Hgen; reflexivity|exact Hdrain].
Defined.

(** The conversion of such a clip fails at frame 0. *)
Example conversion_at_zero_rate :
  convert_webm_to_gif 5 Samples.env_zero_rate Fixtures.clip None
                      {[ "/tmp/clip.webm"%string := [26; 69] ]}
  = Some (Raise (FrameProcessingError 0 ZeroDivisionError),
          {[ "/tmp/clip.webm"%string := [26; 69] ]}).
Proof. vm_compute. reflexivity. Qed.

(* ===================================================================== *)
(** * Black-pixel analysis                                                *)
(* ===================================================================== *)

Section Analysis.

Import WebmDecoder.

Lemma black_loop_short (starts : list nat) (data : list Z) (frame_size : nat)
      (tb tp : Z) :
  (length data < frame_size)%nat ->
  black_loop starts data frame_size tb tp = (tb, tp).
Proof.
  intros Hshort. destruct starts as [|i rest]; simpl; [reflexivity|].
  destruct (Nat.ltb_spec (length (take frame_size (drop i data))) frame_size)
    as [_|Habs]; [reflexivity|].
  rewrite length_take, length_drop in Habs. lia.
Qed.

Lemma reshape_pixels_length (n c : nat) (raw : list Z) :
  length (reshape_pixels n c raw) = n.
Proof.
  revert raw. induction n as [|n IH]; intros raw; simpl; [reflexivity|].
  rewrite IH. reflexivity.
Qed.

Lemma count_near_black_bounds (frame_data : list Z) :
  0 <= count_near_black frame_data <= Z.of_nat (length frame_data) / 3.
Proof.
  unfold count_near_black. split; [lia|].
  rewrite <- (Nat2Z.inj_div _ 3).
  apply Nat2Z.inj_le.
  etransitivity; [apply List.filter_length_le|].
  rewrite reshape_pixels_length. reflexivity.
Qed.

Lemma near_black_total_bounds (frame_size : nat) (chunks : list (list Z)) :
  Forall (fun c => length c = frame_size) chunks ->
  0 <= near_black_total chunks
    <= Z.of_nat (length chunks) * (Z.of_nat frame_size / 3).
Proof.
  induction 1 as [|c chunks Hc _ IH]; simpl; [lia|].
  pose proof (count_near_black_bounds c) as Hb. rewrite Hc in Hb. lia.
Qed.

(** The loop over complete frames followed by a shorter rest. *)
Lemma black_loop_tally (data rest : list Z) (frame_size : nat) :
  (length rest < frame_size)%nat ->
  forall (chunks : list (list Z)) (j cnt : nat) (tb tp : Z),
    Forall (fun c => length c = frame_size) chunks ->
    drop (j * frame_size) data = concat chunks ++ rest ->
    (length chunks <= cnt)%nat ->
    black_loop (map (fun k => (k * frame_size)%nat) (seq j cnt)) data frame_size tb tp
    = (tb + near_black_total chunks,
       tp + Z.of_nat (length chunks) * (Z.of_nat frame_size / 3)).
Proof.
  intros Hrest. induction chunks as [|c chunks IH]; intros j cnt tb tp Hall Hdrop Hcnt.
  - simpl. rewrite Z.add_0_r, Z.add_0_r.
    destruct cnt as [|cnt]; simpl; [reflexivity|].
    rewrite Hdrop. simpl.
    destruct (Nat.ltb_spec (length (take frame_size rest)) frame_size)
      as [_|Habs]; [reflexivity|].
    rewrite length_take in Habs. lia.
  - apply Forall_cons in Hall as [Hc Hall].
    destruct cnt as [|cnt]; [simpl in Hcnt; lia|].
    simpl seq. simpl map. simpl black_loop.
    rewrite Hdrop. simpl concat. rewrite <- app_assoc.
    rewrite take_app_length' by (symmetry; exact Hc).
    rewrite Hc. rewrite Nat.ltb_irrefl.
    rewrite (IH (S j) cnt); [| exact Hall | | simpl in Hcnt; lia].
    + simpl near_black_total. rewrite length_cons. f_equal; lia.
    + replace (S j * frame_size)%nat with (j * frame_size + frame_size)%nat by lia.
      rewrite <- drop_drop, Hdrop. simpl concat. rewrite <- app_assoc.
      apply drop_app_length'. symmetry. exact Hc.
Qed.

Lemma range_step_enough (k r frame_size : nat) :
  (0 < frame_size)%nat -> (r < frame_size)%nat ->
  (k <= Nat.div (k * frame_size + r + frame_size - 1) frame_size)%nat.
Proof.
  intros Hfs Hr. apply Nat.div_le_lower_bound; lia.
Qed.

Lemma length_concat_uniform (frame_size : nat) (chunks : list (list Z)) :
  Forall (fun c => length c = frame_size) chunks ->
  length (concat chunks) = (length chunks * frame_size)%nat.
Proof.
  induction 1 as [|c chunks Hc _ IH]; simpl; [reflexivity|].
  rewrite length_app, IH, Hc. reflexivity.
Qed.

End Analysis.

(** X7.  The analysis degrades to a ratio of 0.0 instead of failing: when
    the sampling run exits with a non-zero status, or delivers less than one
    complete frame, the result is 0.0, and the plan made from it uses no
    transparency. *)
Theorem analyze_degrades_to_zero (env : Env) (self self' : WebmDecoder.t)
        (info : VideoInfo) (n : nat) (returncode : Z) (data : list Z) :
  let w := Nat.min 320 (i_width info) in
  let h := Nat.min 240 (i_height info) in
  WebmDecoder.get_info env self = (Ok info, self') ->
  ffmpeg_sample env (WebmDecoder.filepath self')
                (Z.max 1 (i_nb_frames info / Z.of_nat (S n))) w h (S n)
  = Ok (returncode, data) ->
  returncode <> 0 \/ (length data < w * h * 3)%nat ->
  WebmDecoder.analyze_black_pixels env self (S n) = (Ok lit_0_0, self') /\
  plan_transparency false lit_0_0
  = {| use_transparency := false; convert_black := false |}.
Proof.
  intros w h Hinfo Hrun Hcase. split; [|reflexivity].
  unfold WebmDecoder.analyze_black_pixels. rewrite Hinfo. fold w h. rewrite Hrun.
  destruct (Z.eqb_spec returncode 0) as [Hrc|Hrc]; simpl; [|reflexivity].
  destruct Hcase as [Hne|Hshort]; [contradiction|].
  destruct (w * h * 3)%nat as [|fs] eqn:Efs; [lia|].
  rewrite black_loop_short by lia. reflexivity.
Qed.

Lemma analyze_degrades_to_zero_witness :
  (WebmDecoder.analyze_black_pixels Fixtures.env_encoder_rejects
                                    Fixtures.decoder_of_clip 10).1
  = Ok lit_0_0.
Proof.
  edestruct analyze_degrades_to_zero
    with (env := Fixtures.env_encoder_rejects) (self := Fixtures.decoder_of_clip)
         (n := 9%nat) (returncode := 1) (data := @nil Z) as [H _].
  - vm_compute. reflexivity.
  - vm_compute. reflexivity.
  - left. discriminate.
  - rewrite H. reflexivity.
Defined.

(** The value of the analysis on complete frames followed by a shorter
    rest. *)
Lemma analyze_black_pixels_ratio (env : Env) (self self' : WebmDecoder.t)
        (info : VideoInfo) (n : nat) (chunks : list (list Z)) (rest : list Z) :
  let w := Nat.min 320 (i_width info) in
  let h := Nat.min 240 (i_height info) in
  let black := near_black_total chunks in
  let total := Z.of_nat (length chunks) * Z.of_nat (w * h) in
  WebmDecoder.get_info env self = (Ok info, self') ->
  ffmpeg_sample env (WebmDecoder.filepath self')
                (Z.max 1 (i_nb_frames info / Z.of_nat (S n))) w h (S n)
  = Ok (0, concat chunks ++ rest) ->
  Forall (fun c => length c = (w * h * 3)%nat) chunks ->
  (length rest < w * h * 3)%nat ->
  chunks <> [] ->
  0 <= black <= total /\ 0 < total /\
  WebmDecoder.analyze_black_pixels env self (S n)
  = (Ok (fdiv (round_Z black) (round_Z total)), self').
Proof.
  intros w h black total Hinfo Hrun Hall Hrest Hne.
  assert (Hdiv : Z.of_nat (w * h * 3) / 3 = Z.of_nat (w * h)).
  { rewrite Nat2Z.inj_mul. apply Z.div_mul. lia. }
  pose proof (near_black_total_bounds _ _ Hall) as Hb. rewrite Hdiv in Hb.
  assert (Hpos : 0 < total).
  { unfold total. destruct chunks as [|c chunks]; [congruence|].
    rewrite length_cons. apply Z.mul_pos_pos; lia. }
  split; [exact Hb|]. split; [exact Hpos|].
  unfold WebmDecoder.analyze_black_pixels. rewrite Hinfo. fold w h. rewrite Hrun.
  simpl negb. cbv iota.
  destruct (w * h * 3)%nat as [|fs] eqn:Efs; [lia|].
  unfold WebmDecoder.range_step.
  rewrite (black_loop_tally (concat chunks ++ rest) rest (S fs) Hrest chunks 0
             _ 0 0 Hall); [| reflexivity |].
  - rewrite Hdiv. rewrite !Z.add_0_l. fold black total.
    destruct (Z.ltb_spec 0 total) as [_|Habs]; [reflexivity|lia].
  - rewrite length_app, (length_concat_uniform _ _ Hall).
    apply range_step_enough; lia.
Qed.

(** X8.  On a sampling run that succeeds and delivers at least one complete
    frame, possibly followed by a cut-off one, the ratio is the number of
    near-black pixels of the complete frames divided by the number of their
    pixels; the cut-off frame is not counted, and the count never exceeds
    the number of pixels. *)
Theorem analyze_counts_complete_frames (env : Env) (self self' : WebmDecoder.t)
        (info : VideoInfo) (n : nat) (chunks : list (list Z)) (rest : list Z) :
  let w := Nat.min 320 (i_width info) in
  let h := Nat.min 240 (i_height info) in
  let black := near_black_total chunks in
  let total := Z.of_nat (length chunks) * Z.of_nat (w * h) in
  WebmDecoder.get_info env self = (Ok info, self') ->
  ffmpeg_sample env (WebmDecoder.filepath self')
                (Z.max 1 (i_nb_frames info / Z.of_nat (S n))) w h (S n)
  = Ok (0, concat chunks ++ rest) ->
  Forall (fun c => length c = (w * h * 3)%nat) chunks ->
  (length rest < w * h * 3)%nat ->
  chunks <> [] ->
  0 <= black <= total /\ 0 < total /\
  WebmDecoder.analyze_black_pixels env self (S n)
  = (Ok (fdiv (round_Z black) (round_Z total)), self').
Proof.
  intros w h black total Hinfo Hrun Hall Hrest Hne.
  exact (analyze_black_pixels_ratio env self self' info n chunks rest
           Hinfo Hrun Hall Hrest Hne).
Qed.

Lemma analyze_counts_complete_frames_witness :
  (WebmDecoder.analyze_black_pixels (Samples.env_accepting [0; 0; 0; 7; 7])
                                    Fixtures.decoder_of_clip 10).1
  = Ok (fdiv (round_Z 1) (round_Z 1)).
Proof.
  edestruct analyze_counts_complete_frames
    with (env := Samples.env_accepting [0; 0; 0; 7; 7])
         (self := Fixtures.decoder_of_clip) (n := 9%nat)
         (chunks := [[0; 0; 0]]) (rest := [7; 7]) as (_ & _ & H).
  - vm_compute. reflexivity.
  - vm_compute. reflexivity.
  - repeat constructor.
  - vm_compute. lia.
  - discriminate.
  - rewrite H. reflexivity.
Defined.

Section RatioExtremes.

Import WebmDecoder.

(** A finite float divided by itself is 1.0. *)
Lemma fdiv_self (m : positive) (e : Z) :
  fdiv (S754_finite false m e) (S754_finite false m e) = lit_1_0.
Proof.
  unfold fdiv, SFdiv.
  assert (Hcore : SFdiv_core_binary prec emax (Zpos m) e (Zpos m) e
                  = (2 ^ 53, -53, loc_Exact)).
  { unfold SFdiv_core_binary. rewrite !Z.sub_diag.
    change (fexp prec emax 0) with (-53). change (Z.min (-53) 0) with (-53).
    change (0 - -53) with 53.
    rewrite Z.shiftl_mul_pow2 by lia.
    destruct (Z.div_eucl (Zpos m * 2 ^ 53) (Zpos m)) as [q r] eqn:E.
    assert (Hq : q = 2 ^ 53).
    { transitivity (Zpos m * 2 ^ 53 / Zpos m).
      - unfold Z.div. rewrite E. reflexivity.
      - rewrite Z.mul_comm. apply Z.div_mul. lia. }
    assert (Hr : r = 0).
    { transitivity ((Zpos m * 2 ^ 53) mod Zpos m).
      - unfold Z.modulo. rewrite E. reflexivity.
      - rewrite Z.mul_comm. apply Z.mod_mul. lia. }
    subst q r. unfold new_location.
    destruct (Z.even (Zpos m)); reflexivity. }
  rewrite Hcore. vm_compute. reflexivity.
Qed.

Lemma round_Z_self_ratio (z : Z) :
  0 < z < 2 ^ 53 -> fdiv (round_Z z) (round_Z z) = lit_1_0.
Proof.
  intros [Hpos Hlt]. destruct z as [|p|p]; try lia.
  destruct (round_Z_exact p Hlt) as (m & e & ->). apply fdiv_self.
Qed.

Lemma round_Z_zero_ratio (z : Z) :
  0 < z < 2 ^ 53 -> fdiv (round_Z 0) (round_Z z) = lit_0_0.
Proof.
  intros [Hpos Hlt]. destruct z as [|p|p]; try lia.
  destruct (round_Z_exact p Hlt) as (m & e & ->). reflexivity.
Qed.

Lemma reshape_pixels_Forall (P : Z -> Prop) (n c : nat) :
  forall raw : list Z,
    Forall P raw -> Forall (Forall P) (reshape_pixels n c raw).
Proof.
  induction n as [|n IH]; intros raw H; simpl; constructor.
  - apply Forall_take. exact H.
  - apply IH. apply Forall_drop. exact H.
Qed.

Lemma count_near_black_all (frame_data : list Z) :
  Forall (fun v => v < 20) frame_data ->
  count_near_black frame_data = Z.of_nat (length frame_data) / 3.
Proof.
  intros H. unfold count_near_black.
  rewrite <- (Nat2Z.inj_div _ 3). f_equal.
  rewrite <- (reshape_pixels_length (length frame_data `div` 3) 3 frame_data) at 2.
  f_equal. apply forallb_filter_id.
  apply forallb_forall. intros px Hpx.
  pose proof (reshape_pixels_Forall _ (length frame_data `div` 3) 3 _ H) as Hall.
  rewrite Forall_forall in Hall.
  specialize (Hall px (proj2 (list_elem_of_In _ _) Hpx)).
  apply forallb_forall. intros v Hv. apply Z.ltb_lt.
  rewrite Forall_forall in Hall. apply Hall. apply list_elem_of_In. exact Hv.
Qed.

Lemma count_near_black_none (k : nat) (frame_data : list Z) :
  length frame_data = (k * 3)%nat ->
  Forall (fun v => 20 <= v) frame_data ->
  count_near_black frame_data = 0.
Proof.
  intros Hlen H. unfold count_near_black.
  rewrite Hlen, Nat.div_mul by lia.
  destruct (reshape_pixels_shape k 3 frame_data Hlen) as [_ Hshape].
  pose proof (reshape_pixels_Forall _ k 3 _ H) as Hall.
  induction (reshape_pixels k 3 frame_data) as [|px l IH]; [reflexivity|].
  apply Forall_cons in Hshape as [Hpx Hshape].
  apply Forall_cons in Hall as [Hbig Hall].
  simpl.
  destruct px as [|v px]; [discriminate Hpx|].
  apply Forall_cons in Hbig as [Hv _]. simpl.
  destruct (Z.ltb_spec v 20) as [Habs|_]; [lia|]. simpl.
  exact (IH Hshape Hall).
Qed.

Lemma near_black_total_all (frame_size : nat) (chunks : list (list Z)) :
  Forall (fun c => length c = frame_size) chunks ->
  Forall (Forall (fun v => v < 20)) chunks ->
  near_black_total chunks = Z.of_nat (length chunks) * (Z.of_nat frame_size / 3).
Proof.
  induction 1 as [|c chunks Hc _ IH]; intros Hall; simpl; [lia|].
  apply Forall_cons in Hall as [Hblack Hall].
  rewrite (count_near_black_all c Hblack), Hc, (IH Hall). lia.
Qed.

Lemma near_black_total_none (k : nat) (chunks : list (list Z)) :
  Forall (fun c => length c = (k * 3)%nat) chunks ->
  Forall (Forall (fun v => 20 <= v)) chunks ->
  near_black_total chunks = 0.
Proof.
  induction 1 as [|c chunks Hc _ IH]; intros Hall; simpl; [reflexivity|].
  apply Forall_cons in Hall as [Hbright Hall].
  rewrite (count_near_black_none k c Hc Hbright), (IH Hall). reflexivity.
Qed.

End RatioExtremes.

(** X9.  The extremes of the ratio are exact.  On a successful sampling run
    with at least one complete frame (fewer than [2^53] pixels in all): if
    every sampled byte is below 20 the ratio is exactly 1.0, and the plan made
    from it synthesizes transparency; if every sampled byte is 20 or more the
    ratio is exactly 0.0. *)
Theorem analyze_ratio_extremes (env : Env) (self self' : WebmDecoder.t)
        (info : VideoInfo) (n : nat) (chunks : list (list Z)) (rest : list Z) :
  let w := Nat.min 320 (i_width info) in
  let h := Nat.min 240 (i_height info) in
  WebmDecoder.get_info env self = (Ok info, self') ->
  ffmpeg_sample env (WebmDecoder.filepath self')
                (Z.max 1 (i_nb_frames info / Z.of_nat (S n))) w h (S n)
  = Ok (0, concat chunks ++ rest) ->
  Forall (fun c => length c = (w * h * 3)%nat) chunks ->
  (length rest < w * h * 3)%nat ->
  chunks <> [] ->
  Z.of_nat (length chunks) * Z.of_nat (w * h) < 2 ^ 53 ->
  (Forall (Forall (fun v => v < 20)) chunks ->
   WebmDecoder.analyze_black_pixels env self (S n) = (Ok lit_1_0, self') /\
   plan_transparency false lit_1_0
   = {| use_transparency := true; convert_black := true |}) /\
  (Forall (Forall (fun v => 20 <= v)) chunks ->
   WebmDecoder.analyze_black_pixels env self (S n) = (Ok lit_0_0, self')).
Proof.
  intros w h Hinfo Hrun Hall Hrest Hne Hsmall.
  destruct (analyze_black_pixels_ratio env self self' info n chunks rest
              Hinfo Hrun Hall Hrest Hne) as (_ & Hpos & Hval).
  fold w h in Hpos, Hval.
  assert (Hdiv : Z.of_nat (w * h * 3) / 3 = Z.of_nat (w * h)).
  { rewrite Nat2Z.inj_mul. apply Z.div_mul. lia. }
  split.
  - intros Hblack. split; [|vm_compute; reflexivity].
    rewrite Hval, (near_black_total_all _ _ Hall Hblack), Hdiv.
    rewrite round_Z_self_ratio by lia. reflexivity.
  - intros Hbright. rewrite Hval.
    rewrite (near_black_total_none (w * h) chunks) by assumption.
    rewrite round_Z_zero_ratio by lia. reflexivity.
Qed.

Lemma analyze_ratio_extremes_witness :
  (WebmDecoder.analyze_black_pixels (Samples.env_accepting [0; 19; 3; 7; 7])
                                    Fixtures.decoder_of_clip 10).1
  = Ok lit_1_0 /\
  (WebmDecoder.analyze_black_pixels (Samples.env_accepting [20; 200; 30])
                                    Fixtures.decoder_of_clip 10).1
  = Ok lit_0_0.
Proof.
  split.
  - edestruct analyze_ratio_extremes
      with (env := Samples.env_accepting [0; 19; 3; 7; 7])
           (self := Fixtures.decoder_of_clip) (n := 9%nat)
           (chunks := [[0; 19; 3]]) (rest := [7; 7]) as [Hall _].
    + vm_compute. reflexivity.
    + vm_compute. reflexivity.
    + repeat constructor.
    + vm_compute. lia.
    + discriminate.
    + vm_compute. reflexivity.
    + destruct Hall as [H _]; [repeat constructor; lia|].
      rewrite H. reflexivity.
  - edestruct analyze_ratio_extremes
      with (env := Samples.env_accepting [20; 200; 30])
           (self := Fixtures.decoder_of_clip) (n := 9%nat)
           (chunks := [[20; 200; 30]]) (rest := @nil Z) as [_ Hnone].
    + vm_compute. reflexivity.
    + vm_compute. reflexivity.
    + repeat constructor.
    + vm_compute. lia.
    + discriminate.
    + vm_compute. reflexivity.
    + rewrite Hnone; [reflexivity|]. repeat constructor; lia.
Defined.

(* ===================================================================== *)
(** * The channel fix-up of [add_frame]                                   *)
(* ===================================================================== *)

Section Formats.

Lemma tobytes_length (f : Frame) :
  Frame_wf f -> length (tobytes f) = (height f * width f * channels f)%nat.
Proof.
  intros [Hn Hpx]. unfold tobytes.
  rewrite (length_concat_uniform _ _ Hpx), Hn. reflexivity.
Qed.

Lemma opaque_pixels_wf (c : nat) (px : list (list Z)) :
  Forall (fun p => length p = c) px ->
  Forall (fun p => length p = (c + 1)%nat) (map opaque_pixel px).
Proof.
  intros H. apply Forall_map. eapply Forall_impl; [exact H|].
  intros p Hp. unfold opaque_pixel. simpl. rewrite length_app, Hp. reflexivity.
Qed.

Lemma take3_pixels_wf (px : list (list Z)) :
  Forall (fun p => length p = 4%nat) px ->
  Forall (fun p => length p = 3%nat) (map (take 3) px).
Proof.
  intros H. apply Forall_map. eapply Forall_impl; [exact H|].
  intros p Hp. simpl. rewrite length_take, Hp. reflexivity.
Qed.

Lemma ensure_format_rgb_to_rgba (f : Frame) :
  Frame_wf f -> channels f = 3%nat ->
  GifWriter.ensure_format true f
  = {| height := height f; width := width f; channels := 4;
       pixels := map opaque_pixel (pixels f) |}.
Proof.
  intros [Hlen _] Hc. unfold GifWriter.ensure_format. rewrite Hc. simpl.
  rewrite (concatenate_opaque_alpha f Hlen), Hc. reflexivity.
Qed.

Lemma ensure_format_rgba_to_rgb (f : Frame) :
  channels f = 4%nat ->
  GifWriter.ensure_format false f
  = {| height := height f; width := width f; channels := 3;
       pixels := map (take 3) (pixels f) |}.
Proof.
  intros Hc. unfold GifWriter.ensure_format, first_three_channels.
  rewrite Hc. reflexivity.
Qed.

Lemma ensure_format_same (ut : bool) (f : Frame) :
  channels f = (if ut then 4%nat else 3%nat) ->
  GifWriter.ensure_format ut f = f.
Proof.
  intros Hc. unfold GifWriter.ensure_format. destruct ut; rewrite Hc; reflexivity.
Qed.

End Formats.

(** X10.  For a well-shaped frame of three or four channels, the fix-up of
    [add_frame] yields a well-shaped frame of the same height and width with
    exactly the channel count of the encoder's pixel format (4 for [rgba], 3
    for [rgb24]), so the chunk written has [height * width * channels] bytes;
    applying the fix-up again changes nothing. *)
Theorem ensure_format_matches_encoder (ut : bool) (f : Frame) :
  Frame_wf f ->
  channels f = 3%nat \/ channels f = 4%nat ->
  let g := GifWriter.ensure_format ut f in
  let c := if ut then 4%nat else 3%nat in
  Frame_wf g /\ height g = height f /\ width g = width f /\ channels g = c /\
  length (tobytes g) = (height f * width f * c)%nat /\
  GifWriter.ensure_format ut g = g.
Proof.
  intros Hwf Hc g c.
  assert (Hg : Frame_wf g /\ height g = height f /\ width g = width f /\ channels g = c).
  { subst g c. destruct Hwf as [Hlen Hpx]. destruct ut, Hc as [Hc|Hc].
    - rewrite (ensure_format_rgb_to_rgba f (conj Hlen Hpx) Hc). simpl.
      repeat split; try reflexivity.
      + simpl. rewrite length_map. exact Hlen.
      + simpl. rewrite Hc in Hpx. exact (opaque_pixels_wf 3 _ Hpx).
    - rewrite (ensure_format_same true f Hc). repeat split; assumption.
    - rewrite (ensure_format_same false f Hc). repeat split; assumption.
    - rewrite (ensure_format_rgba_to_rgb f Hc). simpl.
      repeat split; try reflexivity.
      + simpl. rewrite length_map. exact Hlen.
      + simpl. rewrite Hc in Hpx. exact (take3_pixels_wf _ Hpx). }
  destruct Hg as (Hgwf & Hh & Hw & Hgc).
  repeat split; try assumption; try apply Hgwf.
  - rewrite (tobytes_length g Hgwf), Hh, Hw, Hgc. reflexivity.
  - apply ensure_format_same. exact Hgc.
Qed.

Lemma ensure_format_matches_encoder_witness :
  channels (GifWriter.ensure_format true Fixtures.frame_rgb) = 4%nat /\
  length (tobytes (GifWriter.ensure_format false Fixtures.frame_rgba)) = 6%nat.
Proof.
  assert (H3 : Frame_wf Fixtures.frame_rgb) by (apply Frame_wf_iff; reflexivity).
  assert (H4 : Frame_wf Fixtures.frame_rgba) by (apply Frame_wf_iff; reflexivity).
  split.
  - exact (proj1 (proj2 (proj2 (proj2
             (ensure_format_matches_encoder true Fixtures.frame_rgb H3
                                            (or_introl eq_refl)))))).
  - exact (proj1 (proj2 (proj2 (proj2 (proj2
             (ensure_format_matches_encoder false Fixtures.frame_rgba H4
                                            (or_intror eq_refl))))))).
Defined.

(** X11.  The other way round loses the alpha values and nothing else: a
    well-shaped four-channel frame stripped for an opaque encoder and then
    extended for a transparent one keeps its shape and its colour bytes, and
    every alpha value becomes 255. *)
Theorem strip_then_extend_resets_alpha (f : Frame) :
  Frame_wf f -> channels f = 4%nat ->
  GifWriter.ensure_format true (GifWriter.ensure_format false f)
  = {| height := height f; width := width f; channels := 4;
       pixels := map (fun px => take 3 px ++ [255]) (pixels f) |}.
Proof.
  intros [Hlen Hpx] Hc.
  rewrite (ensure_format_rgba_to_rgb f Hc).
  rewrite ensure_format_rgb_to_rgba.
  - simpl. rewrite map_map. reflexivity.
  - split; simpl.
    + rewrite length_map. exact Hlen.
    + rewrite Hc in Hpx. exact (take3_pixels_wf _ Hpx).
  - reflexivity.
Qed.

Lemma strip_then_extend_resets_alpha_witness :
  pixels (GifWriter.ensure_format true
            (GifWriter.ensure_format false Fixtures.frame_rgba))
  = [[0; 5; 16; 255]; [17; 0; 0; 255]].
Proof.
  rewrite (strip_then_extend_resets_alpha Fixtures.frame_rgba).
  - reflexivity.
  - apply Frame_wf_iff. reflexivity.
  - reflexivity.
Defined.

(* ===================================================================== *)
(** * More on the masking                                                 *)
(* ===================================================================== *)

Section MaskingLemmas.

Lemma is_black_max (t t' : Z) (px : list Z) :
  is_black (Z.max t t') px = is_black t px || is_black t' px.
Proof.
  unfold is_black. generalize (take 3 px). intros l.
  destruct (Z.le_ge_cases t t') as [H|H].
  - rewrite Z.max_r by exact H.
    destruct (forallb (fun v => v <=? t) l) eqn:E; [|reflexivity].
    simpl. apply forallb_forall. intros v Hv.
    rewrite forallb_forall in E. specialize (E v Hv).
    apply Z.leb_le. apply Z.leb_le in E. lia.
  - rewrite Z.max_l by exact H. rewrite orb_comm.
    destruct (forallb (fun v => v <=? t') l) eqn:E; [|reflexivity].
    simpl. apply forallb_forall. intros v Hv.
    rewrite forallb_forall in E. specialize (E v Hv).
    apply Z.leb_le. apply Z.leb_le in E. lia.
Qed.

Lemma is_black_after_mask (t t' : Z) (px : list Z) :
  is_black t' (mask_pixel t px) = is_black t' px.
Proof.
  unfold is_black. rewrite mask_pixel_colors. reflexivity.
Qed.

Lemma mask_pixel_max (t t' : Z) (px : list Z) :
  mask_pixel t' (mask_pixel t px) = mask_pixel (Z.max t t') px.
Proof.
  unfold mask_pixel at 1. rewrite is_black_after_mask.
  unfold mask_pixel. rewrite is_black_max.
  destruct (is_black t px), (is_black t' px); simpl; try reflexivity.
  apply list_insert_insert_eq.
Qed.

Lemma convert_black_to_transparent_narrow (f : Frame) (t : Z) :
  (channels f < 3)%nat ->
  convert_black_to_transparent f t = Raise IndexError.
Proof.
  intros Hlt. unfold convert_black_to_transparent.
  destruct (Nat.eqb_spec (channels f) 3) as [E|_]; [lia|].
  rewrite assign_masked_black_mask.
  destruct (Nat.ltb_spec 3 (channels f)); [lia|]. reflexivity.
Qed.

Lemma convert_black_to_transparent_three (f : Frame) (t : Z) :
  channels f = 3%nat ->
  convert_black_to_transparent f t
  = Ok {| height := height f; width := width f; channels := 4;
          pixels := map (mask_pixel t)
                        (zip_with (@app Z) (pixels f)
                                  (repeat [255] (height f * width f))) |}.
Proof.
  intros Heq. unfold convert_black_to_transparent.
  rewrite Heq. simpl Nat.eqb. cbv iota.
  rewrite assign_masked_black_mask. simpl. rewrite Heq. reflexivity.
Qed.

End MaskingLemmas.

(** X12.  On a well-shaped three-channel frame the masking returns a
    well-shaped four-channel frame of the same height and width: a pixel
    [(r, g, b)] becomes [(r, g, b, 0)] when [r], [g] and [b] are all [<= t]
    and [(r, g, b, 255)] otherwise.  It is the masking of the frame that
    [add_frame] would make of it for a transparent encoder. *)
Theorem masking_rgb (f : Frame) (t : Z) :
  Frame_wf f -> channels f = 3%nat ->
  exists f',
    convert_black_to_transparent f t = Ok f' /\
    convert_black_to_transparent (GifWriter.ensure_format true f) t = Ok f' /\
    Frame_wf f' /\
    height f' = height f /\ width f' = width f /\ channels f' = 4%nat /\
    forall i px, pixels f !! i = Some px ->
      exists r g b,
        px = [r; g; b] /\
        pixels f' !! i
        = Some (if (r <=? t) && (g <=? t) && (b <=? t)
                then [r; g; b; 0] else [r; g; b; 255]).
Proof.
  intros Hwf Hc. pose proof Hwf as [Hlen Hpx].
  rewrite (convert_black_to_transparent_rgb f t Hc Hlen).
  eexists. split; [reflexivity|].
  split.
  { rewrite (ensure_format_rgb_to_rgba f Hwf Hc).
    rewrite convert_black_to_transparent_alpha by (simpl; lia).
    simpl. rewrite map_map. reflexivity. }
  assert (Hshape : forall px, px ∈ pixels f -> exists r g b, px = [r; g; b]).
  { intros px Hin. rewrite Forall_forall in Hpx. specialize (Hpx px Hin).
    rewrite Hc in Hpx.
    destruct px as [|r [|g [|b [|? ?]]]]; simpl in Hpx; try discriminate. eauto. }
  split.
  { split; simpl.
    - rewrite length_map. exact Hlen.
    - apply Forall_map. apply Forall_forall. intros px Hin.
      destruct (Hshape px Hin) as (r & g & b & ->). simpl.
      unfold opaque_pixel. simpl. rewrite mask_pixel_rgba.
      destruct ((r <=? t) && (g <=? t) && (b <=? t)); reflexivity. }
  simpl. repeat split.
  intros i px Hi.
  destruct (Hshape px (proj2 (list_elem_of_lookup _ _) (ex_intro _ i Hi)))
    as (r & g & b & ->).
  exists r, g, b. split; [reflexivity|].
  rewrite list_lookup_fmap, Hi. simpl. unfold opaque_pixel. simpl.
  rewrite mask_pixel_rgba. reflexivity.
Qed.

Lemma masking_rgb_witness :
  exists f',
    convert_black_to_transparent Fixtures.frame_rgb 16 = Ok f' /\
    pixels f' !! 0%nat = Some [0; 5; 16; 0] /\
    pixels f' !! 1%nat = Some [17; 0; 0; 255].
Proof.
  assert (Hwf : Frame_wf Fixtures.frame_rgb) by (apply Frame_wf_iff; reflexivity).
  destruct (masking_rgb Fixtures.frame_rgb 16 Hwf eq_refl)
    as (f' & Hrun & _ & _ & _ & _ & _ & Hpx).
  exists f'. split; [exact Hrun|]. split.
  - destruct (Hpx 0%nat [0; 5; 16] eq_refl) as (r & g & b & E & H).
    injection E as <- <- <-. exact H.
  - destruct (Hpx 1%nat [17; 0; 0] eq_refl) as (r & g & b & E & H).
    injection E as <- <- <-. exact H.
Defined.

(** X13.  Masking with threshold [t] and then with threshold [t'] is masking
    once with the larger of the two, for every frame, also where the function
    raises; so the order of two maskings does not matter. *)
Theorem masking_thresholds_compose (f : Frame) (t t' : Z) :
  (g <- convert_black_to_transparent f t ;; convert_black_to_transparent g t')
  = convert_black_to_transparent f (Z.max t t').
Proof.
  destruct (lt_eq_lt_dec (channels f) 3) as [[Hlt|Heq]|Hgt].
  - rewrite !(convert_black_to_transparent_narrow f) by exact Hlt.
    reflexivity.
  - rewrite !(convert_black_to_transparent_three f) by exact Heq.
    change (convert_black_to_transparent
              {| height := height f; width := width f; channels := 4;
                 pixels := map (mask_pixel t)
                               (zip_with (@app Z) (pixels f)
                                         (repeat [255] (height f * width f))) |} t'
            = Ok {| height := height f; width := width f; channels := 4;
                    pixels := map (mask_pixel (Z.max t t'))
                                  (zip_with (@app Z) (pixels f)
                                            (repeat [255] (height f * width f))) |}).
    rewrite convert_black_to_transparent_alpha by (simpl; lia). simpl.
    rewrite map_map. do 2 f_equal. apply map_ext. intros px.
    apply mask_pixel_max.
  - rewrite !(convert_black_to_transparent_alpha f) by lia.
    change (convert_black_to_transparent
              {| height := height f; width := width f; channels := channels f;
                 pixels := map (mask_pixel t) (pixels f) |} t'
            = Ok {| height := height f; width := width f; channels := channels f;
                    pixels := map (mask_pixel (Z.max t t')) (pixels f) |}).
    rewrite convert_black_to_transparent_alpha by (simpl; lia). simpl.
    rewrite map_map. do 2 f_equal. apply map_ext. intros px.
    apply mask_pixel_max.
Qed.

(** X14.  On a well-shaped four-channel frame of [uint8] values, a threshold
    below zero masks nothing (the frame comes back unchanged) and a threshold
    of 255 or more masks everything (every alpha value becomes 0, the colour
    bytes stay). *)
Theorem masking_threshold_extremes (f : Frame) (t : Z) :
  Frame_wf f -> channels f = 4%nat ->
  Forall (Forall is_uint8) (pixels f) ->
  (t < 0 -> convert_black_to_transparent f t = Ok f) /\
  (255 <= t ->
   convert_black_to_transparent f t
   = Ok {| height := height f; width := width f; channels := 4;
           pixels := map (fun px => take 3 px ++ [0]) (pixels f) |}).
Proof.
  intros [Hlen Hpx] Hc Hbytes.
  rewrite convert_black_to_transparent_alpha by lia. rewrite Hc.
  assert (Hshape : forall px, In px (pixels f) ->
            exists r g b a, px = [r; g; b; a] /\
                            is_uint8 r /\ is_uint8 g /\ is_uint8 b).
  { intros px Hin. apply list_elem_of_In in Hin.
    rewrite Forall_forall in Hpx, Hbytes.
    specialize (Hpx px Hin). specialize (Hbytes px Hin). rewrite Hc in Hpx.
    destruct px as [|r [|g [|b [|a [|? ?]]]]]; simpl in Hpx; try discriminate.
    apply Forall_cons in Hbytes as [Hr Hbytes].
    apply Forall_cons in Hbytes as [Hg Hbytes].
    apply Forall_cons in Hbytes as [Hb _]. eauto 10. }
  split; intros Ht; f_equal.
  - destruct f as [h w c px]. simpl in *. subst c. f_equal.
    rewrite <- (map_id px) at 2. apply map_ext_in. intros p Hin.
    destruct (Hshape p Hin) as (r & g & b & a & -> & [Hr _] & _).
    rewrite mask_pixel_rgba.
    destruct (Z.leb_spec r t) as [Habs|_]; [lia|]. reflexivity.
  - f_equal. apply map_ext_in. intros p Hin.
    destruct (Hshape p Hin) as (r & g & b & a & -> & [_ Hr] & [_ Hg] & [_ Hb]).
    rewrite mask_pixel_rgba.
    destruct (Z.leb_spec r t) as [_|Habs]; [|lia].
    destruct (Z.leb_spec g t) as [_|Habs]; [|lia].
    destruct (Z.leb_spec b t) as [_|Habs]; [|lia]. reflexivity.
Qed.

Lemma masking_threshold_extremes_witness :
  convert_black_to_transparent Fixtures.frame_rgba (-1) = Ok Fixtures.frame_rgba /\
  convert_black_to_transparent Fixtures.frame_rgba 255
  = Ok {| height := 1; width := 2; channels := 4;
          pixels := [[0; 5; 16; 0]; [17; 0; 0; 0]] |}.
Proof.
  assert (Hwf : Frame_wf Fixtures.frame_rgba) by (apply Frame_wf_iff; reflexivity).
  assert (Hb : Forall (Forall is_uint8) (pixels Fixtures.frame_rgba)).
  { repeat constructor; unfold is_uint8; lia. }
  split.
  - apply (proj1 (masking_threshold_extremes Fixtures.frame_rgba (-1) Hwf eq_refl Hb)).
    lia.
  - rewrite (proj2 (masking_threshold_extremes Fixtures.frame_rgba 255 Hwf eq_refl Hb))
      by lia.
    reflexivity.
Defined.

(* ===================================================================== *)
(** * The encoder handle                                                  *)
(* ===================================================================== *)


(** X16.  The encoder is started once.  [add_frame] on a writer that has a
    process never starts another one and never compares the frame with the
    size the encoder was started for: whatever the frame's dimensions, the
    process keeps its command, and the frame counter moves exactly when the
    call returns. *)
Theorem add_frame_keeps_command (env : Env) (w w' : GifWriter.t) (p : Popen)
        (frame : Frame) (fs fs' : FS) (r : result unit) :
  GifWriter.process w = Some p ->
  GifWriter.add_frame env w frame fs = (r, w', fs') ->
  (exists p', GifWriter.process w' = Some p' /\ cmd p' = cmd p) /\
  GifWriter._width w' = GifWriter._width w /\
  GifWriter._height w' = GifWriter._height w /\
  GifWriter.frame_count w'
  = if is_ok r then S (GifWriter.frame_count w) else GifWriter.frame_count w.
Proof.
  intros Hp H. unfold GifWriter.add_frame in H. rewrite Hp in H.
  cbn beta iota in H. rewrite Hp in H.
  destruct (enc_write env p _) as [|exited].
  - injection H as <- <- <-. simpl. repeat split. eauto.
  - injection H as <- <- <-. simpl. repeat split. eauto.
Qed.

Lemma add_frame_keeps_command_witness :
  exists w' fs',
    GifWriter.add_frame Fixtures.env_two_frames
      {| GifWriter.output_path := "out.gif"; GifWriter.fps := lit_30_0;
         GifWriter.use_transparency := true;
         GifWriter.process :=
           Some {| cmd := {| c_transparency := true; c_width := 9; c_height := 9;
                             c_fps := lit_30_0; c_output := "out.gif" |};
                   stdin_data := [] |};
         GifWriter.frame_count := 0;
         GifWriter._width := Some 9%nat; GifWriter._height := Some 9%nat |}
      Fixtures.frame_rgba ∅
    = (Ok tt, w', fs') /\
    GifWriter._width w' = Some 9%nat /\ GifWriter.frame_count w' = 1%nat.
Proof.
  eexists _, _. split; [vm_compute; reflexivity|].
  match goal with
  | |- GifWriter._width ?w' = _ /\ _ =>
      destruct (add_frame_keeps_command Fixtures.env_two_frames
                  {| GifWriter.output_path := "out.gif"; GifWriter.fps := lit_30_0;
                     GifWriter.use_transparency := true;
                     GifWriter.process :=
                       Some {| cmd := {| c_transparency := true; c_width := 9;
                                         c_height := 9; c_fps := lit_30_0;
                                         c_output := "out.gif" |};
                               stdin_data := [] |};
                     GifWriter.frame_count := 0;
                     GifWriter._width := Some 9%nat;
                     GifWriter._height := Some 9%nat |}
                  w' _ Fixtures.frame_rgba ∅ _ (Ok tt) eq_refl
                  ltac:(vm_compute; reflexivity))
        as (_ & Hw & _ & Hn)
  end.
  split; [exact Hw|exact Hn].
Defined.


(* ===================================================================== *)
(** * The frame loop                                                      *)
(* ===================================================================== *)

Section FrameLoop.

(** One decoded frame on its way to the encoder. *)
Lemma decoded_frame_delivery (has_alpha : bool) (black_ratio : float)
      (h w : nat) (raw : list Z) :
  let plan := plan_transparency has_alpha black_ratio in
  let c := decoded_channels has_alpha plan in
  length raw = (w * h * c)%nat ->
  exists frame,
    transform_frame plan (frombuffer_reshape h w c raw) = Ok frame /\
    height frame = h /\ width frame = w /\
    GifWriter.ensure_format (use_transparency plan) frame = frame /\
    tobytes frame = delivered_bytes plan h w raw.
Proof.
  intros plan c Hlen.
  assert (Hlen' : length raw = (h * w * c)%nat) by lia.
  assert (Hcases :
            (convert_black plan = false /\
             c = (if use_transparency plan then 4%nat else 3%nat)) \/
            (convert_black plan = true /\ use_transparency plan = true /\ c = 4%nat)).
  { subst c plan. unfold decoded_channels, plan_transparency.
    destruct has_alpha; simpl; [left; split; reflexivity|].
    destruct (flt lit_0_1 black_ratio); simpl;
      [right; repeat split; reflexivity | left; split; reflexivity]. }
  destruct Hcases as [[Hcb Hc]|(Hcb & Hut & Hc)].
  - exists (frombuffer_reshape h w c raw).
    unfold transform_frame, delivered_bytes. rewrite Hcb.
    split; [reflexivity|]. split; [reflexivity|]. split; [reflexivity|]. split.
    + apply ensure_format_same. exact Hc.
    + apply reshape_pixels_concat. exact Hlen'.
  - unfold transform_frame, delivered_bytes. rewrite Hcb, Hut, Hc.
    rewrite convert_black_to_transparent_alpha by (simpl; lia).
    eexists. split; [reflexivity|]. repeat split.
Qed.

Lemma add_frame_accepted (env : Env) (w : GifWriter.t) (c : EncoderCmd)
      (n : nat) (written : list (list Z)) (frame : Frame) (fs : FS) :
  accepting env ->
  writer_holds w c n written ->
  width frame = c_width c -> height frame = c_height c ->
  exists w' fs',
    GifWriter.add_frame env w frame fs = (Ok tt, w', fs') /\
    writer_holds w' c (S n)
      (written ++ [tobytes (GifWriter.ensure_format (c_transparency c) frame)]).
Proof.
  intros [Hspawn Hwrite] (Hout & Hfps & Hut & Hn & Hproc) Hw Hh.
  assert (Hcmd : {| c_transparency := GifWriter.use_transparency w;
                    c_width := width frame; c_height := height frame;
                    c_fps := GifWriter.fps w;
                    c_output := GifWriter.output_path w |} = c).
  { rewrite Hout, Hfps, Hut, Hw, Hh. destruct c; reflexivity. }
  assert (Hnonempty : forall x : list Z,
             match written ++ [x] with
             | [] => @None Popen
             | _ => Some {| cmd := c; stdin_data := written ++ [x] |}
             end = Some {| cmd := c; stdin_data := written ++ [x] |}).
  { intros x. destruct written; reflexivity. }
  unfold GifWriter.add_frame. rewrite Hproc.
  destruct written as [|x written].
  - unfold GifWriter._start_ffmpeg. rewrite Hspawn. cbn beta iota.
    cbn [GifWriter.process GifWriter.use_transparency]. rewrite Hwrite.
    eexists _, _. split; [reflexivity|].
    unfold writer_holds. cbn. rewrite Hcmd, Hut.
    repeat split; try assumption. rewrite Hn. reflexivity.
  - cbn beta iota. rewrite Hproc, Hwrite.
    eexists _, _. split; [reflexivity|].
    unfold writer_holds. cbn. rewrite Hut.
    repeat split; try assumption. rewrite Hn. reflexivity.
Qed.

Import WebmDecoder.

Lemma frame_loop_delivers (env : Env) (has_alpha : bool) (black_ratio : float)
      (c : EncoderCmd) (chunks : list (list Z)) :
  let plan := plan_transparency has_alpha black_ratio in
  accepting env ->
  c_transparency c = use_transparency plan ->
  forall (g : Generator) (rest : list Z) (fuel : nat) (w : GifWriter.t)
         (n : nat) (written : list (list Z)) (frame_count : nat) (fs : FS),
    g_width g = c_width c -> g_height g = c_height c ->
    g_channels g = decoded_channels has_alpha plan ->
    g_stdout g = concat chunks ++ rest ->
    Forall (fun x => length x = (g_width g * g_height g * g_channels g)%nat) chunks ->
    (length rest < g_width g * g_height g * g_channels g)%nat ->
    is_zero (g_fps g) = false ->
    Z.of_nat (g_frame_count g + length chunks) <= 2 ^ 53 ->
    (length chunks < fuel)%nat ->
    writer_holds w c n written ->
    exists w' fs',
      frame_loop fuel env plan g w frame_count fs = Some (Ok tt, w', fs') /\
      writer_holds w' c (n + length chunks)
        (written ++ map (delivered_bytes plan (c_height c) (c_width c)) chunks).
Proof.
  intros plan Hacc Hut.
  induction chunks as [|x chunks IH];
    intros g rest fuel w n written frame_count fs Hgw Hgh Hgc Hout Hall Hrest
           Hfps Hcount Hfuel Hw.
  - destruct fuel as [|fuel]; [simpl in Hfuel; lia|].
    simpl in Hout. simpl frame_loop. unfold next. rewrite Hout.
    rewrite firstn_all2 by lia.
    destruct (Nat.eqb_spec (length rest) (g_width g * g_height g * g_channels g))
      as [E|_]; [lia|].
    simpl. eexists _, _. split; [reflexivity|].
    rewrite Nat.add_0_r, app_nil_r. exact Hw.
  - destruct fuel as [|fuel]; [simpl in Hfuel; lia|].
    apply Forall_cons in Hall as [Hx Hall].
    simpl in Hout. rewrite <- app_assoc in Hout.
    simpl frame_loop. unfold next. rewrite Hout.
    rewrite take_app_length' by (symmetry; exact Hx).
    rewrite drop_app_length' by (symmetry; exact Hx).
    rewrite Hx, Nat.eqb_refl. simpl negb. cbv iota.
    unfold int_div_float.
    rewrite float_of_int_exact by (rewrite length_cons in Hcount; lia).
    cbn [bind]. unfold float_truediv. rewrite Hfps.
    destruct (decoded_frame_delivery has_alpha black_ratio (g_height g) (g_width g) x)
      as (frame & Htr & Hfh & Hfw & Hsame & Hbytes).
    { fold plan. rewrite <- Hgc. exact Hx. }
    fold plan in Htr, Hsame, Hbytes. rewrite <- Hgc in Htr. rewrite Htr.
    destruct (add_frame_accepted env w c n written frame fs Hacc Hw)
      as (w1 & fs1 & Hadd & Hw1); [congruence|congruence|].
    rewrite Hadd.
    rewrite Hut, Hsame, Hbytes, Hgh, Hgw in Hw1.
    match goal with
    | |- context [frame_loop fuel env plan ?g' w1 ?k fs1] =>
        destruct (IH g' rest fuel w1 (S n)
                     (written ++ [delivered_bytes plan (c_height c) (c_width c) x])
                     k fs1)
          as (w' & fs' & Hloop & Hw');
        cbn [g_stdout g_width g_height g_channels g_fps g_frame_count];
        try assumption; try reflexivity
    end.
    + rewrite length_cons in Hcount. lia.
    + rewrite length_cons in Hfuel. lia.
    + exists w', fs'. split; [exact Hloop|].
      rewrite length_cons. simpl map.
      replace (n + S (length chunks))%nat with (S n + length chunks)%nat by lia.
      rewrite <- app_assoc in Hw'. exact Hw'.
Qed.

End FrameLoop.

(** X17.  On the conversion path the channel fix-up of [add_frame] has
    nothing to do: the decoder is asked for four channels exactly when the
    plan makes the writer transparent, so a decoded frame, masked or not,
    already has the encoder's format, and the bytes written for it are the
    raw frame, or the raw frame with the alpha of its near-black pixels set
    to 0 when the plan converts black. *)
Theorem decoded_frames_fit_encoder (has_alpha : bool) (black_ratio : float)
        (h w : nat) (raw : list Z) :
  let plan := plan_transparency has_alpha black_ratio in
  let c := decoded_channels has_alpha plan in
  length raw = (w * h * c)%nat ->
  c = (if use_transparency plan then 4%nat else 3%nat) /\
  exists frame,
    transform_frame plan (frombuffer_reshape h w c raw) = Ok frame /\
    GifWriter.ensure_format (use_transparency plan) frame = frame /\
    tobytes frame = delivered_bytes plan h w raw /\
    length (tobytes frame) = length raw.
Proof.
  intros plan c Hlen. split.
  { subst c plan. unfold decoded_channels, plan_transparency.
    destruct has_alpha; simpl; [reflexivity|].
    destruct (flt lit_0_1 black_ratio); reflexivity. }
  destruct (decoded_frame_delivery has_alpha black_ratio h w raw Hlen)
    as (frame & Htr & _ & _ & Hsame & Hbytes).
  exists frame. repeat split; try assumption.
  fold plan in Hbytes. rewrite Hbytes. unfold delivered_bytes.
  destruct (convert_black plan) eqn:Hcb; [|reflexivity].
  assert (Hc : c = 4%nat).
  { subst c. unfold decoded_channels. rewrite Hcb, orb_true_r. reflexivity. }
  rewrite Hc in Hlen.
  destruct (reshape_pixels_shape (h * w) 4 raw) as [Hn Hpx]; [lia|].
  rewrite (length_concat_uniform 4).
  - rewrite length_map, Hn. lia.
  - apply Forall_map. eapply Forall_impl; [exact Hpx|].
    intros px Hl. simpl. unfold mask_pixel.
    destruct (is_black black_threshold px); [rewrite length_insert|]; exact Hl.
Qed.

Lemma decoded_frames_fit_encoder_witness :
  exists frame,
    transform_frame (plan_transparency false lit_1_0)
                    (frombuffer_reshape 1 2 4 [0; 0; 0; 255; 9; 9; 99; 255])
    = Ok frame /\
    tobytes frame = [0; 0; 0; 0; 9; 9; 99; 255].
Proof.
  destruct (decoded_frames_fit_encoder false lit_1_0 1 2
              [0; 0; 0; 255; 9; 9; 99; 255] eq_refl)
    as (_ & frame & Htr & _ & Hbytes & _).
  exists frame. split; [exact Htr|]. rewrite Hbytes. vm_compute. reflexivity.
Defined.

(** X18.  What reaches the encoder.  The encoder starts and takes every
    write; the decoder delivers [k] complete frames and then less than one
    frame; the frame rate is not zero.  Then the frame loop ends normally, the
    writer has counted [k] frames, and its encoder, started once for the
    frame size of the clip and the plan's transparency, has received one chunk
    per frame, in order: the raw frame, masked when the plan converts black.
    With no complete frame no encoder is started. *)
Theorem frame_loop_feeds_encoder (env : Env) (has_alpha : bool)
        (black_ratio : float) (g : WebmDecoder.Generator)
        (output_path : string) (chunks : list (list Z)) (rest : list Z)
        (fuel : nat) (fs : FS) :
  let plan := plan_transparency has_alpha black_ratio in
  let command := {| c_transparency := use_transparency plan;
                    c_width := WebmDecoder.g_width g;
                    c_height := WebmDecoder.g_height g;
                    c_fps := WebmDecoder.g_fps g;
                    c_output := output_path |} in
  let frame_size := (WebmDecoder.g_width g * WebmDecoder.g_height g
                     * WebmDecoder.g_channels g)%nat in
  accepting env ->
  WebmDecoder.g_channels g = decoded_channels has_alpha plan ->
  WebmDecoder.g_frame_count g = 0%nat ->
  WebmDecoder.g_stdout g = concat chunks ++ rest ->
  Forall (fun x => length x = frame_size) chunks ->
  (length rest < frame_size)%nat ->
  is_zero (WebmDecoder.g_fps g) = false ->
  Z.of_nat (length chunks) <= 2 ^ 53 ->
  (length chunks < fuel)%nat ->
  exists w' fs',
    frame_loop fuel env plan g
               (GifWriter.init output_path (WebmDecoder.g_fps g) (use_transparency plan))
               0 fs
    = Some (Ok tt, w', fs') /\
    GifWriter.frame_count w' = length chunks /\
    GifWriter.process w'
    = match chunks with
      | [] => None
      | _ => Some {| cmd := command;
                     stdin_data :=
                       map (delivered_bytes plan (WebmDecoder.g_height g)
                                            (WebmDecoder.g_width g)) chunks |}
      end.
Proof.
  intros plan command frame_size Hacc Hgc Hzero Hout Hall Hrest Hfps Hk Hfuel.
  destruct (frame_loop_delivers env has_alpha black_ratio command chunks Hacc
              eq_refl g rest fuel
              (GifWriter.init output_path (WebmDecoder.g_fps g) (use_transparency plan))
              0%nat [] 0%nat fs)
    as (w' & fs' & Hloop & Hout_ & Hfps_ & Hut_ & Hn & Hproc);
    try assumption; try reflexivity.
  - rewrite Hzero. exact Hk.
  - repeat split; reflexivity.
  - exists w', fs'. split; [exact Hloop|]. split; [exact Hn|].
    rewrite Hproc. simpl. destruct chunks; reflexivity.
Qed.

Lemma frame_loop_feeds_encoder_witness :
  exists w' fs',
    frame_loop 3 (Samples.env_accepting [0; 0; 0])
      (plan_transparency false lit_1_0)
      {| WebmDecoder.g_height := 1; WebmDecoder.g_width := 1;
         WebmDecoder.g_channels := 4; WebmDecoder.g_fps := lit_10_0;
         WebmDecoder.g_stdout := [0; 0; 0; 255; 9; 9; 99; 255; 1; 2];
         WebmDecoder.g_frame_count := 0 |}
      (GifWriter.init "out.gif" lit_10_0 true) 0 ∅
    = Some (Ok tt, w', fs') /\
    GifWriter.process w'
    = Some {| cmd := {| c_transparency := true; c_width := 1; c_height := 1;
                        c_fps := lit_10_0; c_output := "out.gif" |};
              stdin_data := [[0; 0; 0; 0]; [9; 9; 99; 255]] |}.
Proof.
  destruct (frame_loop_feeds_encoder (Samples.env_accepting [0; 0; 0]) false lit_1_0
              {| WebmDecoder.g_height := 1; WebmDecoder.g_width := 1;
                 WebmDecoder.g_channels := 4; WebmDecoder.g_fps := lit_10_0;
                 WebmDecoder.g_stdout := [0; 0; 0; 255; 9; 9; 99; 255; 1; 2];
                 WebmDecoder.g_frame_count := 0 |}
              "out.gif" [[0; 0; 0; 255]; [9; 9; 99; 255]] [1; 2] 3 ∅)
    as (w' & fs' & Hloop & _ & Hproc).
  - split; intros; reflexivity.
  - reflexivity.
  - reflexivity.
  - reflexivity.
  - repeat constructor.
  - simpl. lia.
  - reflexivity.
  - simpl. lia.
  - simpl. lia.
  - exists w', fs'. split; [exact Hloop|]. rewrite Hproc. vm_compute. reflexivity.
Defined.

(* ===================================================================== *)
(** * An input that is already named [.gif]                               *)
(* ===================================================================== *)



(* ===================================================================== *)
(** * Batch discovery                                                     *)
(* ===================================================================== *)

Section Discovery.

Lemma insert_by_name_In (x y : Path * Path) (l : list (Path * Path)) :
  In x (insert_by_name y l) <-> x = y \/ In x l.
Proof.
  induction l as [|z l IH]; simpl; [intuition congruence|].
  destruct (String.leb (path_name y.1) (path_name z.1)); simpl.
  - intuition congruence.
  - rewrite IH. intuition congruence.
Qed.

Lemma sorted_by_name_In (x : Path * Path) (l : list (Path * Path)) :
  In x (sorted_by_name l) <-> In x l.
Proof.
  induction l as [|y l IH]; simpl; [reflexivity|].
  rewrite insert_by_name_In, IH. intuition congruence.
Qed.

Lemma name_le_total (x y : Path * Path) : name_le x y \/ name_le y x.
Proof. apply String.leb_total. Qed.

Lemma insert_by_name_HdRel (a x : Path * Path) (l : list (Path * Path)) :
  name_le a x -> HdRel name_le a l -> HdRel name_le a (insert_by_name x l).
Proof.
  intros Hax Hal. destruct l as [|z l]; simpl; [constructor; exact Hax|].
  destruct (String.leb (path_name x.1) (path_name z.1)).
  - constructor. exact Hax.
  - constructor. inversion Hal; assumption.
Qed.

Lemma insert_by_name_Sorted (x : Path * Path) (l : list (Path * Path)) :
  Sorted name_le l -> Sorted name_le (insert_by_name x l).
Proof.
  induction 1 as [|z l Hs IH Hhd]; simpl; [repeat constructor|].
  destruct (String.leb (path_name x.1) (path_name z.1)) eqn:E.
  - constructor; [constructor; assumption|]. constructor. exact E.
  - constructor; [exact IH|].
    apply insert_by_name_HdRel; [|exact Hhd].
    destruct (name_le_total x z) as [H|H]; [|exact H].
    unfold name_le in H. congruence.
Qed.

Lemma sorted_by_name_Sorted (l : list (Path * Path)) :
  Sorted name_le (sorted_by_name l).
Proof.
  induction l as [|x l IH]; simpl; [constructor|].
  apply insert_by_name_Sorted. exact IH.
Qed.

Lemma sorted_by_name_length (l : list (Path * Path)) :
  length (sorted_by_name l) = length l.
Proof.
  assert (Hins : forall x m, length (insert_by_name x m) = S (length m)).
  { intros x m. induction m as [|z m IH]; simpl; [reflexivity|].
    destruct (String.leb (path_name x.1) (path_name z.1)); simpl;
      [reflexivity|rewrite IH; reflexivity]. }
  induction l as [|x l IH]; simpl; [reflexivity|]. rewrite Hins, IH. reflexivity.
Qed.

Lemma eligible_split (e : DirEntry) (exts : list string) :
  eligible e exts
  = (e_is_file e && str_in_list (lower_str (p_suffix (e_path e))) exts)
    && negb (e_is_symlink e && negb (e_resolved_is_file e)).
Proof. reflexivity. Qed.

Lemma scan_entries_In (exts : list string) (fs : FS) (entries : list DirEntry) :
  forall files,
    scan_entries entries exts fs = Ok files ->
    forall x,
      In x files <->
      exists e gif_path,
        In e entries /\ eligible e exts = true /\
        with_suffix (listed_input e) ".gif" = Ok gif_path /\
        non_empty_file (path_str gif_path) fs = false /\
        x = (listed_input e, gif_path).
Proof.
  induction entries as [|e entries IH]; intros files Hscan x.
  - injection Hscan as <-. simpl. split; [contradiction|].
    intros (e & g & [] & _).
  - simpl in Hscan.
    assert (Hrest : forall files',
               scan_entries entries exts fs = Ok files' ->
               (forall g, eligible e exts = true ->
                          with_suffix (listed_input e) ".gif" = Ok g ->
                          non_empty_file (path_str g) fs = false -> False) ->
               (In x files' <->
                exists e0 gif_path,
                  In e0 (e :: entries) /\ eligible e0 exts = true /\
                  with_suffix (listed_input e0) ".gif" = Ok gif_path /\
                  non_empty_file (path_str gif_path) fs = false /\
                  x = (listed_input e0, gif_path))).
    { intros files' Hs Hnot. rewrite (IH files' Hs x). split.
      - intros (e0 & g & Hin & H). exists e0, g. split; [right; exact Hin|exact H].
      - intros (e0 & g & [<-|Hin] & He & Hg & Hn & Hx).
        + exfalso. exact (Hnot g He Hg Hn).
        + exists e0, g. repeat split; assumption. }
    destruct (e_is_file e && str_in_list (lower_str (p_suffix (e_path e))) exts)
      eqn:E1.
    + destruct (e_is_symlink e && negb (e_resolved_is_file e)) eqn:E2.
      * apply (Hrest files Hscan). intros g He. rewrite eligible_split, E1, E2 in He.
        discriminate He.
      * fold (listed_input e) in Hscan.
        destruct (with_suffix (listed_input e) ".gif") as [g|err] eqn:Eg;
          [|discriminate Hscan].
        simpl in Hscan.
        destruct (non_empty_file (path_str g) fs) eqn:En.
        -- apply (Hrest files Hscan). intros g' _ Hg' Hn'. congruence.
        -- destruct (scan_entries entries exts fs) as [files'|err] eqn:Es;
             [|discriminate Hscan].
           simpl in Hscan. injection Hscan as <-. simpl.
           rewrite (IH files' eq_refl x). split.
           ++ intros [<-|(e0 & g0 & Hin & H)].
              ** exists e, g. split; [left; reflexivity|].
                 rewrite eligible_split, E1, E2. repeat split; assumption.
              ** exists e0, g0. split; [right; exact Hin|exact H].
           ++ intros (e0 & g0 & [<-|Hin] & He & Hg & Hn & ->).
              ** left. congruence.
              ** right. exists e0, g0. repeat split; assumption.
    + apply (Hrest files Hscan). intros g He. rewrite eligible_split, E1 in He.
      discriminate He.
Qed.

Lemma scan_entries_length (exts : list string) (fs : FS) (entries : list DirEntry) :
  forall files,
    scan_entries entries exts fs = Ok files ->
    (length files <= length entries)%nat.
Proof.
  induction entries as [|e entries IH]; intros files Hscan.
  - injection Hscan as <-. simpl. lia.
  - simpl in Hscan.
    destruct (e_is_file e && str_in_list (lower_str (p_suffix (e_path e))) exts);
      [|specialize (IH files Hscan); simpl; lia].
    destruct (e_is_symlink e && negb (e_resolved_is_file e));
      [specialize (IH files Hscan); simpl; lia|].
    destruct (with_suffix _ ".gif") as [g|err]; [|discriminate Hscan].
    simpl in Hscan.
    destruct (non_empty_file (path_str g) fs);
      [specialize (IH files Hscan); simpl; lia|].
    destruct (scan_entries entries exts fs) as [l|err]; [|discriminate Hscan].
    simpl in Hscan. injection Hscan as <-. specialize (IH l eq_refl). simpl. lia.
Qed.

End Discovery.

(** X20.  What discovery lists.  When [find_files_to_convert] returns, a
    pair is in its list exactly when it is the input and the [.gif] path of
    an eligible entry of the directory (a file with one of the extensions,
    compared in lower case; for a symbolic link, its target, which must be a
    file) whose [.gif] does not exist or is empty.  An input with a non-empty
    output is never listed; one with a zero-byte output is. *)
Theorem find_files_lists (host : Host) (directory : string)
        (file_extensions : option (list string)) (fs : FS)
        (entries : list DirEntry) (files : list (Path * Path)) :
  iterdir host directory = Ok entries ->
  find_files_to_convert host directory file_extensions fs = Ok files ->
  forall input_path gif_path,
    In (input_path, gif_path) files <->
    exists e,
      In e entries /\
      eligible e (default default_extensions file_extensions) = true /\
      input_path = listed_input e /\
      with_suffix input_path ".gif" = Ok gif_path /\
      non_empty_file (path_str gif_path) fs = false.
Proof.
  intros Hdir Hfind input_path gif_path.
  unfold find_files_to_convert in Hfind. rewrite Hdir in Hfind. simpl in Hfind.
  destruct (scan_entries entries (default default_extensions file_extensions) fs)
    as [scanned|err] eqn:Hscan; [|discriminate Hfind].
  simpl in Hfind. injection Hfind as <-.
  rewrite sorted_by_name_In, (scan_entries_In _ _ _ _ Hscan). split.
  - intros (e & g & Hin & He & Hg & Hn & Hx). injection Hx as -> ->.
    exists e. repeat split; assumption.
  - intros (e & Hin & He & -> & Hg & Hn).
    exists e, gif_path. repeat split; assumption.
Qed.

Lemma find_files_lists_witness :
  exists files,
    find_files_to_convert Samples.host_with_directory "." None
                          Samples.fs_with_directory = Ok files /\
    In ({| p_dir := "/data/"; p_stem := "cat"; p_suffix := ".tgs" |},
        {| p_dir := "/data/"; p_stem := "cat"; p_suffix := ".gif" |}) files /\
    ~ In ({| p_dir := ""; p_stem := "DONE"; p_suffix := ".WEBM" |},
          {| p_dir := ""; p_stem := "DONE"; p_suffix := ".gif" |}) files.
Proof.
  eexists. split; [vm_compute; reflexivity|].
  match goal with
  | |- In _ ?files /\ _ =>
      pose proof (find_files_lists Samples.host_with_directory "." None
                    Samples.fs_with_directory _ files eq_refl
                    ltac:(vm_compute; reflexivity)) as H
  end.
  split.
  - apply H. eexists. split; [right; left; reflexivity|].
    repeat split; reflexivity.
  - intros Hin. apply H in Hin. destruct Hin as (e & _ & _ & _ & _ & Hn).
    vm_compute in Hn. discriminate Hn.
Defined.

(** X21.  The list discovery returns is ordered by the name of the input,
    and has at most one pair per directory entry. *)
Theorem find_files_sorted (host : Host) (directory : string)
        (file_extensions : option (list string)) (fs : FS)
        (entries : list DirEntry) (files : list (Path * Path)) :
  iterdir host directory = Ok entries ->
  find_files_to_convert host directory file_extensions fs = Ok files ->
  Sorted name_le files /\ (length files <= length entries)%nat.
Proof.
  intros Hdir Hfind.
  unfold find_files_to_convert in Hfind. rewrite Hdir in Hfind. simpl in Hfind.
  destruct (scan_entries entries (default default_extensions file_extensions) fs)
    as [scanned|err] eqn:Hscan; [|discriminate Hfind].
  simpl in Hfind. injection Hfind as <-.
  split; [apply sorted_by_name_Sorted|].
  rewrite sorted_by_name_length. exact (scan_entries_length _ _ _ _ Hscan).
Qed.

Lemma find_files_sorted_witness :
  find_files_to_convert Samples.host_with_directory "." None
                        Samples.fs_with_directory
  = Ok [({| p_dir := "/data/"; p_stem := "cat"; p_suffix := ".tgs" |},
         {| p_dir := "/data/"; p_stem := "cat"; p_suffix := ".gif" |});
        ({| p_dir := ""; p_stem := "zebra"; p_suffix := ".webm" |},
         {| p_dir := ""; p_stem := "zebra"; p_suffix := ".gif" |})] /\
  Sorted name_le
    [({| p_dir := "/data/"; p_stem := "cat"; p_suffix := ".tgs" |},
      {| p_dir := "/data/"; p_stem := "cat"; p_suffix := ".gif" |});
     ({| p_dir := ""; p_stem := "zebra"; p_suffix := ".webm" |},
      {| p_dir := ""; p_stem := "zebra"; p_suffix := ".gif" |})].
Proof.
  split; [vm_compute; reflexivity|].
  exact (proj1 (find_files_sorted Samples.host_with_directory "." None
                  Samples.fs_with_directory _ _ eq_refl
                  ltac:(vm_compute; reflexivity))).
Defined.

(* ===================================================================== *)
(** * Single files, batches and the exit status                           *)
(* ===================================================================== *)

Section Batch.








End Batch.





(** X24.  The exit status.  With exactly one input named together with an
    output path, [main] returns 1 exactly when that input does not exist or
    its conversion fails, and 0 exactly when the input exists and its
    conversion succeeds.  In every other mode (no input, several inputs, or
    one input without an output path) it returns 0 whenever the batch
    returns, also when inputs are missing or conversions fail.  It returns
    no other status. *)
Theorem main_exit_status (fuel : nat) (env : Env) (host : Host) (args : Args)
        (fs : FS) :
  (forall input_path output_path,
      a_input args = [input_path] -> a_output args = Some output_path ->
      (path_exists host input_path fs = false ->
       main fuel env host args fs = Some (Ok 1, fs)) /\
      (forall ok fs1,
          path_exists host input_path fs = true ->
          process_single_file fuel env host input_path (Some output_path) fs
          = Some (Ok ok, fs1) ->
          main fuel env host args fs = Some (Ok (if ok then 0 else 1), fs1)) /\
      (forall code fs',
          main fuel env host args fs = Some (Ok code, fs') ->
          (code = 1 <->
           path_exists host input_path fs = false \/
           process_single_file fuel env host input_path (Some output_path) fs
           = Some (Ok false, fs')) /\
          (code = 0 <->
           path_exists host input_path fs = true /\
           process_single_file fuel env host input_path (Some output_path) fs
           = Some (Ok true, fs')))) /\
  (a_output args = None \/ length (a_input args) <> 1%nat ->
   (a_input args = [] ->
    forall files n fs',
      find_files_to_convert host "." (Some (selected_extensions args)) fs
      = Ok files ->
      process_files fuel env host files 0 fs = Some (Ok n, fs') ->
      main fuel env host args fs = Some (Ok 0, fs')) /\
   (a_input args <> [] ->
    forall n fs',
      process_inputs fuel env host (selected_extensions args) (a_input args) 0 fs
      = Some (Ok n, fs') ->
      main fuel env host args fs = Some (Ok 0, fs'))) /\
  (forall code fs',
      main fuel env host args fs = Some (Ok code, fs') ->
      (code = 0 \/
       code = 1 /\
       exists input_path output_path,
         a_input args = [input_path] /\ a_output args = Some output_path /\
         (path_exists host input_path fs = false \/
          process_single_file fuel env host input_path (Some output_path) fs
          = Some (Ok false, fs'))) /\
      (a_output args = None \/ length (a_input args) <> 1%nat -> code = 0)).
Proof.
  split; [|split].
  - intros input output Hin Hout. unfold main. rewrite Hin, Hout.
    split; [|split].
    + intros Hex. rewrite Hex. reflexivity.
    + intros ok fs1 Hex Hone. rewrite Hex, Hone. destruct ok; reflexivity.
    + intros code fs' H.
      destruct (path_exists host input fs) eqn:Hex; simpl in H.
      * destruct (process_single_file fuel env host input (Some output) fs)
          as [[[[|]|e] fs1]|] eqn:Hone; try discriminate H;
          injection H as <- <-.
        -- split; split; try discriminate; auto.
           intros [Habs|Habs]; discriminate Habs.
        -- split; split; try discriminate; auto.
           intros [_ Habs]. discriminate Habs.
      * injection H as <- <-.
        split; split; try discriminate; auto.
        intros [Habs _]. discriminate Habs.
  - intros Hmode. unfold main. split.
    + intros Hin files n fs' Hfind Hrun. rewrite Hin, Hfind.
      destruct files as [|file files].
      * simpl in Hrun. injection Hrun as _ <-. reflexivity.
      * rewrite Hrun. reflexivity.
    + intros Hin n fs' Hrun.
      destruct (a_input args) as [|input [|input2 inputs]] eqn:Hargs.
      * congruence.
      * destruct (a_output args) as [output|] eqn:Hout.
        -- destruct Hmode as [Habs|Habs]; [discriminate Habs|].
           simpl in Habs. congruence.
        -- rewrite Hrun. reflexivity.
      * destruct (a_output args); rewrite Hrun; reflexivity.
  - unfold main. intros code fs' H.
    destruct (a_input args) as [|input [|input2 inputs]] eqn:Hin.
    + assert (code = 0).
      { repeat match type of H with
               | context [match ?x with _ => _ end] => destruct x; try discriminate H
               end; injection H as <- <-; reflexivity. }
      split; [left; assumption|intros _; assumption].
    + destruct (a_output args) as [output|] eqn:Hout.
      * split; [|intros [Habs|Habs]; [discriminate Habs|simpl in Habs; lia]].
        destruct (path_exists host input fs) eqn:Hex; simpl in H.
        -- destruct (process_single_file fuel env host input (Some output) fs)
             as [[[[|]|e] fs1]|] eqn:Hone; try discriminate H;
             injection H as <- <-.
           ++ left. reflexivity.
           ++ right. split; [reflexivity|]. exists input, output.
              repeat split. right. exact Hone.
        -- injection H as <- <-. right. split; [reflexivity|].
           exists input, output. repeat split. left. exact Hex.
      * assert (code = 0).
        { repeat match type of H with
                 | context [match ?x with _ => _ end] => destruct x; try discriminate H
                 end; injection H as <- <-; reflexivity. }
        split; [left; assumption|intros _; assumption].
    + assert (code = 0).
      { destruct (a_output args);
          repeat match type of H with
                 | context [match ?x with _ => _ end] => destruct x; try discriminate H
                 end; injection H as <- <-; reflexivity. }
      split; [left; assumption|intros _; assumption].
Qed.

(** One named input and an output path: a missing input gives status 1, a
    clip whose probe fails gives status 1, a sticker that converts gives
    status 0; the missing input without [--output] gives status 0. *)
Lemma main_exit_status_witness :
  main 5 Fixtures.env_probe_fails Samples.host_with_directory
       {| a_input := [{| p_dir := ""; p_stem := "missing"; p_suffix := ".webm" |}];
          a_output := Some {| p_dir := ""; p_stem := "out"; p_suffix := ".gif" |};
          a_tgs_only := false; a_webm_only := false |}
       Samples.fs_with_directory
  = Some (Ok 1, Samples.fs_with_directory) /\
  main 5 Fixtures.env_probe_fails Samples.host_with_directory
       {| a_input := [{| p_dir := ""; p_stem := "zebra"; p_suffix := ".webm" |}];
          a_output := Some {| p_dir := ""; p_stem := "out"; p_suffix := ".gif" |};
          a_tgs_only := false; a_webm_only := false |}
       Samples.fs_with_directory
  = Some (Ok 1, delete "out.gif"%string Samples.fs_with_directory) /\
  main 5 Fixtures.env_probe_fails Samples.host_with_directory
       {| a_input := [{| p_dir := "/data/"; p_stem := "cat"; p_suffix := ".tgs" |}];
          a_output := Some {| p_dir := ""; p_stem := "out"; p_suffix := ".gif" |};
          a_tgs_only := false; a_webm_only := false |}
       Samples.fs_with_directory
  = Some (Ok 0, <["out.gif"%string := [71; 73; 70]]> Samples.fs_with_directory) /\
  main 5 Fixtures.env_probe_fails Samples.host_with_directory
       {| a_input := [{| p_dir := ""; p_stem := "missing"; p_suffix := ".webm" |}];
          a_output := None; a_tgs_only := false; a_webm_only := false |}
       Samples.fs_with_directory
  = Some (Ok 0, Samples.fs_with_directory).
Proof.
  split; [|split; [|split]].
  - refine (proj1 (proj1 (main_exit_status 5 Fixtures.env_probe_fails
       Samples.host_with_directory
       {| a_input := [{| p_dir := ""; p_stem := "missing"; p_suffix := ".webm" |}];
          a_output := Some {| p_dir := ""; p_stem := "out"; p_suffix := ".gif" |};
          a_tgs_only := false; a_webm_only := false |}
       Samples.fs_with_directory) _ _ eq_refl eq_refl) _).
    vm_compute. reflexivity.
  - refine (proj1 (proj2 (proj1 (main_exit_status 5 Fixtures.env_probe_fails
       Samples.host_with_directory
       {| a_input := [{| p_dir := ""; p_stem := "zebra"; p_suffix := ".webm" |}];
          a_output := Some {| p_dir := ""; p_stem := "out"; p_suffix := ".gif" |};
          a_tgs_only := false; a_webm_only := false |}
       Samples.fs_with_directory) _ _ eq_refl eq_refl)) false _ _ _).
    + vm_compute. reflexivity.
    + vm_compute. reflexivity.
  - refine (proj1 (proj2 (proj1 (main_exit_status 5 Fixtures.env_probe_fails
       Samples.host_with_directory
       {| a_input := [{| p_dir := "/data/"; p_stem := "cat"; p_suffix := ".tgs" |}];
          a_output := Some {| p_dir := ""; p_stem := "out"; p_suffix := ".gif" |};
          a_tgs_only := false; a_webm_only := false |}
       Samples.fs_with_directory) _ _ eq_refl eq_refl)) true _ _ _).
    + vm_compute. reflexivity.
    + vm_compute. reflexivity.
  - refine (proj2 (proj1 (proj2 (main_exit_status 5 Fixtures.env_probe_fails
       Samples.host_with_directory
       {| a_input := [{| p_dir := ""; p_stem := "missing"; p_suffix := ".webm" |}];
          a_output := None;
          a_tgs_only := false; a_webm_only := false |}
       Samples.fs_with_directory)) (or_introl eq_refl)) _ 0%nat _ _).
    + discriminate.
    + vm_compute. reflexivity.
Defined.

(* ===================================================================== *)
(** * A conversion that succeeds                                          *)
(* ===================================================================== *)

Section Success.

Lemma get_info_fills_cache (env : Env) (self self' : WebmDecoder.t) (info : VideoInfo) :
  WebmDecoder.get_info env self = (Ok info, self') ->
  WebmDecoder._info self' = Some info /\
  WebmDecoder.filepath self' = WebmDecoder.filepath self.
Proof.
  unfold WebmDecoder.get_info. intros H.
  destruct (WebmDecoder._info self) as [cached|] eqn:Hc.
  - injection H as <- <-. split; [exact Hc|reflexivity].
  - destruct (ffprobe env (WebmDecoder.filepath self)) as [e|err|[data|]];
      try discriminate H.
    destruct (WebmDecoder.parse_probe data) as [i|e]; [|discriminate H].
    injection H as <- <-. split; reflexivity.
Qed.

Lemma get_info_cached (env : Env) (self : WebmDecoder.t) (info : VideoInfo) :
  WebmDecoder._info self = Some info ->
  WebmDecoder.get_info env self = (Ok info, self).
Proof. intros H. unfold WebmDecoder.get_info. rewrite H. reflexivity. Qed.

Lemma analyze_keeps_decoder (env : Env) (self : WebmDecoder.t) (info : VideoInfo)
      (n : nat) :
  WebmDecoder._info self = Some info ->
  (WebmDecoder.analyze_black_pixels env self n).2 = self.
Proof.
  intros H. unfold WebmDecoder.analyze_black_pixels.
  rewrite (get_info_cached env self info H). reflexivity.
Qed.

End Success.

(** X25.  A conversion that succeeds.  The input exists, probing answers,
    the analysis (run only without an alpha channel) returns a ratio, the
    decoder delivers at least one complete frame at a frame rate that is not
    zero, and the encoder starts and takes every write.  Then the outcome
    rests on the encoder's reaction to exactly the chunks of
    [delivered_bytes]: if, fed with them under the command built from the
    probed size and the plan, it exits with status 0 and leaves a file at the
    output path, [convert_webm_to_gif] returns the output path and the file
    is there. *)
Theorem conversion_succeeds (fuel : nat) (env : Env) (webm_path gif_path : Path)
        (fs : FS) (info : VideoInfo) (decoder : WebmDecoder.t) (ratio : float)
        (chunks : list (list Z)) (rest : list Z) :
  let plan := plan_transparency (i_has_alpha info)
                                (if i_has_alpha info then lit_0_0 else ratio) in
  let channels := decoded_channels (i_has_alpha info) plan in
  let frame_size := (i_width info * i_height info * channels)%nat in
  let p := {| cmd := {| c_transparency := use_transparency plan;
                        c_width := i_width info; c_height := i_height info;
                        c_fps := i_fps info; c_output := path_str gif_path |};
              stdin_data := map (delivered_bytes plan (i_height info) (i_width info))
                                chunks |} in
  exists_ (path_str webm_path) fs = true ->
  WebmDecoder.get_info env {| WebmDecoder.filepath := path_str webm_path;
                              WebmDecoder._info := None |}
  = (Ok info, decoder) ->
  (i_has_alpha info = false ->
   (WebmDecoder.analyze_black_pixels env decoder 10).1 = Ok ratio) ->
  is_ok (int_of_float (fmul (i_duration info) (i_fps info))) = true ->
  ffmpeg_decode env (path_str webm_path) (i_has_alpha info || convert_black plan)
  = Ok (concat chunks ++ rest) ->
  Forall (fun x => length x = frame_size) chunks ->
  (length rest < frame_size)%nat ->
  chunks <> [] ->
  is_zero (i_fps info) = false ->
  Z.of_nat (length chunks) <= 2 ^ 53 ->
  (length chunks < fuel)%nat ->
  accepting env ->
  enc_returncode env p = 0 ->
  (forall fs0, is_Some (enc_files env AtWait p fs0 !! path_str gif_path)) ->
  exists fs',
    convert_webm_to_gif fuel env webm_path (Some gif_path) fs
    = Some (Ok gif_path, fs') /\
    is_Some (fs' !! path_str gif_path).
Proof.
  intros plan channels frame_size p Hex Hinfo Hratio Hest Hdec Hall Hrest Hne
         Hfps Hk Hfuel Hacc Hrc Hfile.
  destruct (get_info_fills_cache _ _ _ _ Hinfo) as [Hcache Hpath].
  simpl in Hpath.
  unfold convert_webm_to_gif, convert_body, WebmDecoder.init.
  rewrite Hex, Hinfo.
  assert (Hanalysis :
            (if i_has_alpha info then (Ok lit_0_0, decoder)
             else WebmDecoder.analyze_black_pixels env decoder 10)
            = (Ok (if i_has_alpha info then lit_0_0 else ratio), decoder)).
  { destruct (i_has_alpha info) eqn:Ha; [reflexivity|].
    specialize (Hratio eq_refl).
    pose proof (analyze_keeps_decoder env decoder info 10 Hcache) as Hd.
    destruct (WebmDecoder.analyze_black_pixels env decoder 10) as [r d].
    simpl in Hratio, Hd. subst r d. reflexivity. }
  rewrite Hanalysis. fold plan.
  destruct (int_of_float (fmul (i_duration info) (i_fps info))) as [est|];
    [|discriminate Hest].
  unfold WebmDecoder.decode_frames.
  rewrite (get_info_cached env decoder info Hcache), Hpath, Hdec.
  change (if i_has_alpha info || convert_black plan then 4%nat else 3%nat)
    with channels.
  destruct (frame_loop_delivers env (i_has_alpha info)
              (if i_has_alpha info then lit_0_0 else ratio) (cmd p) chunks Hacc
              eq_refl
              {| WebmDecoder.g_height := i_height info;
                 WebmDecoder.g_width := i_width info;
                 WebmDecoder.g_channels := channels;
                 WebmDecoder.g_fps := i_fps info;
                 WebmDecoder.g_stdout := concat chunks ++ rest;
                 WebmDecoder.g_frame_count := 0 |}
              rest fuel
              (GifWriter.init (path_str gif_path) (i_fps info) (use_transparency plan))
              0%nat [] 0%nat fs)
    as (w' & fs1 & Hloop & _ & _ & _ & _ & Hproc);
    try assumption; try reflexivity.
  { repeat split; reflexivity. }
  fold plan in Hloop. rewrite Hloop.
  assert (Hp : GifWriter.process w' = Some p).
  { rewrite Hproc. simpl. fold plan. destruct chunks; [congruence|reflexivity]. }
  unfold GifWriter.close. rewrite Hp, Hrc. simpl.
  destruct (Hfile fs1) as [content Hcontent]. rewrite Hcontent.
  eexists. split; [reflexivity|]. eauto.
Qed.

Lemma conversion_succeeds_witness :
  exists fs',
    convert_webm_to_gif 5 (Samples.env_accepting [0; 0; 0]) Fixtures.clip
      (Some {| p_dir := "/tmp/"; p_stem := "clip"; p_suffix := ".gif" |})
      Fixtures.fs_with_clip
    = Some (Ok {| p_dir := "/tmp/"; p_stem := "clip"; p_suffix := ".gif" |}, fs') /\
    is_Some (fs' !! "/tmp/clip.gif"%string).
Proof.
  edestruct conversion_succeeds
    with (fuel := 5%nat) (env := Samples.env_accepting [0; 0; 0])
         (webm_path := Fixtures.clip)
         (gif_path := {| p_dir := "/tmp/"; p_stem := "clip"; p_suffix := ".gif" |})
         (fs := Fixtures.fs_with_clip) (ratio := lit_1_0)
         (chunks := [[0; 0; 0; 255]; [9; 9; 99; 255]]) (rest := [1; 2])
    as (fs' & Hrun & Hfile).
  - vm_compute. reflexivity.
  - vm_compute. reflexivity.
  - intros _. vm_compute. reflexivity.
  - vm_compute. reflexivity.
  - vm_compute. reflexivity.
  - repeat constructor.
  - vm_compute. lia.
  - discriminate.
  - vm_compute. reflexivity.
  - simpl. lia.
  - simpl. lia.
  - split; intros; reflexivity.
  - reflexivity.
  - intros fs0. simpl. rewrite lookup_insert_eq. eauto.
  - exists fs'. split; [exact Hrun|exact Hfile].
Defined.

(* ===================================================================== *)
(** * Clips with an alpha channel are not sampled                         *)
(* ===================================================================== *)

Section NoSampling.

Lemma frame_loop_with_sample (env : Env) sample (plan : Plan) (fuel : nat) :
  forall g w n fs,
    frame_loop fuel (with_sample env sample) plan g w n fs
    = frame_loop fuel env plan g w n fs.
Proof.
  induction fuel as [|fuel IH]; intros g w n fs; simpl; [reflexivity|].
  destruct (WebmDecoder.next g) as [frame pts g'| |e]; try reflexivity.
  destruct (transform_frame plan frame) as [frame'|e]; [|reflexivity].
  change (GifWriter.add_frame (with_sample env sample) w frame' fs)
    with (GifWriter.add_frame env w frame' fs).
  destruct (GifWriter.add_frame env w frame' fs) as [[[u|e] w1] fs1];
    [apply IH|reflexivity].
Qed.

End NoSampling.

(** X26.  A clip that probing reports with an alpha channel is never
    sampled: the conversion is the same whatever the sampling run of ffmpeg
    would answer, also if it could not be started at all. *)
Theorem alpha_clip_is_not_sampled (fuel : nat) (env : Env) sample
        (webm_path : Path) (gif_path : option Path) (fs : FS)
        (info : VideoInfo) (decoder : WebmDecoder.t) :
  WebmDecoder.get_info env {| WebmDecoder.filepath := path_str webm_path;
                              WebmDecoder._info := None |}
  = (Ok info, decoder) ->
  i_has_alpha info = true ->
  convert_webm_to_gif fuel (with_sample env sample) webm_path gif_path fs
  = convert_webm_to_gif fuel env webm_path gif_path fs.
Proof.
  intros Hinfo Ha. unfold convert_webm_to_gif.
  destruct (match gif_path with
            | Some p => Ok p
            | None => with_suffix webm_path ".gif"
            end) as [out|e]; [|reflexivity].
  assert (Hbody : convert_body fuel (with_sample env sample) webm_path out fs
                  = convert_body fuel env webm_path out fs).
  { unfold convert_body, WebmDecoder.init.
    destruct (exists_ (path_str webm_path) fs); [|reflexivity].
    change (WebmDecoder.get_info (with_sample env sample)
              {| WebmDecoder.filepath := path_str webm_path;
                 WebmDecoder._info := None |})
      with (WebmDecoder.get_info env
              {| WebmDecoder.filepath := path_str webm_path;
                 WebmDecoder._info := None |}).
    rewrite Hinfo, Ha.
    destruct (int_of_float (fmul (i_duration info) (i_fps info))); [|reflexivity].
    change (WebmDecoder.decode_frames (with_sample env sample) decoder
              (convert_black (plan_transparency true lit_0_0)))
      with (WebmDecoder.decode_frames env decoder
              (convert_black (plan_transparency true lit_0_0))).
    destruct (WebmDecoder.decode_frames env decoder
                (convert_black (plan_transparency true lit_0_0)))
      as [[g|e] d]; [|reflexivity].
    rewrite frame_loop_with_sample.
    destruct (frame_loop fuel env (plan_transparency true lit_0_0) g _ 0 fs)
      as [[[[u|e] w1] fs1]|]; reflexivity. }
  rewrite Hbody. reflexivity.
Qed.

Lemma alpha_clip_is_not_sampled_witness :
  convert_webm_to_gif 5 (with_sample Samples.env_alpha_clip
                                     (fun _ _ _ _ _ => Ok (0, [0; 0; 0])))
                      Fixtures.clip None Fixtures.fs_with_clip
  = convert_webm_to_gif 5 Samples.env_alpha_clip Fixtures.clip None
                        Fixtures.fs_with_clip.
Proof.
  eapply alpha_clip_is_not_sampled.
  - vm_compute. reflexivity.
  - reflexivity.
Defined.

(** The conversion of that clip: its one [rgba] frame reaches the encoder
    with the alpha the decoder delivered. *)
Example alpha_clip_converts :
  exists fs',
    convert_webm_to_gif 5 Samples.env_alpha_clip Fixtures.clip None
                        Fixtures.fs_with_clip
    = Some (Ok {| p_dir := "/tmp/"; p_stem := "clip"; p_suffix := ".gif" |}, fs') /\
    fs' !! "/tmp/clip.gif"%string = Some [71; 73; 70].
Proof. eexists. split; vm_compute; reflexivity. Qed.
